(** * AuraAI front end: view-state reconciliation, verified

    A shallow embedding of the client-side logic of the AuraAI single-page
    application (React components under [Frontend/src]) and the properties
    its specification states about it.

    Conventions of the embedding.
    - A JavaScript string is a [string]: a sequence of code units, here the
      code units below 256 (ASCII and Latin-1).  [length], [substring] and
      [split] count code units, as JavaScript does.
    - A value that may be [undefined] or [null] is an [option]; truthiness
      ([!x], [x || d], [x && y]) is written out.
    - A React component is a function from its props, context and state to
      what it renders; an event handler is a function from the state its
      closure captured and the outcome of the requests it awaits to the
      state updates and effects it performs.
    - An object used as a dictionary is a [gmap] with string keys: the
      keys of the map are the object's own keys.  The members an object
      inherits are listed in [Js.inherited_names]; where a route name
      can be one of them, the lookups of the page do not give
      [undefined], and the runs of the page say so ([Foreign],
      [addMessage_throws]).
    - The hooks of a component are part of a render where the component
      calls them under a condition ([ProductsPage.render]). *)

From Stdlib Require Import String Ascii List Arith Bool Lia.
From stdpp Require Import base option strings pretty gmap fin_maps.
Import ListNotations.

Local Open Scope string_scope.

(** ** JavaScript strings *)

Module Js.

(** [x] is falsy for a string exactly when it is empty. *)
Definition truthy (s : string) : bool :=
  match s with
  | EmptyString => false
  | String _ _ => true
  end.

(** [o || d] for an optional string. *)
Definition or_else (o : option string) (d : string) : string :=
  match o with
  | Some s => if truthy s then s else d
  | None => d
  end.

(** [!o] for an optional string. *)
Definition falsy_opt (o : option string) : bool :=
  match o with
  | Some s => negb (truthy s)
  | None => true
  end.

(** Lower-casing of one code unit: A-Z, and the Latin-1 capitals
    U+00C0-U+00DE without the multiplication sign U+00D7. *)
Definition lowerChar (c : ascii) : ascii :=
  let n := nat_of_ascii c in
  if (((65 <=? n) && (n <=? 90))
      || ((192 <=? n) && (n <=? 222) && negb (n =? 215)))%nat
  then ascii_of_nat (n + 32)
  else c.

(** [s.toLowerCase()] *)
Fixpoint toLowerCase (s : string) : string :=
  match s with
  | EmptyString => EmptyString
  | String c r => String (lowerChar c) (toLowerCase r)
  end.

(** [s.startsWith(p)] *)
Fixpoint startsWith (s p : string) : bool :=
  match p, s with
  | EmptyString, _ => true
  | String _ _, EmptyString => false
  | String a p', String b s' => if Ascii.eqb a b then startsWith s' p' else false
  end.

(** [s.includes(p)] *)
Fixpoint includes (s p : string) : bool :=
  startsWith s p ||
  match s with
  | EmptyString => false
  | String _ r => includes r p
  end.

(** [s.split(sep)] for a one-character separator: the segments between
    the separators, in order; a string without separator is one segment. *)
Fixpoint split (sep : ascii) (s : string) : list string :=
  match s with
  | EmptyString => [EmptyString]
  | String c r =>
      if Ascii.eqb c sep then EmptyString :: split sep r
      else match split sep r with
           | seg :: segs => String c seg :: segs
           | [] => [String c EmptyString]
           end
  end.

(** [a.pop()] as an expression: the last element, [undefined] on []. *)
Definition pop (a : list string) : option string := List.last (map Some a) None.

(** [s.substring(0, n)] for [n] within the clamping rules of the language
    (an end beyond the length is the length). *)
Definition substring0 (n : nat) (s : string) : string := String.substring 0 n s.

(** [s.length <= n] and [s.length > n] *)
Definition length_le (s : string) (n : nat) : bool := (String.length s <=? n)%nat.
Definition length_gt (s : string) (n : nat) : bool := negb (String.length s <=? n)%nat.

(** The characters of a string. *)
Definition has_char (c : ascii) (s : string) : bool :=
  existsb (Ascii.eqb c) (list_ascii_of_string s).

(** White space of [trim] and of the class [\s], among the code units
    below 256: TAB, LF, VT, FF, CR, SP and NBSP. *)
Definition isSpace (c : ascii) : bool :=
  let n := nat_of_ascii c in
  (((9 <=? n) && (n <=? 13)) || (n =? 32) || (n =? 160))%nat.

(** [s.trimStart()] *)
Fixpoint trimStart (s : string) : string :=
  match s with
  | EmptyString => EmptyString
  | String c r => if isSpace c then trimStart r else s
  end.

(** [s.trimEnd()] *)
Fixpoint trimEnd (s : string) : string :=
  match s with
  | EmptyString => EmptyString
  | String c r =>
      match trimEnd r with
      | EmptyString => if isSpace c then EmptyString else String c EmptyString
      | r' => String c r'
      end
  end.

(** [s.trim()] *)
Definition trim (s : string) : string := trimEnd (trimStart s).

(** [s.endsWith(p)] *)
Fixpoint endsWith (s p : string) : bool :=
  String.eqb s p ||
  match s with
  | EmptyString => false
  | String _ r => endsWith r p
  end.

(** [a.join(sep)] *)
Fixpoint join (sep : string) (a : list string) : string :=
  match a with
  | [] => EmptyString
  | [x] => x
  | x :: r => x ++ sep ++ join sep r
  end.

(** [s.replace(/\s+/g, by)]: every maximal run of white space becomes
    one copy of [by]. *)
Fixpoint replace_space_runs_from (in_run : bool) (by_ : string) (s : string) : string :=
  match s with
  | EmptyString => EmptyString
  | String c r =>
      if isSpace c
      then if in_run then replace_space_runs_from true by_ r
           else by_ ++ replace_space_runs_from true by_ r
      else String c (replace_space_runs_from false by_ r)
  end.

Definition replace_space_runs (by_ : string) (s : string) : string :=
  replace_space_runs_from false by_ s.

(** The members that every object literal inherits from
    [Object.prototype].  A lookup [o[name]] by one of these names on an
    object that has no such key of its own does not give [undefined]: it
    gives a function or, for [__proto__], the prototype object. *)
Definition inherited_names : list string :=
  [ "constructor"; "hasOwnProperty"; "isPrototypeOf"; "propertyIsEnumerable";
    "toLocaleString"; "toString"; "valueOf"; "__proto__";
    "__defineGetter__"; "__defineSetter__"; "__lookupGetter__"; "__lookupSetter__" ].

Definition inherited (name : string) : bool :=
  existsb (String.eqb name) inherited_names.

End Js.

(** ** The browser and build environment

    What the components take from outside the repository: the build-time
    API base URL and the [Date] object of the runtime. *)

Class Runtime := {
  (** [import.meta.env.VITE_API_URL] *)
  VITE_API_URL : option string;
  (** [new Date(s).toISOString().split('T')[0]]: the calendar date of a
      parseable date string; [None] when [s] gives an invalid date, on
      which [toISOString] throws a [RangeError]. *)
  Date_isoDate : string -> option string;
  (** [new Date(s).toLocaleDateString("en-US", {...})]; [None] if the
      call throws. *)
  Date_localeDate : string -> option string;
  (** [new Date().toISOString().split('T')[0]] at the [k]-th reading of
      the clock. *)
  Date_today : nat -> string;
}.

(** [const API_URL = import.meta.env.VITE_API_URL || "http://localhost:8000"] *)
Definition API_URL `{Runtime} : string :=
  Js.or_else VITE_API_URL "http://localhost:8000".

(** ** Requests and responses *)

Record Request := {
  req_method : string;
  req_url : string;
}.

(** The outcome of an awaited [fetch]: the promise rejects (network
    failure), or a response arrives.  [resp_json] is what
    [await response.json()] gives: [inl m] when it rejects with an error
    of message [m], [inr b] for the parsed body. *)
Inductive FetchOutcome (A : Type) : Type :=
| Rejected (message : string)
| Responded (ok : bool) (status : string) (statusText : string)
    (resp_json : string + A).
Arguments Rejected {A} message.
Arguments Responded {A} ok status statusText resp_json.

(** ** The session user ([context/AuthContext.jsx]) *)

Record User := {
  user_id : string;
  user_name : string;
  user_email : string;
  persona : option string;
}.

(** [user?.persona === p] *)
Definition persona_is (user : option User) (p : string) : bool :=
  match user with
  | Some u =>
      match persona u with
      | Some q => String.eqb q p
      | None => false
      end
  | None => false
  end.

(** ** [pages/ProductsPage.jsx] *)

Module ProductsPage.

Record ProductInfo := {
  title : string;
  description : string;
  placeholder : string;
}.

Definition Trans2Actions : ProductInfo := {|
  title := "Transcript to Actions";
  description := "Convert raw meeting transcripts into actionable work items by identifying tasks, assigning them to the correct team members, extracting deadlines, and syncing everything  without manual effort.";
  placeholder := "Ask anything about Trans2Actions. Type @ for mentions."
|}.

Definition User_Load : ProductInfo := {|
  title := "User's Workload";
  description := "Fetch your pending tasks, view upcoming deadlines, and update task status instantly using simple natural-language prompts.";
  placeholder := "Ask anything about UserLoad. Type @ for mentions."
|}.

Definition AdminPerspective : ProductInfo := {|
  title := "Admin's Perspective";
  description := "Assign tasks with deadlines and analyze employee performance through visual insights such as heatmaps, workload distribution charts, and progress timelines.";
  placeholder := "Ask anything about AdminPerspective. Type @ for mentions."
|}.

(** The own keys of the [productInfo] table.  On a name that the table
    only inherits (see [Js.inherited]), [productInfo[productName]] is a
    function and not a product; [render] below sets these names apart. *)
Definition productInfo : gmap string ProductInfo :=
  <["Trans2Actions" := Trans2Actions]>
  (<["User-Load" := User_Load]>
  (<["AdminPerspective" := AdminPerspective]> ∅)).

Record Message := {
  msg_id : Z;
  msg_type : string;
  msg_text : string;
}.

Record Document := {
  doc_id : string;
  filename : string;
}.

(** The component's [useState] cells. *)
Record State := {
  inputValue : string;
  messagesByProduct : gmap string (list Message);
  loading : bool;
  uploading : bool;
  documents : list Document;
}.

Definition initialState : State := {|
  inputValue := "";
  messagesByProduct :=
    <["Trans2Actions" := []]> (<["User-Load" := []]> (<["AdminPerspective" := []]> ∅));
  loading := false;
  uploading := false;
  documents := [];
|}.

Definition setUploading (b : bool) (s : State) : State :=
  {| inputValue := inputValue s; messagesByProduct := messagesByProduct s;
     loading := loading s; uploading := b; documents := documents s |}.

Definition setDocuments (d : list Document) (s : State) : State :=
  {| inputValue := inputValue s; messagesByProduct := messagesByProduct s;
     loading := loading s; uploading := uploading s; documents := d |}.

(** [addMessage]: a functional update,
    [prev => ({...prev, [productName]: [...(prev[productName] || []), message]})],
    on a name whose lookup in [prev] is a list or [undefined]; the other
    names are those of [addMessage_throws]. *)
Definition addMessage (productName : string) (message : Message) (s : State) : State :=
  {| inputValue := inputValue s;
     messagesByProduct :=
       <[productName := (default [] (messagesByProduct s !! productName) ++ [message])%list]>
         (messagesByProduct s);
     loading := loading s; uploading := uploading s; documents := documents s |}.

(** *** Rendering *)

Record SidebarLink := {
  label : string;
  href : string;
}.

Definition allSidebarLinks : list SidebarLink :=
  [ {| label := "Trans2Actions"; href := "/products/Trans2Actions" |};
    {| label := "User-Load"; href := "/products/User-Load" |};
    {| label := "AdminPerspective"; href := "/products/AdminPerspective" |} ].

(** What the page shows: the product whose title, description and
    placeholder are rendered, the sidebar, the message area or the empty
    state, and whether the upload control is present. *)
Record PageView := {
  shown_product : ProductInfo;
  shown_links : list (SidebarLink * bool);
  shown_empty_state : bool;
  shown_documents : list Document;
  shown_messages : list Message;
  shown_thinking : bool;
  shown_upload : bool;
}.

Inductive Element :=
| Navigate (to : string) (replace : bool)
| Page (view : PageView).

(** The element that the function body returns, for a route name that
    the tables do not inherit.  The hooks the body calls on the way are
    [hooks_called], the render of the mounted page is [render], and the
    effect that follows a commit is [effect_requests]. *)
Definition ProductsPage (productName : string) (user : option User) (s : State) : Element :=
  let product := default Trans2Actions (productInfo !! productName) in
  let currentMessages := default [] (messagesByProduct s !! productName) in
  if String.eqb productName "AdminPerspective" && persona_is user "employee" then
    Navigate "/products/Trans2Actions" true
  else
    let sidebarLinks :=
      if persona_is user "employee"
      then List.filter (fun link => negb (String.eqb (label link) "AdminPerspective")) allSidebarLinks
      else allSidebarLinks in
    let isActive link :=
      String.eqb productName (label link)
      || (String.eqb (label link) "User-Load" && String.eqb productName "User-Load") in
    let empty := (length currentMessages =? 0)%nat && negb (loading s) in
    Page {|
      shown_product := product;
      shown_links := map (fun link => (link, isActive link)) sidebarLinks;
      shown_empty_state := empty;
      shown_documents :=
        if empty && String.eqb productName "Trans2Actions" then documents s else [];
      shown_messages := currentMessages;
      shown_thinking := loading s;
      shown_upload := String.eqb productName "Trans2Actions";
    |}.

(** The AdminPerspective product is on screen: its title, description and
    prompt are rendered, or the sidebar offers its link. *)
Definition renders_AdminPerspective (e : Element) : Prop :=
  match e with
  | Navigate _ _ => False
  | Page v =>
      shown_product v = AdminPerspective
      \/ Exists (fun l => label (fst l) = "AdminPerspective") (shown_links v)
  end.

(** *** Document upload *)

Record File := {
  file_name : string;
}.

Record DocumentsBody := {
  body_documents : option (list Document);
}.

Record UploadBody := {
  upload_detail : option string;
  upload_message : string;
}.

Section Handlers.
Context `{Runtime}.

(** [loadDocuments]: one GET; the list is replaced only on a success
    response whose body parses. *)
Definition loadDocuments_request : Request :=
  {| req_method := "GET"; req_url := API_URL ++ "/trans2actions/documents" |}.

Definition loadDocuments (response : FetchOutcome DocumentsBody) (s : State) : State :=
  match response with
  | Responded true _ _ (inr data) => setDocuments (default [] (body_documents data)) s
  | _ => s
  end.

Definition allowedExtensions : list string := [".pdf"; ".txt"; ".docx"; ".doc"].

(** ['.' + file.name.split('.').pop().toLowerCase()]; [None] stands for
    the [TypeError] of calling a method on [undefined]. *)
Definition fileExt (name : string) : option string :=
  match Js.pop (Js.split "." name) with
  | Some seg => Some ("." ++ Js.toLowerCase seg)
  | None => None
  end.

(** [allowedExtensions.includes(fileExt)] *)
Definition extension_allowed (ext : string) : bool :=
  existsb (String.eqb ext) allowedExtensions.

Definition unsupported_text : string :=
  "Error: Unsupported file type. Supported formats: PDF, TXT, DOCX".

Definition upload_request : Request :=
  {| req_method := "POST"; req_url := API_URL ++ "/trans2actions/upload" |}.

(** What a run of a handler leaves behind: the component state and the
    requests it sent, oldest first. *)
Record Run := {
  run_state : State;
  run_requests : list Request;
}.

Definition ai_message (now : Z) (text : string) : Message :=
  {| msg_id := now; msg_type := "ai"; msg_text := text |}.

(** [handleFileUpload].  [file] is [event.target.files?.[0]], [now] is the
    reading of [Date.now()] on the path taken, [upload] and [reload] are
    the outcomes of the two requests if they are sent. *)
Definition handleFileUpload (productName : string) (file : option File) (now : Z)
    (upload : FetchOutcome UploadBody) (reload : FetchOutcome DocumentsBody)
    (s : State) : Run :=
  match file with
  | None => {| run_state := s; run_requests := [] |}
  | Some f =>
      match fileExt (file_name f) with
      | None => {| run_state := s; run_requests := [] |}
      | Some ext =>
          if negb (extension_allowed ext) then
            {| run_state := addMessage productName (ai_message now unsupported_text) s;
               run_requests := [] |}
          else
            let s1 := setUploading true s in
            let caught (message : string) :=
              {| run_state :=
                   setUploading false
                     (addMessage productName (ai_message now ("Error: " ++ message)) s1);
                 run_requests := [upload_request] |} in
            match upload with
            | Rejected m => caught m
            | Responded false _ _ (inl m) => caught m
            | Responded false _ _ (inr error) =>
                caught (Js.or_else (upload_detail error) "Failed to upload file")
            | Responded true _ _ (inl m) => caught m
            | Responded true _ _ (inr data) =>
                let s2 := loadDocuments reload s1 in
                {| run_state :=
                     setUploading false
                       (addMessage productName (ai_message now (upload_message data)) s2);
                   run_requests := [upload_request; loadDocuments_request] |}
            end
      end
  end.

End Handlers.

(** *** Deleting a document and submitting a query *)

Definition setInputValue (v : string) (s : State) : State :=
  {| inputValue := v; messagesByProduct := messagesByProduct s;
     loading := loading s; uploading := uploading s; documents := documents s |}.

Definition setLoading (b : bool) (s : State) : State :=
  {| inputValue := inputValue s; messagesByProduct := messagesByProduct s;
     loading := b; uploading := uploading s; documents := documents s |}.

Record DeleteBody := {
  delete_detail : option string;
}.

(** A task of the User-Load reply, [{ name, state }]. *)
Record UserTask := {
  task_name : string;
  task_state : string;
}.

(** The body of the reply to a query, as far as [handleSubmit] reads it
    on one product or another. *)
Record SubmitBody := {
  submit_detail : option string;
  submit_answer : string;
  submit_tasks : option (list UserTask);
  submit_success : bool;
  submit_message : string;
}.

Definition dquote : string := String (ascii_of_nat 34) EmptyString.

Section MoreHandlers.
Context `{Runtime}.

Definition delete_request (documentId : string) : Request :=
  {| req_method := "DELETE";
     req_url := API_URL ++ "/trans2actions/documents/" ++ documentId |}.

(** [handleDeleteDocument] *)
Definition handleDeleteDocument (productName : string) (documentId : string) (now : Z)
    (response : FetchOutcome DeleteBody) (reload : FetchOutcome DocumentsBody)
    (s : State) : Run :=
  let caught (message : string) :=
    {| run_state := addMessage productName (ai_message now ("Error: " ++ message)) s;
       run_requests := [delete_request documentId] |} in
  match response with
  | Rejected m => caught m
  | Responded true _ _ _ =>
      {| run_state :=
           addMessage productName (ai_message now "Document deleted successfully")
             (loadDocuments reload s);
         run_requests := [delete_request documentId; loadDocuments_request] |}
  | Responded false _ _ (inl m) => caught m
  | Responded false _ _ (inr error) =>
      caught (Js.or_else (delete_detail error) "Failed to delete document")
  end.

Definition query_request : Request :=
  {| req_method := "POST"; req_url := API_URL ++ "/trans2actions/query" |}.
Definition userload_tasks_request : Request :=
  {| req_method := "GET"; req_url := API_URL ++ "/userload/tasks" |}.
Definition userload_update_request : Request :=
  {| req_method := "POST"; req_url := API_URL ++ "/userload/update-task" |}.
Definition admin_assign_request : Request :=
  {| req_method := "POST"; req_url := API_URL ++ "/admin/assign-task" |}.

(** The query asks for the task list. *)
Definition asks_for_tasks (query : string) : bool :=
  let lowerQuery := Js.toLowerCase query in
  Js.includes lowerQuery "fetch" || Js.includes lowerQuery "get"
  || Js.includes lowerQuery "show" || Js.includes lowerQuery "list".

(** [data.tasks.map((task, idx) => ...).join("\n")] *)
Definition tasksText (tasks : list UserTask) : string :=
  Js.join (String (ascii_of_nat 10) EmptyString)
    (let fix lines (idx : nat) (l : list UserTask) : list string :=
       match l with
       | [] => []
       | task :: r =>
           (pretty (idx + 1)%nat ++ ". " ++ task_name task ++ " ("
            ++ (if String.eqb (task_state task) "complete" then "✓ Done" else "○ Pending")
            ++ ")") :: lines (S idx) r
       end in
     lines 0%nat tasks).

Definition tasks_reply (tasks : list UserTask) : string :=
  "Here are your tasks:" ++ String (ascii_of_nat 10) (String (ascii_of_nat 10) EmptyString)
  ++ tasksText tasks
  ++ String (ascii_of_nat 10) (String (ascii_of_nat 10) EmptyString)
  ++ "You can update tasks by saying something like " ++ dquote
  ++ "Mark task 1 as complete" ++ dquote ++ " or " ++ dquote
  ++ "Uncheck the first task" ++ dquote ++ ".".

Definition no_tasks_text : string :=
  "No tasks found. Make sure your Trello card '{Your Name}'s Todo' exists in your workspace.".

(** [data.success ? data.message : `Error: ${data.message}`] *)
Definition outcome_text (data : SubmitBody) : string :=
  if submit_success data then submit_message data
  else "Error: " ++ submit_message data.

(** [handleSubmit].  [now1] and [now2] are the two readings of
    [Date.now()] (for the user's message and for the reply); [response] is
    the outcome of the one request the handler makes, if it makes one.
    The four request blocks of the source share one shape: a rejected
    request, an unparseable body and a non-success response all end in the
    [catch] block. *)
Definition handleSubmit (productName : string) (now1 now2 : Z)
    (response : FetchOutcome SubmitBody) (s : State) : Run :=
  if negb (Js.truthy (Js.trim (inputValue s))) || loading s then
    {| run_state := s; run_requests := [] |}
  else
    let query := Js.trim (inputValue s) in
    let userMessage := {| msg_id := now1; msg_type := "user"; msg_text := query |} in
    let s1 := setLoading true (setInputValue "" (addMessage productName userMessage s)) in
    let reply (text : string) (reqs : list Request) :=
      {| run_state :=
           setLoading false (addMessage productName (ai_message (now2 + 1) text) s1);
         run_requests := reqs |} in
    let exchange (req : Request) (fallback : string) (on_ok : SubmitBody -> string) :=
      match response with
      | Rejected m => reply ("Error: " ++ m) [req]
      | Responded _ _ _ (inl m) => reply ("Error: " ++ m) [req]
      | Responded true _ _ (inr data) => reply (on_ok data) [req]
      | Responded false _ _ (inr error) =>
          reply ("Error: " ++ Js.or_else (submit_detail error) fallback) [req]
      end in
    if String.eqb productName "Trans2Actions" then
      exchange query_request "Failed to query transcripts" submit_answer
    else if String.eqb productName "User-Load" then
      if asks_for_tasks query then
        exchange userload_tasks_request "Failed to fetch tasks"
          (fun data =>
             match submit_tasks data with
             | Some (t :: r) => tasks_reply (t :: r)
             | _ => no_tasks_text
             end)
      else
        exchange userload_update_request "Failed to update tasks" outcome_text
    else if String.eqb productName "AdminPerspective" then
      exchange admin_assign_request "Failed to assign task" outcome_text
    else
      {| run_state := setLoading false s1; run_requests := [] |}.

End MoreHandlers.

(** *** The effect of the page and the runs as the page sees them *)

Section Effect.
Context `{Runtime}.

(** Lines 79-92.  The effect depends on [productName] and on
    [currentMessages].  [addMessage] builds a new list, so the effect
    runs after every commit that brings a message of the current product.
    It focuses the input and scrolls; on the Trans2Actions route it also
    calls [loadDocuments]: one more GET, whose answer replaces the
    document list like that of any other reload. *)
Definition effect_requests (productName : string) : list Request :=
  if String.eqb productName "Trans2Actions" then [loadDocuments_request] else [].

Definition effect_settled (productName : string)
    (reload : FetchOutcome DocumentsBody) (s : State) : State :=
  if String.eqb productName "Trans2Actions" then loadDocuments reload s else s.

(** [prev[productName]] in [addMessage] reads the state object, which is
    an object literal.  For a route name that is no key of the state but
    a member every object inherits, the lookup finds a function (or the
    prototype object): it is truthy, it cannot be spread, and the update
    throws a [TypeError] when React runs it.  [addMessage] above is the
    update on every other name. *)
Definition addMessage_throws (productName : string) (s : State) : bool :=
  match messagesByProduct s !! productName with
  | Some _ => false
  | None => Js.inherited productName
  end.

(** The current product has got a message between two states. *)
Definition message_added (productName : string) (before after : State) : bool :=
  negb (length (default [] (messagesByProduct after !! productName))
        =? length (default [] (messagesByProduct before !! productName)))%nat.

(** A handler that adds at most one message, as the page runs it from
    the state [s]: [None] when the update of the messages throws;
    otherwise the run [r] of the handler, followed by the effect if the
    handler added a message.  The message is the last update of the
    handler, so the request of the effect is the last one sent and its
    answer, [effectReload], the last one to settle. *)
Definition then_effect (productName : string)
    (effectReload : FetchOutcome DocumentsBody) (s : State) (r : Run) : option Run :=
  if message_added productName s (run_state r) then
    if addMessage_throws productName s then None
    else Some {| run_state := effect_settled productName effectReload (run_state r);
                 run_requests := (run_requests r ++ effect_requests productName)%list |}
  else Some r.

Definition upload_on_page (productName : string) (file : option File) (now : Z)
    (upload : FetchOutcome UploadBody) (reload effectReload : FetchOutcome DocumentsBody)
    (s : State) : option Run :=
  then_effect productName effectReload s
    (handleFileUpload productName file now upload reload s).

Definition delete_on_page (productName : string) (documentId : string) (now : Z)
    (response : FetchOutcome DeleteBody) (reload effectReload : FetchOutcome DocumentsBody)
    (s : State) : option Run :=
  then_effect productName effectReload s
    (handleDeleteDocument productName documentId now response reload s).

(** A query as the page runs it.  The user's message and the reply are
    two commits, so on the Trans2Actions route the effect runs twice:
    the first reload is sent right after the query, while the query is
    under way, the second after the reply.  [reload1] and [reload2] are
    their answers; [reload1_last] tells that the answer of the first
    arrives after that of the second.  On a name that is no product the
    handler adds the user's message only and sends nothing. *)
Definition submit_on_page (productName : string) (now1 now2 : Z)
    (response : FetchOutcome SubmitBody)
    (reload1 reload2 : FetchOutcome DocumentsBody) (reload1_last : bool)
    (s : State) : option Run :=
  let r := handleSubmit productName now1 now2 response s in
  if message_added productName s (run_state r) then
    if addMessage_throws productName s then None
    else if String.eqb productName "Trans2Actions" then
      Some {| run_state :=
                if reload1_last
                then loadDocuments reload1 (loadDocuments reload2 (run_state r))
                else loadDocuments reload2 (loadDocuments reload1 (run_state r));
              run_requests :=
                (run_requests r ++ [loadDocuments_request; loadDocuments_request])%list |}
    else Some r
  else Some r.

End Effect.

(** *** The hooks of a render *)

(** The hooks that the function body calls, in source order: lines
    30-43 come before the early return of the redirect (line 52), the
    [useRef] of line 55 and the [useEffect] of line 79 after it. *)
Definition hooks_before_redirect : list string :=
  [ "useParams"; "useAuth"; "useState"; "useState"; "useState"; "useState";
    "useState"; "useRef"; "useRef" ].

Definition hooks_after_redirect : list string := [ "useRef"; "useEffect" ].

Definition hooks_called (productName : string) (user : option User) : list string :=
  if String.eqb productName "AdminPerspective" && persona_is user "employee"
  then hooks_before_redirect
  else (hooks_before_redirect ++ hooks_after_redirect)%list.

(** What a render of the page comes to.  React keeps the hooks of a
    mounted component by position and throws when a render calls fewer
    hooks, or more, than the render before it; the tree of [App.jsx] has
    no error boundary, so the application is then unmounted.  [Foreign]
    is the render on a route name that the tables inherit: [product] and
    [currentMessages] are then functions, the page has no title to show
    and may throw; these renders are not followed further. *)
Inductive Rendered :=
| Threw
| Foreign
| Committed (e : Element).

(** One render of the page; [previous] is the list of hooks of the render
    before it, [None] when the page is being mounted. *)
Definition render (previous : option (list string)) (productName : string)
    (user : option User) (s : State) : Rendered :=
  if Js.inherited productName then Foreign
  else
    match previous with
    | Some hooks =>
        if (length hooks =? length (hooks_called productName user))%nat
        then Committed (ProductsPage productName user s)
        else Threw
    | None => Committed (ProductsPage productName user s)
    end.

(** The [productName] of an address that the route
    [/products/:productName] matches. *)
Definition route_param (address : string) : option string :=
  if Js.startsWith address "/products/"
  then Some (String.substring 10 (String.length address - 10) address)
  else None.

(** The renders of one mounted page over a sequence of route names and
    session users, up to the first one that throws.  The route element
    is the same for every product address, so the page stays mounted
    from one address to the next; a committed [Navigate] changes the
    address at once, and the page renders again at the new one. *)
Fixpoint renders (previous : option (list string)) (s : State)
    (visits : list (string * option User)) : list Rendered :=
  match visits with
  | [] => []
  | (productName, user) :: rest =>
      match render previous productName user s with
      | Threw => [Threw]
      | Foreign => [Foreign]
      | Committed (Page v) =>
          Committed (Page v) :: renders (Some (hooks_called productName user)) s rest
      | Committed (Navigate to replace) =>
          Committed (Navigate to replace) ::
          match route_param to with
          | Some target =>
              match render (Some (hooks_called productName user)) target user s with
              | Threw => [Threw]
              | Foreign => [Foreign]
              | Committed e =>
                  Committed e :: renders (Some (hooks_called target user)) s rest
              end
          | None => []
          end
      end
  end.

End ProductsPage.

(** ** [Navbar] and [ProtectedRoute] (in the file of
    [components/dashboard/MeetingDetail.jsx]) *)

Module Navbar.

Record Product := {
  key : string;
  name : string;
  description : string;
}.

Definition allProducts : list Product :=
  [ {| key := "trans2actions"; name := "Trans2Actions";
       description := "Transcript to Executable actions (assigned work, deadlines etc)." |};
    {| key := "userload"; name := "User-Load";
       description := "Fetch pending tasks and deadlines, then update tasks via natural language prompts." |};
    {| key := "adminperspective"; name := "AdminPerspective";
       description := "Admins assign tasks/deadlines and analyze employee progress with heatmaps and more." |} ].

(** The products of the drop-down menu. *)
Definition products (user : option User) : list Product :=
  if persona_is user "employee"
  then List.filter (fun p => negb (String.eqb (key p) "adminperspective")) allProducts
  else allProducts.

(** [to={`/products/${product.name}`}] *)
Definition product_link (p : Product) : string := "/products/" ++ name p.

(** The links at the end of the menu: the dashboard and the logout button
    for a user, login and sign-up otherwise. *)
Definition account_links (user : option User) : list string :=
  match user with
  | Some _ => ["/app"]
  | None => ["/login"; "/signup"]
  end.

End Navbar.

Module ProtectedRoute.

Inductive Element (A : Type) :=
| Loading
| Navigate (to : string) (replace : bool)
| Children (children : A).
Arguments Loading {A}.
Arguments Navigate {A} to replace.
Arguments Children {A} children.

Definition ProtectedRoute {A : Type} (user : option User) (isLoading : bool)
    (children : A) : Element A :=
  if isLoading then Loading
  else match user with
       | None => Navigate "/login" true
       | Some _ => Children children
       end.

End ProtectedRoute.

(** ** [context/AuthContext.jsx] *)

Module AuthContext.

(** The provider's [useState] cells. *)
Record State := {
  user : option User;
  isLoading : bool;
  token : option string;
}.

Definition initialState : State :=
  {| user := None; isLoading := true; token := None |}.

(** The provider together with the browser's [localStorage]. *)
Record World := {
  state : State;
  localStorage : gmap string string;
}.

(** The body of the login, sign-up and Google responses. *)
Record AuthBody := {
  auth_detail : option string;
  access_token : string;
  auth_user : User;
}.

(** What an authentication call gives its caller: the user it returns or
    the message of the error it throws. *)
Inductive Result :=
| Returned (u : User)
| Thrown (message : string).

Section Provider.
(** [JSON.stringify] and [JSON.parse] on user objects; [None] is the
    [SyntaxError] of [JSON.parse]. *)
Variable JSON_stringify : User -> string.
Variable JSON_parse : string -> option User.

(** [localStorage.getItem(k)] as a condition: present and not empty. *)
Definition stored (w : World) (k : string) : option string :=
  match localStorage w !! k with
  | Some v => if Js.truthy v then Some v else None
  | None => None
  end.

(** The mount effect, up to the request of [verifyToken]; [None] when
    [JSON.parse] throws on the stored user. *)
Definition mount (w : World) : option World :=
  match stored w "auraai_token", stored w "auraai_user" with
  | Some storedToken, Some storedUser =>
      match JSON_parse storedUser with
      | Some u =>
          Some {| state := {| user := Some u; isLoading := false;
                              token := Some storedToken |};
                  localStorage := localStorage w |}
      | None => None
      end
  | _, _ =>
      Some {| state := {| user := user (state w); isLoading := false;
                          token := token (state w) |};
              localStorage := localStorage w |}
  end.

(** [logout] *)
Definition logout (w : World) : World :=
  {| state := {| user := None; isLoading := isLoading (state w); token := None |};
     localStorage := delete "auraai_user" (delete "auraai_token" (localStorage w)) |}.

(** [verifyToken], once the response of [/auth/me] has arrived. *)
Definition verifyToken (response : FetchOutcome User) (w : World) : World :=
  match response with
  | Responded true _ _ (inr userData) =>
      {| state := {| user := Some userData; isLoading := isLoading (state w);
                     token := token (state w) |};
         localStorage := <["auraai_user" := JSON_stringify userData]> (localStorage w) |}
  | _ => logout w
  end.

(** The common body of [login], [signup] and [googleAuth]; [fallback] is
    the message used when the error body has no detail. *)
Definition authenticate (fallback : string) (response : FetchOutcome AuthBody)
    (w : World) : World * Result :=
  match response with
  | Rejected m => (w, Thrown m)
  | Responded _ _ _ (inl m) => (w, Thrown m)
  | Responded false _ _ (inr error) => (w, Thrown (Js.or_else (auth_detail error) fallback))
  | Responded true _ _ (inr data) =>
      ({| state := {| user := Some (auth_user data); isLoading := isLoading (state w);
                      token := Some (access_token data) |};
          localStorage :=
            <["auraai_user" := JSON_stringify (auth_user data)]>
              (<["auraai_token" := access_token data]> (localStorage w)) |},
       Returned (auth_user data))
  end.

Definition login := authenticate "Login failed".
Definition signup := authenticate "Signup failed".
Definition googleAuth := authenticate "Google authentication failed".

End Provider.

(** [getAuthHeader]: the value of the [Authorization] header, if the
    header is sent. *)
Definition getAuthHeader (s : State) : option string :=
  match token s with
  | Some t => if Js.truthy t then Some ("Bearer " ++ t) else None
  | None => None
  end.

End AuthContext.

(** ** The application ([App.jsx]) *)

Module App.

(** The provider wraps the routes, and the product route is not behind
    [ProtectedRoute].  When an address [/products/<productName>] is
    opened in a fresh tab, the page is mounted in its initial state and
    first rendered with the provider's initial state, in which there is
    no user yet; the mount effect of the provider then restores the
    session from [localStorage] and the page renders again.  The page
    never reads [isLoading].  A stored user that does not parse makes the
    mount effect throw. *)
Definition open_address (JSON_parse : string -> option User) (productName : string)
    (storage : gmap string string) : list ProductsPage.Rendered :=
  let w := {| AuthContext.state := AuthContext.initialState;
              AuthContext.localStorage := storage |} in
  match AuthContext.mount JSON_parse w with
  | Some w' =>
      ProductsPage.renders None ProductsPage.initialState
        [ (productName, AuthContext.user AuthContext.initialState);
          (productName, AuthContext.user (AuthContext.state w')) ]
  | None =>
      (ProductsPage.renders None ProductsPage.initialState
         [ (productName, AuthContext.user AuthContext.initialState) ]
       ++ [ProductsPage.Threw])%list
  end.

End App.

(** ** [DashboardNav] ([components/DashboardNav.jsx]) *)

Module DashboardNav.

Record NavItem := {
  path : string;
  label : string;
}.

Definition navItems : list NavItem :=
  [ {| path := "/tasks"; label := "Tasks" |};
    {| path := "/meetings"; label := "Meetings" |};
    {| path := "/settings"; label := "Settings" |} ].

(** [isActive] *)
Definition isActive (pathname path : string) : bool :=
  String.eqb pathname ("/app" ++ path)
  || Js.startsWith pathname ("/app" ++ path ++ "/").

(** The items shown as active on a location. *)
Definition active_items (pathname : string) : list NavItem :=
  List.filter (fun item => isActive pathname (path item)) navItems.

End DashboardNav.

(** ** The sign-up page ([SignupPage]) *)

Module SignupPage.

Record FormData := {
  name : string;
  email : string;
  password : string;
  confirmPassword : string;
  persona : string;
}.

Definition initialForm : FormData :=
  {| name := ""; email := ""; password := ""; confirmPassword := "";
     persona := "employee" |}.

Record State := {
  formData : FormData;
  errors : gmap string string;
  loading : bool;
}.

(** All the ways to cut a string in two. *)
Fixpoint splits (s : string) : list (string * string) :=
  (EmptyString, s) ::
  match s with
  | EmptyString => []
  | String c r => map (fun ab => (String c (fst ab), snd ab)) (splits r)
  end.

(** A character of the class [[^\s@]]. *)
Definition plain (c : ascii) : bool :=
  negb (Js.isSpace c) && negb (Ascii.eqb c "@").

(** [s] as a whole matches [[^\s@]+]. *)
Definition plain_word (s : string) : bool :=
  Js.truthy s && forallb plain (list_ascii_of_string s).

(** [/^[^\s@]+@[^\s@]+\.[^\s@]+$/.test(s)]: the string is cut into a
    word, an at sign, a word, a dot and a word. *)
Definition email_test (s : string) : bool :=
  existsb
    (fun xr =>
       plain_word (fst xr)
       && match snd xr with
          | String "@" d =>
              existsb
                (fun yr =>
                   plain_word (fst yr)
                   && match snd yr with
                      | String "." z => plain_word z
                      | _ => false
                      end)
                (splits d)
          | _ => false
          end)
    (splits s).

(** [validateForm]: the errors by field. *)
Definition validateForm (fd : FormData) : gmap string string :=
  let e1 : gmap string string :=
    if negb (Js.truthy (Js.trim (name fd))) then <["name" := "Name is required"]> ∅ else ∅ in
  let e2 :=
    if negb (Js.truthy (Js.trim (email fd))) then <["email" := "Email is required"]> e1
    else if negb (email_test (email fd))
         then <["email" := "Please enter a valid email"]> e1 else e1 in
  let e3 :=
    if negb (Js.truthy (password fd)) then <["password" := "Password is required"]> e2
    else if (String.length (password fd) <? 6)%nat
         then <["password" := "Password must be at least 6 characters"]> e2 else e2 in
  let e4 :=
    if negb (String.eqb (password fd) (confirmPassword fd))
    then <["confirmPassword" := "Passwords do not match"]> e3 else e3 in
  if negb (Js.truthy (persona fd)) then <["persona" := "Please select a role"]> e4 else e4.

(** What a submit leaves: the page, the session, whether the sign-up
    request was sent, and whether the page navigates to the dashboard
    (after its delay). *)
Record Run := {
  run_state : State;
  run_world : AuthContext.World;
  run_sent : bool;
  run_navigates : bool;
}.

(** [handleSubmit]; [response] is the outcome of the sign-up request. *)
Definition handleSubmit (JSON_stringify : User -> string)
    (response : FetchOutcome AuthContext.AuthBody)
    (s : State) (w : AuthContext.World) : Run :=
  let newErrors := validateForm (formData s) in
  if negb (bool_decide (newErrors = ∅)) then
    {| run_state := {| formData := formData s; errors := newErrors; loading := loading s |};
       run_world := w; run_sent := false; run_navigates := false |}
  else
    match AuthContext.signup JSON_stringify response w with
    | (w', AuthContext.Returned _) =>
        {| run_state := {| formData := formData s; errors := ∅; loading := true |};
           run_world := w'; run_sent := true; run_navigates := true |}
    | (w', AuthContext.Thrown m) =>
        {| run_state :=
             {| formData := formData s;
                errors := <["form" := Js.or_else (Some m) "Signup failed. Please try again."]> ∅;
                loading := false |};
           run_world := w'; run_sent := true; run_navigates := false |}
    end.

End SignupPage.

(** ** [components/dashboard/TasksView.jsx] *)

Module TasksView.

(** A card of the board as the backend returns it. *)
Module Card.
Record t := {
  id : string;
  name : string;
  desc : option string;
  closed : bool;
  due : option string;
  dateLastActivity : option string;
  shortUrl : option string;
  url : option string;
  comments_count : option nat;
  checklists_count : option nat;
  list_name : string;
  list_id : string;
  dueComplete : option bool;
  labels : option (list string);
}.
End Card.

Record Assignee := {
  assignee_id : string;
  assignee_name : string;
}.

Record Task := {
  id : string;
  title : string;
  description : string;
  status : string;
  dueDate : string;
  assignee : Assignee;
  meetingIds : list string;
  closed : bool;
  shortUrl : option string;
  url : option string;
  dateLastActivity : string;
  commentsCount : nat;
  checklistsCount : nat;
  listName : string;
  listId : string;
  dueComplete : bool;
  labels : list string;
}.

(** One entry of the display grouping, [{ id, name, cards }]. *)
Record CardList := {
  cl_id : string;
  cl_name : string;
  cl_cards : list Card.t;
}.

Record State := {
  tasks : list Task;
  loading : bool;
  filter : string;
  lists : list CardList;
}.

Definition initialState : State :=
  {| tasks := []; loading := false; filter := "all"; lists := [] |}.

Definition setTasks (t : list Task) (s : State) : State :=
  {| tasks := t; loading := loading s; filter := filter s; lists := lists s |}.
Definition setLoading (b : bool) (s : State) : State :=
  {| tasks := tasks s; loading := b; filter := filter s; lists := lists s |}.
Definition setFilter (f : string) (s : State) : State :=
  {| tasks := tasks s; loading := loading s; filter := f; lists := lists s |}.
Definition setLists (l : list CardList) (s : State) : State :=
  {| tasks := tasks s; loading := loading s; filter := filter s; lists := l |}.

(** *** Filtering *)

(** The predicate of [tasks.filter((task) => ...)] under the filter [f]. *)
Definition matches (f : string) (task : Task) : bool :=
  if String.eqb f "open" then String.eqb (status task) "open"
  else if String.eqb f "done" then String.eqb (status task) "done"
  else true.

Definition filteredTasks (s : State) : list Task :=
  List.filter (matches (filter s)) (tasks s).

(** *** Toggling *)

Definition set_status (t : Task) (st : string) : Task :=
  {| id := id t; title := title t; description := description t; status := st;
     dueDate := dueDate t; assignee := assignee t; meetingIds := meetingIds t;
     closed := closed t; shortUrl := shortUrl t; url := url t;
     dateLastActivity := dateLastActivity t; commentsCount := commentsCount t;
     checklistsCount := checklistsCount t; listName := listName t;
     listId := listId t; dueComplete := dueComplete t; labels := labels t |}.

(** [t.id === id ? { ...t, status: t.status === "done" ? "open" : "done" } : t] *)
Definition toggle_one (i : string) (t : Task) : Task :=
  if String.eqb (id t) i
  then set_status t (if String.eqb (status t) "done" then "open" else "done")
  else t.

Definition toggleTaskStatus (i : string) (s : State) : State :=
  match List.find (fun t => String.eqb (id t) i) (tasks s) with
  | None => s
  | Some _ => setTasks (map (toggle_one i) (tasks s)) s
  end.

(** *** Fetching and converting the cards *)

Record SettingsBody := {
  workspace_id : option string;
}.

(** The parsed body of the cards response: [null], or an object whose
    [cards] member may be missing. *)
Record CardsData := {
  cards : option (list Card.t);
}.

(** [listsMap]: a [Map] from list id to its entry, in insertion order. *)
Fixpoint listsMap_push (card : Card.t) (m : list CardList) : list CardList :=
  match m with
  | [] => [ {| cl_id := Card.list_id card; cl_name := Card.list_name card;
               cl_cards := [card] |} ]
  | e :: r =>
      if String.eqb (cl_id e) (Card.list_id card)
      then {| cl_id := cl_id e; cl_name := cl_name e;
              cl_cards := (cl_cards e ++ [card])%list |} :: r
      else e :: listsMap_push card r
  end.

Definition groupCards (cs : list Card.t) : list CardList :=
  fold_left (fun m card => listsMap_push card m) cs [].

Section Fetch.
Context `{Runtime}.

(** The callback of [data.cards.map]; [k] numbers the reading of the
    clock that [new Date()] makes in it. *)
Definition cardToTask (k : nat) (card : Card.t) : Task :=
  let lastActivity :=
    match Card.dateLastActivity card with
    | Some a =>
        if Js.truthy a
        then match Date_localeDate a with
             | Some d => d
             | None => a
             end
        else "No activity"
    | None => "No activity"
    end in
  let today := Date_today k in
  let dueDate :=
    match Card.due card with
    | Some d =>
        if Js.truthy d
        then match Date_isoDate d with
             | Some iso => iso
             | None => today
             end
        else today
    | None => today
    end in
  {| id := Card.id card;
     title := Card.name card;
     description := Js.or_else (Card.desc card) "";
     status := if Card.closed card then "done" else "open";
     dueDate := dueDate;
     assignee := {| assignee_id := "1"; assignee_name := "You" |};
     meetingIds := [];
     closed := Card.closed card;
     shortUrl := Card.shortUrl card;
     url := Card.url card;
     dateLastActivity := lastActivity;
     commentsCount := default 0 (Card.comments_count card);
     checklistsCount := default 0 (Card.checklists_count card);
     listName := Card.list_name card;
     listId := Card.list_id card;
     dueComplete := default false (Card.dueComplete card);
     labels := default [] (Card.labels card) |}.

(** [data.cards.map((card) => ...)], the clock read once per card. *)
Fixpoint allTasks (k : nat) (cs : list Card.t) : list Task :=
  match cs with
  | [] => []
  | card :: r => cardToTask k card :: allTasks (S k) r
  end.

Definition settings_request : Request :=
  {| req_method := "GET"; req_url := API_URL ++ "/settings" |}.

Definition cards_request (boardId : string) : Request :=
  {| req_method := "GET";
     req_url := API_URL ++ "/composio/trello/cards?board_id=" ++ boardId |}.

Record Run := {
  run_state : State;
  run_requests : list Request;
}.

(** [fetchTasks].  [k] is the number of clock readings made so far;
    [settingsResponse] and [response] are the outcomes of the two requests
    (the second is read only if the request is sent).  Every path ends in
    the [finally] that clears [loading]. *)
Definition fetchTasks (k : nat) (settingsResponse : FetchOutcome SettingsBody)
    (response : FetchOutcome (option CardsData)) (s : State) : Run :=
  let s0 := setLoading true s in
  let finish st reqs := {| run_state := setLoading false st; run_requests := reqs |} in
  match settingsResponse with
  | Rejected _ => finish s0 [settings_request]
  | Responded false _ _ _ => finish s0 [settings_request]
  | Responded true _ _ (inl _) => finish s0 [settings_request]
  | Responded true _ _ (inr settings) =>
      match workspace_id settings with
      | None => finish s0 [settings_request]
      | Some boardId =>
          if negb (Js.truthy boardId) then finish s0 [settings_request]
          else
            let reqs := [settings_request; cards_request boardId] in
            match response with
            | Rejected _ => finish s0 reqs
            | Responded false _ _ _ => finish s0 reqs
            | Responded true _ _ (inl _) => finish s0 reqs
            | Responded true _ _ (inr data) =>
                match data with
                | Some {| cards := Some (c :: r) |} =>
                    finish (setTasks (allTasks k (c :: r))
                              (setLists (groupCards (c :: r)) s0)) reqs
                | _ => finish s0 reqs
                end
            end
      end
  end.

End Fetch.

(** The statuses of the data model. *)
Definition status_ok (t : Task) : Prop := status t = "open" \/ status t = "done".

(** The filters the three buttons set. *)
Definition filters : list string := ["all"; "open"; "done"].

Section Reachable.
Context `{Runtime}.

(** The states the view goes through: the initial one, then fetches,
    toggles and filter clicks. *)
Inductive reachable : State -> Prop :=
| reach_initial : reachable initialState
| reach_fetch k settingsResponse response s :
    reachable s -> reachable (run_state (fetchTasks k settingsResponse response s))
| reach_toggle i s :
    reachable s -> reachable (toggleTaskStatus i s)
| reach_filter f s :
    In f filters -> reachable s -> reachable (setFilter f s).

End Reachable.

(** *** Rendering *)

Inductive Body :=
| LoadingTasks
| Cards (shown : list Task)
| NoCards.

(** The three filter buttons with their counters, and the list area. *)
Record View := {
  count_all : nat;
  count_open : nat;
  count_done : nat;
  active_all : bool;
  active_open : bool;
  active_done : bool;
  body : Body;
}.

Definition TasksView (s : State) : View :=
  {| count_all := length (tasks s);
     count_open := length (List.filter (fun t => String.eqb (status t) "open") (tasks s));
     count_done := length (List.filter (fun t => String.eqb (status t) "done") (tasks s));
     active_all := String.eqb (filter s) "all";
     active_open := String.eqb (filter s) "open";
     active_done := String.eqb (filter s) "done";
     body :=
       if loading s then LoadingTasks
       else match filteredTasks s with
            | [] => NoCards
            | t :: r => Cards (t :: r)
            end |}.

End TasksView.

(** ** [TaskCard] *)

Module TaskCard.

(** What the card shows of a task. *)
Record View := {
  checked : bool;
  done_class : bool;
  overdue_class : bool;
  overdue_badge : bool;
  closed_badge : bool;
  list_shown : bool;
  link : option string;
}.

(** [isPast d] is [new Date(d) < new Date()]. *)
Definition TaskCard (isPast : string -> bool) (task : TasksView.Task) : View :=
  let isOverdue := isPast (TasksView.dueDate task)
                   && String.eqb (TasksView.status task) "open" in
  let isDone := String.eqb (TasksView.status task) "done" in
  {| checked := isDone;
     done_class := isDone;
     overdue_class := isOverdue;
     overdue_badge := isOverdue && negb isDone;
     closed_badge := TasksView.closed task;
     list_shown := Js.truthy (TasksView.listName task)
                   && Js.truthy (Js.trim (TasksView.listName task));
     link :=
       match TasksView.shortUrl task with
       | Some u => if Js.truthy u then Some u else None
       | None => None
       end |}.

End TaskCard.

(** ** Meetings: the record of the backend and the shape the views use *)

Record RawActionItem := {
  raw_text : string;
  raw_assignee : string;
  raw_assigned_by : option string;
}.

(** A meeting as the backend returns it. *)
Record MeetingData := {
  data_id : string;
  data_title : string;
  data_date : string;
  data_participants : list string;
  data_summary : string;
  data_transcript_text : option string;
  data_action_items : list RawActionItem;
}.

(** [{ id, name }] *)
Record Participant := {
  participant_id : string;
  participant_name : string;
}.

(** [{ id, text, assignee, assigned_by }] *)
Record ActionItem := {
  action_id : string;
  action_text : string;
  action_assignee : string;
  action_assigned_by : option string;
}.

(** [array.map((item, idx) => f(item, idx))] *)
Fixpoint mapi_from {A B : Type} (f : A -> nat -> B) (idx : nat) (l : list A) : list B :=
  match l with
  | [] => []
  | x :: r => f x idx :: mapi_from f (S idx) r
  end.

Definition mapi {A B : Type} (f : A -> nat -> B) (l : list A) : list B :=
  mapi_from f 0 l.

Definition newline : string := String (ascii_of_nat 10) EmptyString.

(** ** [components/dashboard/MeetingDetail.jsx] *)

Module MeetingDetail.

Definition SUMMARY_TRUNCATE_LENGTH : nat := 500.
Definition TRANSCRIPT_TRUNCATE_LENGTH : nat := 1000.

Record Meeting := {
  id : string;
  title : string;
  date : string;
  participants : list Participant;
  minutesSummary : string;
  transcript_text : option string;
  actionItems : list ActionItem;
}.

(** The component's [useState] cells ([actionItems] is a cell of its own,
    next to the copy inside [meeting]). *)
Record State := {
  st_meeting : option Meeting;
  st_loading : bool;
  st_actionItems : list ActionItem;
  st_summaryExpanded : bool;
  st_transcriptExpanded : bool;
}.

Definition initialState : State :=
  {| st_meeting := None; st_loading := true; st_actionItems := [];
     st_summaryExpanded := false; st_transcriptExpanded := false |}.

Definition setMeeting (m : option Meeting) (s : State) : State :=
  {| st_meeting := m; st_loading := st_loading s; st_actionItems := st_actionItems s;
     st_summaryExpanded := st_summaryExpanded s;
     st_transcriptExpanded := st_transcriptExpanded s |}.
Definition setLoading (b : bool) (s : State) : State :=
  {| st_meeting := st_meeting s; st_loading := b; st_actionItems := st_actionItems s;
     st_summaryExpanded := st_summaryExpanded s;
     st_transcriptExpanded := st_transcriptExpanded s |}.
Definition setActionItems (l : list ActionItem) (s : State) : State :=
  {| st_meeting := st_meeting s; st_loading := st_loading s; st_actionItems := l;
     st_summaryExpanded := st_summaryExpanded s;
     st_transcriptExpanded := st_transcriptExpanded s |}.
Definition setSummaryExpanded (b : bool) (s : State) : State :=
  {| st_meeting := st_meeting s; st_loading := st_loading s;
     st_actionItems := st_actionItems s; st_summaryExpanded := b;
     st_transcriptExpanded := st_transcriptExpanded s |}.
Definition setTranscriptExpanded (b : bool) (s : State) : State :=
  {| st_meeting := st_meeting s; st_loading := st_loading s;
     st_actionItems := st_actionItems s;
     st_summaryExpanded := st_summaryExpanded s; st_transcriptExpanded := b |}.

(** *** Loading: the meeting adapter *)

(** [transformedMeeting] *)
Definition transform (data : MeetingData) : Meeting :=
  {| id := data_id data;
     title := data_title data;
     date := data_date data;
     participants :=
       map (fun name => {| participant_id := Js.toLowerCase name;
                           participant_name := name |})
           (data_participants data);
     minutesSummary := data_summary data;
     transcript_text := data_transcript_text data;
     actionItems :=
       mapi (fun item idx =>
               {| action_id := "action-" ++ pretty idx;
                  action_text := raw_text item;
                  action_assignee := raw_assignee item;
                  action_assigned_by := raw_assigned_by item |})
            (data_action_items data) |}.

Definition loadMeeting (response : FetchOutcome MeetingData) (s : State) : State :=
  let s0 := setLoading true s in
  match response with
  | Responded true _ _ (inr data) =>
      let transformedMeeting := transform data in
      setLoading false
        (setActionItems (actionItems transformedMeeting)
           (setMeeting (Some transformedMeeting) s0))
  | _ => setLoading false (setMeeting None s0)
  end.

(** *** Rendering *)

(** A text block with its expand/collapse control: the label of the
    button, if the button is rendered. *)
Record TextBlock := {
  block_text : string;
  block_control : option string;
}.

Record DetailView := {
  view_title : string;
  view_summary : TextBlock;
  view_participants : list Participant;
  view_transcript : TextBlock;
  view_actionItems : list ActionItem;
}.

Inductive Element :=
| LoadingMeeting
| MeetingNotFound
| Detail (view : DetailView).

Definition read_label (expanded : bool) : string :=
  if expanded then "Read less" else "Read more".

Definition summaryBlock (expanded : bool) (minutesSummary : string) : TextBlock :=
  {| block_text :=
       if expanded || Js.length_le minutesSummary SUMMARY_TRUNCATE_LENGTH
       then minutesSummary
       else Js.substring0 SUMMARY_TRUNCATE_LENGTH minutesSummary ++ "...";
     block_control :=
       if Js.length_gt minutesSummary SUMMARY_TRUNCATE_LENGTH
       then Some (read_label expanded)
       else None |}.

Definition transcriptBlock (expanded : bool) (text : option string) : TextBlock :=
  {| block_text :=
       match text with
       | Some t =>
           if expanded || negb (Js.truthy t)
              || Js.length_le t TRANSCRIPT_TRUNCATE_LENGTH
           then Js.or_else text "Transcript not available"
           else Js.substring0 TRANSCRIPT_TRUNCATE_LENGTH t ++ "..."
       | None => Js.or_else text "Transcript not available"
       end;
     block_control :=
       match text with
       | Some t =>
           if Js.truthy t && Js.length_gt t TRANSCRIPT_TRUNCATE_LENGTH
           then Some (read_label expanded)
           else None
       | None => None
       end |}.

Definition MeetingDetail (s : State) : Element :=
  if st_loading s then LoadingMeeting
  else match st_meeting s with
       | None => MeetingNotFound
       | Some meeting =>
           Detail {|
             view_title := title meeting;
             view_summary := summaryBlock (st_summaryExpanded s) (minutesSummary meeting);
             view_participants := participants meeting;
             view_transcript :=
               transcriptBlock (st_transcriptExpanded s) (transcript_text meeting);
             view_actionItems := st_actionItems s |}
       end.

(** The [onClick] of the two read-more buttons. *)
Definition toggleSummary (s : State) : State :=
  setSummaryExpanded (negb (st_summaryExpanded s)) s.
Definition toggleTranscript (s : State) : State :=
  setTranscriptExpanded (negb (st_transcriptExpanded s)) s.

(** *** Converting an action item to a task *)

(** The body of the convert-to-task response, as far as the handler
    reads it. *)
Record ConvertBody := {
  detail : option string;
  success : bool;
  message : option string;
  error : option string;
}.

(** What the user is shown.  [Confirm] carries the answer given. *)
Inductive Effect :=
| Alert (text : string)
| Confirm (text : string) (answer : bool)
| NavigateTo (path : string).

(** What one run of the handler does: the argument of its
    [setActionItems] call, if it makes one, and its effects in order. *)
Record Run := {
  run_setActionItems : option (list ActionItem);
  run_effects : list Effect;
}.

Definition permission_error (errorMsg : string) : bool :=
  Js.includes (Js.toLowerCase errorMsg) "permission"
  || Js.includes (Js.toLowerCase errorMsg) "unauthorized".

Definition confirm_text (errorMsg : string) : string :=
  "❌ " ++ errorMsg ++ newline ++ newline
  ++ "This usually means Trello needs to be reconnected with write permissions."
  ++ newline ++ newline
  ++ "Would you like to open Settings to reconnect Trello?".

(** The [catch] block. *)
Definition caught (message : string) : Run :=
  {| run_setActionItems := None;
     run_effects := [Alert ("❌ Failed to convert action item to task: " ++ message)] |}.

(** [convertActionToTask].  [captured] is the [actionItems] of the render
    whose closure runs; [response] is the outcome of the POST; [answer]
    is what the user replies if a confirm dialog is opened. *)
Definition convertActionToTask (captured : list ActionItem) (actionItem : ActionItem)
    (response : FetchOutcome ConvertBody) (answer : bool) : Run :=
  match response with
  | Rejected m => caught m
  | Responded false status statusText json =>
      let errorData_detail :=
        match json with
        | inr errorData => detail errorData
        | inl _ => Some statusText
        end in
      caught (Js.or_else errorData_detail ("HTTP " ++ status ++ ": " ++ statusText))
  | Responded true _ _ (inl m) => caught m
  | Responded true _ _ (inr result) =>
      if success result then
        {| run_setActionItems :=
             Some (List.filter
                     (fun ai => negb (String.eqb (action_id ai) (action_id actionItem)))
                     captured);
           run_effects :=
             [Alert ("✅ " ++ Js.or_else (message result)
                                "Action item converted to task successfully!")] |}
      else
        let errorMsg := Js.or_else (error result) "Failed to convert action item to task" in
        if permission_error errorMsg then
          {| run_setActionItems := None;
             run_effects :=
               Confirm (confirm_text errorMsg) answer
               :: (if answer then [NavigateTo "/app/settings"] else []) |}
        else
          {| run_setActionItems := None;
             run_effects := [Alert ("❌ " ++ errorMsg)] |}
  end.

(** The state after a run whose closure is the one of the current render:
    [setActionItems] replaces the cell, anything else leaves it. *)
Definition settle (r : Run) (s : State) : State :=
  match run_setActionItems r with
  | Some l => setActionItems l s
  | None => s
  end.

(** One conversion, clicked and settled before anything else happens. *)
Record Attempt := {
  att_item : ActionItem;
  att_response : FetchOutcome ConvertBody;
  att_answer : bool;
}.

Definition convert_step (s : State) (a : Attempt) : State :=
  settle (convertActionToTask (st_actionItems s) (att_item a)
            (att_response a) (att_answer a)) s.


(** The conversion is confirmed successful. *)
Definition confirmed_success (response : FetchOutcome ConvertBody) : bool :=
  match response with
  | Responded true _ _ (inr result) => success result
  | _ => false
  end.



(** Conversions that overlap.  A click runs the handler of the current
    render up to its [await]; the closure keeps the [actionItems] of that
    render until the response arrives, whatever the cell holds by then. *)
Record Pending := {
  pend_captured : list ActionItem;
  pend_item : ActionItem;
}.

Record Session := {
  ses_state : State;
  ses_pending : list Pending;
  ses_shown : list Effect;
}.

Inductive Event :=
| Click (item : ActionItem)
| Settled (n : nat) (response : FetchOutcome ConvertBody) (answer : bool).

Definition session_step (x : Session) (e : Event) : Session :=
  match e with
  | Click item =>
      {| ses_state := ses_state x;
         ses_pending :=
           (ses_pending x
            ++ [ {| pend_captured := st_actionItems (ses_state x); pend_item := item |} ])%list;
         ses_shown := ses_shown x |}
  | Settled n response answer =>
      match ses_pending x !! n with
      | None => x
      | Some p =>
          let r := convertActionToTask (pend_captured p) (pend_item p) response answer in
          {| ses_state := settle r (ses_state x);
             ses_pending := delete n (ses_pending x);
             ses_shown := (ses_shown x ++ run_effects r)%list |}
      end
  end.

Definition session_run (x : Session) (events : list Event) : Session :=
  fold_left session_step events x.

(** *** Exporting the minutes *)

(** The name of the downloaded file,
    [`${meeting.title.replace(/\s+/g, "_")}_minutes.txt`]. *)
Definition download_name (meeting : Meeting) : string :=
  Js.replace_space_runs "_" (title meeting) ++ "_minutes.txt".

(** One line of the action-item part of the export. *)
Definition export_line (ai : ActionItem) : string :=
  "• " ++ action_text ai ++ " (Assigned to: " ++ action_assignee ai
  ++ match action_assigned_by ai with
     | Some by_ => if Js.truthy by_ then ", Assigned by: " ++ by_ else ""
     | None => ""
     end
  ++ ")".

(** The text of the export; [localeString] is
    [new Date(d).toLocaleString()]. *)
Definition export_content (localeString : string -> string) (meeting : Meeting)
    (actionItems : list ActionItem) : string :=
  Js.trim
    (newline ++ "Meeting: " ++ title meeting ++ newline
     ++ "Date: " ++ localeString (date meeting) ++ newline
     ++ "Participants: "
     ++ Js.join ", " (map participant_name (participants meeting)) ++ newline
     ++ newline ++ "SUMMARY" ++ newline ++ minutesSummary meeting ++ newline
     ++ newline ++ "TRANSCRIPT" ++ newline
     ++ Js.or_else (transcript_text meeting) "Transcript not available" ++ newline
     ++ newline ++ "ACTION ITEMS" ++ newline
     ++ Js.join newline (map export_line actionItems) ++ newline ++ "    ").

End MeetingDetail.

(** ** [MeetingsView] (the meeting list, second part of
    [components/DashboardNav.jsx]) *)

Module MeetingsView.

Record Turn := {
  time : string;
  speaker : string;
  text : string;
}.

Record ListedAction := {
  la_id : string;
  la_text : string;
  la_assignee : string;
}.

Record Meeting := {
  id : string;
  title : string;
  date : string;
  participants : list Participant;
  minutesSummary : string;
  actionItems : list ListedAction;
  transcript : list Turn;
}.

(** The callback of [data.map(meeting => ...)].  [split] is called on
    [meeting.transcript_text] as it is: a missing transcript throws, which
    the [catch] of [loadMeetings] turns into no update ([None]). *)
Definition transform (meeting : MeetingData) : option Meeting :=
  match data_transcript_text meeting with
  | None => None
  | Some transcript_text =>
      Some {|
        id := data_id meeting;
        title := data_title meeting;
        date := data_date meeting;
        participants :=
          map (fun name => {| participant_id := Js.toLowerCase name;
                              participant_name := name |})
              (data_participants meeting);
        minutesSummary := data_summary meeting;
        actionItems :=
          mapi (fun item idx =>
                  {| la_id := "action-" ++ pretty idx;
                     la_text := raw_text item;
                     la_assignee := raw_assignee item |})
               (data_action_items meeting);
        transcript :=
          mapi (fun line idx =>
                  {| time := pretty (idx + 1)%nat; speaker := "Speaker"; text := line |})
               (Js.split (ascii_of_nat 10) transcript_text) |}
  end.

(** [loadMeetings]: the list is replaced only when the response is a
    success and every record transforms. *)
Definition loadMeetings (response : FetchOutcome (list MeetingData))
    (meetings : list Meeting) : list Meeting :=
  match response with
  | Responded true _ _ (inr data) =>
      match mapM transform data with
      | Some transformedMeetings => transformedMeetings
      | None => meetings
      end
  | _ => meetings
  end.

(** *** Uploading a transcript *)

Record Notice := {
  notice_type : string;
  notice_text : string;
}.

Definition no_notice : Notice := {| notice_type := ""; notice_text := "" |}.

Record State := {
  meetings : list Meeting;
  loading : bool;
  uploading : bool;
  message : Notice;
}.

Definition initialState : State :=
  {| meetings := []; loading := true; uploading := false; message := no_notice |}.

Definition setUploading (b : bool) (s : State) : State :=
  {| meetings := meetings s; loading := loading s; uploading := b; message := message s |}.
Definition setMessage (m : Notice) (s : State) : State :=
  {| meetings := meetings s; loading := loading s; uploading := uploading s; message := m |}.

(** What the handler leaves for later: the callbacks of its [setTimeout]
    calls, with their delays in milliseconds. *)
Inductive Later :=
| ClearMessage (delay : nat)
| ClearMessageAndReload (delay : nat).

Record Run := {
  run_state : State;
  run_requests : list Request;
  run_later : list Later;
}.

Record SettingsBody := {
  workspace_id : option string;
}.

Record UploadBody := {
  detail : option string;
}.

(** The upload button is rendered for an admin only. *)
Definition isAdmin (user : option User) : bool := persona_is user "admin".

Section Upload.
Context `{Runtime}.

Definition settings_request : Request :=
  {| req_method := "GET"; req_url := API_URL ++ "/settings" |}.
Definition upload_request : Request :=
  {| req_method := "POST"; req_url := API_URL ++ "/meetings/upload" |}.

(** [handleFileUpload] of the meeting list.  [file_name] is the name of
    [e.target.files[0]], if there is a file. *)
Definition handleFileUpload (file_name : option string)
    (settingsResponse : FetchOutcome SettingsBody)
    (response : FetchOutcome UploadBody) (s : State) : Run :=
  match file_name with
  | None => {| run_state := s; run_requests := []; run_later := [] |}
  | Some name =>
      if negb (Js.endsWith name ".docx") then
        {| run_state :=
             setMessage {| notice_type := "error";
                           notice_text := "Only .docx files are supported" |} s;
           run_requests := [];
           run_later := [ClearMessage 3000] |}
      else
        let s1 := setMessage no_notice (setUploading true s) in
        let caught (reqs : list Request) :=
          {| run_state :=
               setUploading false
                 (setMessage {| notice_type := "error";
                                notice_text := "Failed to upload transcript. Please try again." |}
                    s1);
             run_requests := reqs; run_later := [] |} in
        match settingsResponse with
        | Rejected _ => caught [settings_request]
        | Responded true _ _ (inl _) => caught [settings_request]
        | Responded _ _ _ _ =>
            let reqs := [settings_request; upload_request] in
            match response with
            | Rejected _ => caught reqs
            | Responded true _ _ _ =>
                {| run_state :=
                     setUploading false
                       (setMessage
                          {| notice_type := "success";
                             notice_text := "Transcript uploaded and processed successfully!" |}
                          s1);
                   run_requests := reqs;
                   run_later := [ClearMessageAndReload 2000] |}
            | Responded false _ _ (inl _) => caught reqs
            | Responded false _ _ (inr error) =>
                {| run_state :=
                     setUploading false
                       (setMessage
                          {| notice_type := "error";
                             notice_text :=
                               Js.or_else (detail error) "Failed to upload transcript" |}
                          s1);
                   run_requests := reqs; run_later := [] |}
            end
        end
  end.

End Upload.

End MeetingsView.

(** ** [MeetingCard] *)

Module MeetingCard.

(** The preview of the summary. *)
Definition summary_preview (minutesSummary : option string) : string :=
  match minutesSummary with
  | Some t =>
      if Js.truthy t
      then if Js.length_gt t 200 then Js.substring0 200 t ++ "..." else t
      else "No summary available"
  | None => "No summary available"
  end.

(** [`${n} participant${n !== 1 ? "s" : ""}`] and the like. *)
Definition counted (n : nat) (word : string) : string :=
  pretty n ++ " " ++ word ++ (if negb (n =? 1)%nat then "s" else "").

End MeetingCard.

(** ** The wording of the specification *)

(** The extensions the specification lists for the document upload. *)
Definition supported_extensions : list string := ["pdf"; "txt"; "docx"; "doc"].

(** [suf] is the suffix of [name] after its last dot. *)
Definition suffix_after_last_dot (name suf : string) : Prop :=
  exists pre, name = pre ++ "." ++ suf /\ Js.has_char "." suf = false.

(** ** Sample data *)

(** A runtime for running the definitions on concrete inputs: it knows
    the ISO timestamps it is given and treats every other string as an
    invalid date. *)
Definition sample_isoDate (s : string) : option string :=
  if String.eqb s "2025-03-14T09:30:00.000Z" then Some "2025-03-14"
  else if String.eqb s "2025-01-02T00:00:00.000Z" then Some "2025-01-02"
  else None.

Definition sampleRuntime : Runtime := {|
  VITE_API_URL := None;
  Date_isoDate := sample_isoDate;
  Date_localeDate := fun s => Some "Invalid Date";
  Date_today := fun _ => "2025-06-01";
|}.

Definition sample_employee : User :=
  {| user_id := "u1"; user_name := "Eve"; user_email := "eve@example.com";
     persona := Some "employee" |}.

Definition sample_admin : User :=
  {| user_id := "u2"; user_name := "Ada"; user_email := "ada@example.com";
     persona := Some "admin" |}.

Definition sample_card (i : string) (closed : bool) (due : option string) : TasksView.Card.t :=
  {| TasksView.Card.id := i;
     TasksView.Card.name := "Card " ++ i;
     TasksView.Card.desc := None;
     TasksView.Card.closed := closed;
     TasksView.Card.due := due;
     TasksView.Card.dateLastActivity := None;
     TasksView.Card.shortUrl := None;
     TasksView.Card.url := None;
     TasksView.Card.comments_count := None;
     TasksView.Card.checklists_count := Some 2;
     TasksView.Card.list_name := "To do";
     TasksView.Card.list_id := "L1";
     TasksView.Card.dueComplete := None;
     TasksView.Card.labels := None |}.

Definition sample_cards : list TasksView.Card.t :=
  [ sample_card "c1" false (Some "2025-03-14T09:30:00.000Z");
    sample_card "c2" true None;
    sample_card "c3" false (Some "next tuesday-ish") ].

Definition sample_tasks_state : TasksView.State :=
  TasksView.setTasks (@TasksView.allTasks sampleRuntime 0 sample_cards)
    TasksView.initialState.

Definition sample_meeting : MeetingData := {|
  data_id := "m1";
  data_title := "Weekly sync";
  data_date := "2025-03-14T09:30:00.000Z";
  data_participants := ["Sam"; "sam"];
  data_summary := "Short summary.";
  data_transcript_text := Some "";
  data_action_items :=
    [ {| raw_text := "Send the report"; raw_assignee := "Sam"; raw_assigned_by := None |};
      {| raw_text := "Book the room"; raw_assignee := "sam"; raw_assigned_by := Some "Ada" |} ];
|}.

Definition sample_detail_state : MeetingDetail.State :=
  MeetingDetail.loadMeeting (Responded true "200" "OK" (inr sample_meeting))
    MeetingDetail.initialState.

(** A transcript of 1001 characters. *)
Definition long_transcript : string :=
  string_of_list_ascii (repeat "a"%char 1001).

Definition sample_long_state : MeetingDetail.State :=
  MeetingDetail.loadMeeting
    (Responded true "200" "OK"
       (inr {| data_id := "m2"; data_title := "Retro"; data_date := "2025-01-02T00:00:00.000Z";
               data_participants := ["Ada"]; data_summary := "";
               data_transcript_text := Some long_transcript;
               data_action_items := [] |}))
    MeetingDetail.initialState.

Definition item_report : ActionItem :=
  {| action_id := "action-0"; action_text := "Send the report";
     action_assignee := "Sam"; action_assigned_by := None |}.

Definition item_room : ActionItem :=
  {| action_id := "action-1"; action_text := "Book the room";
     action_assignee := "sam"; action_assigned_by := Some "Ada" |}.

Definition converted_ok : FetchOutcome MeetingDetail.ConvertBody :=
  Responded true "200" "OK"
    (inr {| MeetingDetail.detail := None; MeetingDetail.success := true;
            MeetingDetail.message := Some "Task created"; MeetingDetail.error := None |}).


(** A refusal that arrives as a non-success response. *)
Definition refused_by_status : FetchOutcome MeetingDetail.ConvertBody :=
  Responded false "403" "Forbidden"
    (inr {| MeetingDetail.detail := Some "Permission denied for this board";
            MeetingDetail.success := false;
            MeetingDetail.message := None; MeetingDetail.error := None |}).

(** The response is a success whose body parses. *)
Definition succeeded {A : Type} (o : FetchOutcome A) : bool :=
  match o with
  | Responded true _ _ (inr _) => true
  | _ => false
  end.

(** The response is a success, whatever its body. *)
Definition responded_ok {A : Type} (o : FetchOutcome A) : bool :=
  match o with
  | Responded true _ _ _ => true
  | _ => false
  end.

Definition sample_query_state : ProductsPage.State :=
  ProductsPage.setInputValue "  show my tasks  " ProductsPage.initialState.

(** What [TasksView.groupCards] keeps true of its map [m] while it runs
    over the cards [cs]. *)
Definition grouped (cs : list TasksView.Card.t) (m : list TasksView.CardList) : Prop :=
  List.NoDup (map TasksView.cl_id m)
  /\ (forall g, In g m ->
        TasksView.cl_cards g
        = List.filter (fun c => String.eqb (TasksView.Card.list_id c) (TasksView.cl_id g)) cs
        /\ exists c0 rest, TasksView.cl_cards g = c0 :: rest
                           /\ TasksView.cl_name g = TasksView.Card.list_name c0)
  /\ (forall c, In c cs -> In (TasksView.Card.list_id c) (map TasksView.cl_id m)).

(** A user codec for running the provider on the two sample users. *)
Definition sample_stringify (u : User) : string :=
  "{" ++ user_id u ++ "}".

Definition sample_parse (t : string) : option User :=
  if String.eqb t "{u1}" then Some sample_employee
  else if String.eqb t "{u2}" then Some sample_admin
  else None.

Definition sample_login_response : FetchOutcome AuthContext.AuthBody :=
  Responded true "200" "OK"
    (inr {| AuthContext.auth_detail := None;
            AuthContext.access_token := "tok-123";
            AuthContext.auth_user := sample_employee |}).

(** The [localStorage] of a browser in which the sample employee is
    signed in. *)
Definition employee_storage : gmap string string :=
  <["auraai_token" := "tok-123"]> (<["auraai_user" := "{u1}"]> ∅).

Definition fresh_world : AuthContext.World :=
  {| AuthContext.state := AuthContext.initialState;
     AuthContext.localStorage := ∅ |}.

Definition sample_listed : MeetingData := {|
  data_id := "m3";
  data_title := "Planning  day one";
  data_date := "2025-01-02T00:00:00.000Z";
  data_participants := ["Ada"];
  data_summary := "First planning day.";
  data_transcript_text := Some ("Hello all" ++ newline ++ "Bye");
  data_action_items := [];
|}.

(** The same meeting under the title that follows the first run of
    white space of its title. *)
Definition sample_listed_rest : MeetingData := {|
  data_id := "m4";
  data_title := "day one";
  data_date := "2025-01-02T00:00:00.000Z";
  data_participants := ["Ada"];
  data_summary := "First planning day.";
  data_transcript_text := Some ("Hello all" ++ newline ++ "Bye");
  data_action_items := [];
|}.

Definition sample_form : SignupPage.FormData :=
  {| SignupPage.name := "Eve"; SignupPage.email := "eve@example.com";
     SignupPage.password := "secret1"; SignupPage.confirmPassword := "secret1";
     SignupPage.persona := "employee" |}.

(** * Properties *)

Example ex_lower : Js.toLowerCase "REPORT.Pdf" = "report.pdf".
Proof. reflexivity. Qed.
Example ex_split : Js.split "." "a.b.PDF" = ["a"; "b"; "PDF"].
Proof. reflexivity. Qed.
Example ex_split0 : Js.split "." "" = [""] /\ Js.split "." "a." = ["a"; ""].
Proof. split; reflexivity. Qed.
Example ex_pop : Js.pop (Js.split "." "notes.exe") = Some "exe".
Proof. reflexivity. Qed.
Example ex_incl : Js.includes "no permission here" "permission" = true.
Proof. reflexivity. Qed.

(** ** The admin-only product route *)

Section ProductsPageFacts.
Import ProductsPage.

Lemma productInfo_lookup (k : string) :
  productInfo !! k =
    if decide (k = "Trans2Actions") then Some Trans2Actions
    else if decide (k = "User-Load") then Some User_Load
    else if decide (k = "AdminPerspective") then Some AdminPerspective
    else None.
Proof.
  unfold productInfo.
  repeat case_decide; subst; simplify_map_eq; reflexivity.
Qed.

Lemma product_is_admin_only_by_name (k : string) :
  default Trans2Actions (productInfo !! k) = AdminPerspective -> k = "AdminPerspective".
Proof.
  rewrite productInfo_lookup.
  repeat case_decide; simpl; try discriminate; auto.
Qed.

(** The element that the function body returns, taken by itself: for a
    user whose persona is employee, the product route named
    AdminPerspective gives the redirect to /products/Trans2Actions, and no
    product route at all gives the AdminPerspective product; for a user
    whose persona is admin the same route gives the AdminPerspective
    product.  What becomes of this element in the mounted page is the
    matter of [render]. *)
Theorem admin_product_route_gated (user : option User) (s : State) :
  (persona_is user "employee" = true ->
     ProductsPage "AdminPerspective" user s = Navigate "/products/Trans2Actions" true
     /\ forall productName, ~ renders_AdminPerspective (ProductsPage productName user s))
  /\ (persona_is user "admin" = true ->
     exists v, ProductsPage "AdminPerspective" user s = Page v
               /\ shown_product v = AdminPerspective
               /\ renders_AdminPerspective (Page v)).
Proof.
  split.
  - intros He. split.
    + unfold ProductsPage. rewrite He. reflexivity.
    + intros productName. unfold ProductsPage. rewrite He.
      destruct (String.eqb_spec productName "AdminPerspective") as [-> | Hne]; simpl.
      * tauto.
      * intros [Hp | Hl].
        -- apply Hne, product_is_admin_only_by_name, Hp.
        -- repeat (apply Exists_cons in Hl as [Hl | Hl]; [simpl in Hl; discriminate |]).
           inversion Hl.
  - intros Ha.
    assert (He : persona_is user "employee" = false).
    { unfold persona_is in *. destruct user as [u|]; [|discriminate].
      destruct (persona u) as [q|]; [|discriminate].
      apply String.eqb_eq in Ha. subst q. reflexivity. }
    unfold ProductsPage. rewrite He. simpl.
    eexists. split; [reflexivity |]. split.
    + simpl. rewrite productInfo_lookup. reflexivity.
    + left. simpl. rewrite productInfo_lookup. reflexivity.
Qed.

(** Without a session user nothing is held back: the guard reads
    [user?.persona], which is [undefined] for no user. *)
Lemma no_user_sees_all_products (s : State) :
  exists v, ProductsPage "AdminPerspective" None s = Page v
            /\ shown_product v = AdminPerspective
            /\ map fst (shown_links v) = allSidebarLinks.
Proof.
  eexists. split; [reflexivity |]. split; [| reflexivity].
  simpl. rewrite productInfo_lookup. reflexivity.
Qed.

Lemma ProductsPage_page productName user s :
  String.eqb productName "AdminPerspective" && persona_is user "employee" = false ->
  exists v, ProductsPage productName user s = Page v
            /\ shown_product v = default Trans2Actions (productInfo !! productName)
            /\ (persona_is user "employee" = false ->
                map fst (shown_links v) = allSidebarLinks).
Proof.
  intros Hg. unfold ProductsPage. rewrite Hg.
  eexists. split; [reflexivity |]. split; [reflexivity |].
  intros ->. simpl. reflexivity.
Qed.

Lemma employee_persona (u : User) :
  persona u = Some "employee" -> persona_is (Some u) "employee" = true.
Proof. intros Hp. unfold persona_is. rewrite Hp. reflexivity. Qed.

(** C1.  The guard of the AdminPerspective route does not hold in the
    mounted page, and the redirect is never completed.  With the session
    of an employee in [localStorage] and the address
    /products/AdminPerspective opened directly, the first render commits
    the AdminPerspective product with the full side bar, because the
    provider has no user yet and the page does not wait for it; the
    render that follows the restored session takes the early return,
    calls two hooks fewer than the first and throws.  Reached by an
    employee who is signed in already, the route commits the redirect,
    and the render at /products/Trans2Actions that follows calls two
    hooks more and throws; reached from another product address, the
    render of the AdminPerspective route throws at once. *)
Theorem employee_admin_route_breaks (JSON_parse : string -> option User)
    (storage : gmap string string) (w : AuthContext.World) (u : User) (s : State) :
  AuthContext.mount JSON_parse
    {| AuthContext.state := AuthContext.initialState;
       AuthContext.localStorage := storage |} = Some w ->
  AuthContext.user (AuthContext.state w) = Some u ->
  persona u = Some "employee" ->
  (exists v,
     App.open_address JSON_parse "AdminPerspective" storage
     = [Committed (Page v); Threw]
     /\ shown_product v = AdminPerspective
     /\ map fst (shown_links v) = allSidebarLinks)
  /\ renders None s [("AdminPerspective", Some u)]
     = [Committed (Navigate "/products/Trans2Actions" true); Threw]
  /\ (forall productName,
        productName <> "AdminPerspective" -> Js.inherited productName = false ->
        exists v,
          renders None s [(productName, Some u); ("AdminPerspective", Some u)]
          = [Committed (Page v); Threw]).
Proof.
  intros Hmount Hu Hp. apply employee_persona in Hp.
  split; [| split].
  - unfold App.open_address. rewrite Hmount, Hu.
    destruct (ProductsPage_page "AdminPerspective" None initialState eq_refl)
      as (v & Hv & Hs & Hl).
    exists v.
    split; [| split; [rewrite Hs, productInfo_lookup; reflexivity | exact (Hl eq_refl)]].
    unfold renders, render. cbn [AuthContext.user AuthContext.initialState].
    change (Js.inherited "AdminPerspective") with false. cbv iota.
    rewrite Hv. unfold hooks_called. rewrite Hp. reflexivity.
  - unfold renders, render, ProductsPage, hooks_called. rewrite Hp. reflexivity.
  - intros productName Hne Hown.
    assert (Hg : String.eqb productName "AdminPerspective" = false)
      by (apply String.eqb_neq; exact Hne).
    destruct (ProductsPage_page productName (Some u) s) as (v & Hv & _);
      [rewrite Hg; reflexivity |].
    exists v. unfold renders, render. rewrite Hown, Hv.
    change (Js.inherited "AdminPerspective") with false. cbv iota.
    unfold hooks_called. rewrite Hg, Hp. reflexivity.
Qed.

End ProductsPageFacts.

Lemma employee_admin_route_breaks_witness :
  exists v,
    App.open_address sample_parse "AdminPerspective" employee_storage
    = [ProductsPage.Committed (ProductsPage.Page v); ProductsPage.Threw]
    /\ ProductsPage.shown_product v = ProductsPage.AdminPerspective.
Proof.
  destruct (proj1 (employee_admin_route_breaks sample_parse employee_storage
                     {| AuthContext.state :=
                          {| AuthContext.user := Some sample_employee;
                             AuthContext.isLoading := false;
                             AuthContext.token := Some "tok-123" |};
                        AuthContext.localStorage := employee_storage |}
                     sample_employee ProductsPage.initialState
                     ltac:(vm_compute; reflexivity) eq_refl eq_refl))
    as (v & Hv & Hp & _).
  exists v. split; assumption.
Defined.

Lemma admin_product_route_gated_witness :
  ProductsPage.ProductsPage "AdminPerspective" (Some sample_employee)
    ProductsPage.initialState
  = ProductsPage.Navigate "/products/Trans2Actions" true
  /\ exists v,
       ProductsPage.ProductsPage "AdminPerspective" (Some sample_admin)
         ProductsPage.initialState = ProductsPage.Page v
       /\ ProductsPage.shown_product v = ProductsPage.AdminPerspective.
Proof.
  split.
  - apply (admin_product_route_gated (Some sample_employee) ProductsPage.initialState).
    reflexivity.
  - destruct (proj2 (admin_product_route_gated (Some sample_admin)
                       ProductsPage.initialState) eq_refl) as (v & Hv & Hp & _).
    exists v. split; assumption.
Defined.

(** ** The document upload check *)

Section SplitFacts.

Lemma split_nonempty sep s : Js.split sep s <> [].
Proof.
  destruct s as [|c r]; simpl; [discriminate |].
  destruct (Ascii.eqb c sep); [discriminate |].
  destruct (Js.split sep r); discriminate.
Qed.

Lemma split_no_sep sep s : Js.has_char sep s = false -> Js.split sep s = [s].
Proof.
  unfold Js.has_char.
  induction s as [|c r IH]; simpl; [reflexivity |].
  intros Hn. apply orb_false_iff in Hn as [Hc Hr].
  rewrite Ascii.eqb_sym, Hc, (IH Hr). reflexivity.
Qed.

Lemma split_app sep pre suf :
  Js.split sep (pre ++ String sep suf) = (Js.split sep pre ++ Js.split sep suf)%list.
Proof.
  induction pre as [|c r IH]; simpl.
  - rewrite Ascii.eqb_refl. reflexivity.
  - destruct (Ascii.eqb c sep); rewrite IH; [reflexivity |].
    destruct (Js.split sep r) as [|seg segs] eqn:E; [|reflexivity].
    exfalso. exact (split_nonempty _ _ E).
Qed.

Lemma pop_app_singleton (l : list string) (x : string) : Js.pop (l ++ [x]) = Some x.
Proof.
  unfold Js.pop. rewrite map_app. simpl. apply last_last.
Qed.

Lemma pop_split_suffix sep pre suf :
  Js.has_char sep suf = false ->
  Js.pop (Js.split sep (pre ++ String sep suf)) = Some suf.
Proof.
  intros Hn. rewrite split_app, (split_no_sep _ _ Hn). apply pop_app_singleton.
Qed.

Lemma pop_split_total sep s : exists seg, Js.pop (Js.split sep s) = Some seg.
Proof.
  destruct (exists_last (split_nonempty sep s)) as (l & x & ->).
  exists x. apply pop_app_singleton.
Qed.

End SplitFacts.

Section UploadFacts.
Context `{Runtime}.
Import ProductsPage.

Lemma extension_allowed_dot (x : string) :
  extension_allowed ("." ++ x) = true <-> In x supported_extensions.
Proof.
  unfold extension_allowed, supported_extensions. simpl.
  change ("" ++ x) with x.
  rewrite !orb_true_iff, !String.eqb_eq. intuition congruence.
Qed.

Lemma fileExt_of_pop (name seg : string) :
  Js.pop (Js.split "." name) = Some seg ->
  fileExt name = Some ("." ++ Js.toLowerCase seg).
Proof. unfold fileExt. intros ->. reflexivity. Qed.

(** The handler sends something exactly when the check passes, and then
    the upload request comes first. *)
Lemma upload_sent_iff productName name now upload reload s :
  let r := handleFileUpload productName (Some {| file_name := name |})
             now upload reload s in
  (run_requests r <> [] <->
     exists seg, Js.pop (Js.split "." name) = Some seg
                 /\ In (Js.toLowerCase seg) supported_extensions)
  /\ (run_requests r <> [] -> hd_error (run_requests r) = Some upload_request)
  /\ (run_requests r = [] ->
        run_state r = addMessage productName (ai_message now unsupported_text) s).
Proof.
  destruct (pop_split_total "." name) as [seg Hseg].
  unfold handleFileUpload. simpl. rewrite (fileExt_of_pop _ _ Hseg).
  destruct (extension_allowed ("." ++ Js.toLowerCase seg)) eqn:Ha; simpl.
  - apply extension_allowed_dot in Ha.
    destruct upload as [m | [|] st stt [m | b]]; simpl;
      (split; [split; [intros _; exists seg; split; assumption | discriminate] |];
       split; [reflexivity | discriminate]).
  - repeat split.
    + intros Hne. exfalso. apply Hne. reflexivity.
    + intros (seg' & Hseg' & Hin) _. rewrite Hseg in Hseg'. injection Hseg' as <-.
      apply extension_allowed_dot in Hin. congruence.
    + intros Hne. exfalso. apply Hne. reflexivity.
Qed.

End UploadFacts.

Section UploadCheck.
Context `{Runtime}.
Import ProductsPage.
Variables (productName : string) (now : Z).
Variables (upload : FetchOutcome UploadBody) (reload : FetchOutcome DocumentsBody).
Variable s : State.

(** The run of the handler on a file of the given name. *)
Local Abbreviation run_on name :=
  (handleFileUpload productName (Some {| file_name := name |}) now upload reload s).

(** C9, as amended.  A file named notes.exe is turned away by the
    handler itself: the run sends no request and appends, to the messages
    of the current product, the error message that names the supported
    formats; and the files that pass are exactly those whose name has
    pdf, txt, docx or doc, in any letter case, as its last dot-separated
    segment, which is the whole name when the name has no dot. *)
Theorem notes_exe_rejected_client_side :
  (run_requests (run_on "notes.exe") = []
   /\ run_state (run_on "notes.exe")
      = addMessage productName (ai_message now unsupported_text) s
   /\ messagesByProduct (run_state (run_on "notes.exe")) !! productName
      = Some (default [] (messagesByProduct s !! productName)
              ++ [ {| msg_id := now; msg_type := "ai";
                      msg_text := "Error: Unsupported file type. Supported formats: PDF, TXT, DOCX" |} ])%list)
  /\ forall name,
       run_requests (run_on name) <> [] <->
       exists seg, Js.pop (Js.split "." name) = Some seg
                   /\ In (Js.toLowerCase seg) supported_extensions.
Proof.
  split.
  - split; [reflexivity |]. split; [reflexivity |].
    simpl. apply lookup_insert_eq.
  - intros name.
    apply (proj1 (upload_sent_iff productName name now upload reload s)).
Qed.

(** C10, as amended.  The check is case-insensitive over the last
    dot-separated segment of the file name: for a name with a dot the
    upload goes ahead exactly when the suffix after the last dot,
    lower-cased, is pdf, txt, docx or doc; a name without a dot is its own
    last segment, so it is turned away unless the whole name, lower-cased,
    is one of these four words; a file that is turned away gets the
    message that lists PDF, TXT, DOCX.  REPORT.PDF and a .doc file are
    accepted. *)
Theorem upload_check_on_last_segment (name : string) :
  (forall suf, suffix_after_last_dot name suf ->
     (run_requests (run_on name) <> [] <-> In (Js.toLowerCase suf) supported_extensions))
  /\ (Js.has_char "." name = false ->
     (run_requests (run_on name) <> [] <-> In (Js.toLowerCase name) supported_extensions))
  /\ (run_requests (run_on name) = [] ->
      run_state (run_on name)
      = addMessage productName
          (ai_message now "Error: Unsupported file type. Supported formats: PDF, TXT, DOCX") s)
  /\ hd_error (run_requests (run_on "REPORT.PDF")) = Some upload_request
  /\ hd_error (run_requests (run_on "minutes.doc")) = Some upload_request.
Proof.
  destruct (upload_sent_iff productName name now upload reload s) as (Hiff & _ & Hrej).
  split; [| split; [| split; [exact Hrej |]]].
  - intros suf (pre & -> & Hnd). rewrite Hiff.
    change ("." ++ suf) with (String "." suf).
    rewrite (pop_split_suffix "." pre suf Hnd).
    split.
    + intros (seg & [= <-] & Hin). exact Hin.
    + intros Hin. exists suf. split; [reflexivity | exact Hin].
  - intros Hnd. rewrite Hiff.
    rewrite (split_no_sep "." name Hnd). simpl.
    split.
    + intros (seg & [= <-] & Hin). exact Hin.
    + intros Hin. exists name. split; [reflexivity | exact Hin].
  - split.
    + apply (upload_sent_iff productName "REPORT.PDF" now upload reload s).
      apply (upload_sent_iff productName "REPORT.PDF" now upload reload s).
      exists "PDF". split; [reflexivity | simpl; auto].
    + apply (upload_sent_iff productName "minutes.doc" now upload reload s).
      apply (upload_sent_iff productName "minutes.doc" now upload reload s).
      exists "doc". split; [reflexivity | simpl; auto 6].
Qed.

End UploadCheck.

Lemma notes_exe_rejected_client_side_witness :
  exists seg, Js.pop (Js.split "." "report.pdf") = Some seg
              /\ In (Js.toLowerCase seg) supported_extensions.
Proof.
  apply (proj1 (proj2 (@notes_exe_rejected_client_side sampleRuntime "Trans2Actions" 0
                         (Rejected "offline") (Rejected "offline")
                         ProductsPage.initialState) "report.pdf")).
  simpl. discriminate.
Defined.

Lemma has_char_app_sep sep pre suf : Js.has_char sep (pre ++ String sep suf) = true.
Proof.
  unfold Js.has_char.
  induction pre as [|c r IH].
  - change ("" ++ String sep suf) with (String sep suf). simpl.
    rewrite Ascii.eqb_refl. reflexivity.
  - change (String c r ++ String sep suf) with (String c (r ++ String sep suf)).
    simpl. rewrite IH. apply orb_true_r.
Qed.

Lemma no_dot_no_suffix name suf :
  Js.has_char "." name = false -> ~ suffix_after_last_dot name suf.
Proof.
  intros Hn (pre & E & _). rewrite E in Hn.
  change ("." ++ suf) with (String "." suf) in Hn.
  rewrite has_char_app_sep in Hn. discriminate.
Qed.

(** C9 as stated fails: a file named txt has no extension, that is, no
    suffix after a last dot, and it passes the check: the upload is
    sent. *)
Lemma extensionless_name_uploaded :
  (forall suf, ~ suffix_after_last_dot "txt" suf)
  /\ ProductsPage.run_requests
       (@ProductsPage.handleFileUpload sampleRuntime "Trans2Actions"
          (Some {| ProductsPage.file_name := "txt" |}) 0
          (Rejected "offline") (Rejected "offline") ProductsPage.initialState)
     = [ {| req_method := "POST";
            req_url := "http://localhost:8000/trans2actions/upload" |} ].
Proof.
  split; [| reflexivity].
  intros suf. apply no_dot_no_suffix. reflexivity.
Qed.

Lemma upload_check_on_last_segment_witness :
  (ProductsPage.run_requests
     (@ProductsPage.handleFileUpload sampleRuntime "Trans2Actions"
        (Some {| ProductsPage.file_name := "Minutes.final.DOCX" |}) 0
        (Rejected "offline") (Rejected "offline") ProductsPage.initialState) <> []
   <-> In (Js.toLowerCase "DOCX") supported_extensions)
  /\ (ProductsPage.run_requests
        (@ProductsPage.handleFileUpload sampleRuntime "Trans2Actions"
           (Some {| ProductsPage.file_name := "README" |}) 0
           (Rejected "offline") (Rejected "offline") ProductsPage.initialState) <> []
      <-> In (Js.toLowerCase "README") supported_extensions).
Proof.
  split.
  - apply (@upload_check_on_last_segment sampleRuntime "Trans2Actions" 0
             (Rejected "offline") (Rejected "offline") ProductsPage.initialState
             "Minutes.final.DOCX").
    exists "Minutes.final". split; reflexivity.
  - apply (@upload_check_on_last_segment sampleRuntime "Trans2Actions" 0
             (Rejected "offline") (Rejected "offline") ProductsPage.initialState
             "README").
    reflexivity.
Defined.

(** C10 as stated fails: a file named doc has no dot in its name and the
    upload is sent all the same. *)
Lemma dotless_name_accepted :
  Js.has_char "." "doc" = false
  /\ ProductsPage.run_requests
       (@ProductsPage.handleFileUpload sampleRuntime "Trans2Actions"
          (Some {| ProductsPage.file_name := "doc" |}) 0
          (Rejected "offline") (Rejected "offline") ProductsPage.initialState)
     = [ {| req_method := "POST";
            req_url := "http://localhost:8000/trans2actions/upload" |} ]
  /\ ~ (forall name,
          Js.has_char "." name = false ->
          ProductsPage.run_requests
            (@ProductsPage.handleFileUpload sampleRuntime "Trans2Actions"
               (Some {| ProductsPage.file_name := name |}) 0
               (Rejected "offline") (Rejected "offline") ProductsPage.initialState)
          = []).
Proof.
  split; [reflexivity |]. split; [reflexivity |].
  intros Hall. specialize (Hall "doc" eq_refl). discriminate Hall.
Qed.

(** ** The task adapter *)

Section TaskAdapter.
Context `{Runtime}.
Import TasksView.

Lemma allTasks_length k cs : length (allTasks k cs) = length cs.
Proof.
  revert k. induction cs as [|c r IH]; intros k; simpl; [reflexivity |].
  rewrite IH. reflexivity.
Qed.

Lemma allTasks_nth k cs i :
  nth_error (allTasks k cs) i = option_map (cardToTask (k + i)) (nth_error cs i).
Proof.
  revert k i. induction cs as [|c r IH]; intros k [|i]; simpl; try reflexivity.
  - rewrite Nat.add_0_r. reflexivity.
  - rewrite IH. replace (S k + i) with (k + S i) by lia. reflexivity.
Qed.

Lemma allTasks_ids k cs : map id (allTasks k cs) = map Card.id cs.
Proof.
  revert k. induction cs as [|c r IH]; intros k; simpl; [reflexivity |].
  rewrite IH. reflexivity.
Qed.

Lemma allTasks_status_ok k cs : Forall status_ok (allTasks k cs).
Proof.
  revert k. induction cs as [|c r IH]; intros k; simpl; constructor; [| apply IH].
  unfold status_ok. simpl. destruct (Card.closed c); auto.
Qed.

(** C2.  The cards become tasks one for one and in the order of the
    cards; the task of a card has the card's id, its status is done if the
    card is closed and open otherwise, and its due date is the calendar
    date of the card's due date when the card has one that parses, and the
    date of the clock reading made for that card when the due date is
    missing, empty or does not parse; the conversion gives a task for
    every card whatever the dates are. *)
Theorem cards_become_tasks_in_order (k : nat) (cs : list Card.t) :
  length (allTasks k cs) = length cs
  /\ map id (allTasks k cs) = map Card.id cs
  /\ forall i card,
       nth_error cs i = Some card ->
       exists task,
         nth_error (allTasks k cs) i = Some task
         /\ id task = Card.id card
         /\ status task = (if Card.closed card then "done" else "open")
         /\ (forall d iso,
               Card.due card = Some d -> Js.truthy d = true ->
               Date_isoDate d = Some iso -> dueDate task = iso)
         /\ (Js.falsy_opt (Card.due card) = true -> dueDate task = Date_today (k + i))
         /\ (forall d,
               Card.due card = Some d -> Date_isoDate d = None ->
               dueDate task = Date_today (k + i)).
Proof.
  split; [apply allTasks_length |]. split; [apply allTasks_ids |].
  intros i card Hc. exists (cardToTask (k + i) card).
  rewrite allTasks_nth, Hc. simpl.
  split; [reflexivity |]. split; [reflexivity |]. split; [reflexivity |].
  split; [| split].
  - intros d iso -> -> ->. reflexivity.
  - destruct (Card.due card) as [d|]; simpl; [| reflexivity].
    intros Hf. apply negb_true_iff in Hf. rewrite Hf. reflexivity.
  - intros d -> ->. destruct (Js.truthy d); reflexivity.
Qed.

(** A success response with at least one card replaces the task list by
    the converted cards. *)
Lemma fetchTasks_success k st stt st' stt' boardId c r s :
  Js.truthy boardId = true ->
  tasks (run_state
           (fetchTasks k
              (Responded true st stt (inr {| workspace_id := Some boardId |}))
              (Responded true st' stt' (inr (Some {| cards := Some (c :: r) |}))) s))
  = allTasks k (c :: r).
Proof. intros Hb. unfold fetchTasks. simpl. rewrite Hb. reflexivity. Qed.

(** C3.  When the settings response or the cards response is not a
    success, the run changes neither the task list nor the grouping nor
    the filter (the state is the previous one with the loading flag
    cleared); after a failed settings response the cards are not even
    requested. *)
Theorem failed_fetch_keeps_tasks (k : nat) (s : State)
    (settingsResponse : FetchOutcome SettingsBody)
    (response : FetchOutcome (option CardsData))
    (status statusText : string) :
  (forall json,
     let r := fetchTasks k (Responded false status statusText json) response s in
     run_state r = setLoading false s
     /\ tasks (run_state r) = tasks s
     /\ lists (run_state r) = lists s
     /\ run_requests r = [settings_request])
  /\ (forall json,
     let r := fetchTasks k settingsResponse (Responded false status statusText json) s in
     run_state r = setLoading false s
     /\ tasks (run_state r) = tasks s
     /\ lists (run_state r) = lists s).
Proof.
  split; intros json; simpl.
  - repeat split; reflexivity.
  - unfold fetchTasks.
    destruct settingsResponse as [m | [|] st stt [m | [[b|]]]]; simpl;
      try (repeat split; reflexivity).
    destruct (Js.truthy b); simpl; repeat split; reflexivity.
Qed.

End TaskAdapter.

Lemma cards_become_tasks_in_order_witness :
  exists task,
    nth_error (@TasksView.allTasks sampleRuntime 0 sample_cards) 2 = Some task
    /\ TasksView.status task = "open"
    /\ TasksView.dueDate task = "2025-06-01".
Proof.
  destruct (proj2 (proj2 (@cards_become_tasks_in_order sampleRuntime 0 sample_cards))
              2 (sample_card "c3" false (Some "next tuesday-ish")) eq_refl)
    as (task & Hn & _ & Hs & _ & _ & Hbad).
  exists task. split; [exact Hn |]. split; [exact Hs |].
  exact (Hbad "next tuesday-ish" eq_refl eq_refl).
Defined.

(** ** Toggling and filtering tasks *)

Section TaskList.
Import TasksView.

Lemma toggle_one_id i t : id (toggle_one i t) = id t.
Proof. unfold toggle_one. destruct (String.eqb (id t) i); reflexivity. Qed.

Lemma toggle_one_other i t : id t <> i -> toggle_one i t = t.
Proof.
  intros Hne. unfold toggle_one.
  destruct (String.eqb_spec (id t) i); [contradiction | reflexivity].
Qed.

Lemma toggle_one_status_ok i t : status_ok t -> status_ok (toggle_one i t).
Proof.
  unfold toggle_one, status_ok. intros Hs.
  destruct (String.eqb (id t) i); [| exact Hs]. simpl.
  destruct (String.eqb (status t) "done"); auto.
Qed.

Lemma toggle_one_flips i t :
  status_ok t -> id t = i ->
  status (toggle_one i t) <> status t
  /\ toggle_one i t = set_status t (status (toggle_one i t)).
Proof.
  unfold toggle_one, status_ok. intros Hs <-. rewrite String.eqb_refl. simpl.
  split; [| reflexivity].
  destruct Hs as [-> | ->]; simpl; discriminate.
Qed.

Lemma toggle_one_involutive i t : status_ok t -> toggle_one i (toggle_one i t) = t.
Proof.
  unfold toggle_one, status_ok. intros Hs.
  destruct (String.eqb (id t) i) eqn:E; simpl; rewrite E; [| reflexivity].
  destruct t; simpl in *. destruct Hs as [-> | ->]; reflexivity.
Qed.

Lemma map_toggle_involutive i l :
  Forall status_ok l -> map (toggle_one i) (map (toggle_one i) l) = l.
Proof.
  induction 1 as [|t l Ht _ IH]; simpl; [reflexivity |].
  rewrite toggle_one_involutive, IH by assumption. reflexivity.
Qed.

Lemma toggle_tasks i s :
  tasks (toggleTaskStatus i s) = map (toggle_one i) (tasks s).
Proof.
  unfold toggleTaskStatus.
  destruct (List.find _ (tasks s)) eqn:E; [reflexivity |].
  symmetry. rewrite <- (map_id (tasks s)) at 2. apply map_ext_in.
  intros t Hin. apply toggle_one_other. intros Heq.
  apply (find_none _ _ E) in Hin. simpl in Hin.
  rewrite Heq, String.eqb_refl in Hin. discriminate.
Qed.

Lemma toggle_preserves_status_ok i s :
  Forall status_ok (tasks s) -> Forall status_ok (tasks (toggleTaskStatus i s)).
Proof.
  rewrite toggle_tasks.
  induction 1 as [|t l Ht _ IH]; simpl; constructor; [| exact IH].
  apply toggle_one_status_ok, Ht.
Qed.

Lemma toggle_keeps_rest i s :
  loading (toggleTaskStatus i s) = loading s
  /\ filter (toggleTaskStatus i s) = filter s
  /\ lists (toggleTaskStatus i s) = lists s.
Proof.
  unfold toggleTaskStatus. destruct (List.find _ (tasks s)); repeat split; reflexivity.
Qed.

Lemma state_eq (a b : State) :
  tasks a = tasks b -> loading a = loading b -> filter a = filter b ->
  lists a = lists b -> a = b.
Proof. destruct a, b; simpl; intros; subst; reflexivity. Qed.

(** Every task of a reachable state is open or done. *)
Lemma reachable_status_ok `{Runtime} s : reachable s -> Forall status_ok (tasks s).
Proof.
  induction 1 as [| k sr r s _ IH | i s _ IH | f s _ _ IH].
  - constructor.
  - unfold fetchTasks.
    destruct sr as [m | [|] st stt [m | [[b|]]]]; simpl; try exact IH.
    destruct (Js.truthy b); simpl; [| exact IH].
    destruct r as [m | [|] st' stt' [m | [[[[|c cs]|]]|]]]; simpl; try exact IH.
    apply (allTasks_status_ok k (c :: cs)).
  - apply toggle_preserves_status_ok, IH.
  - exact IH.
Qed.

(** C5.  In a task list whose statuses are those of the data model,
    toggling an id twice gives the state back, so every task has its
    original status again; one toggle flips the status of the tasks with
    that id and nothing else of them, and leaves every task with another
    id as it is, at its place, after the first and after the second
    toggle. *)
Theorem toggle_twice_restores (s : State) (i : string) :
  Forall status_ok (tasks s) ->
  toggleTaskStatus i (toggleTaskStatus i s) = s
  /\ length (tasks (toggleTaskStatus i s)) = length (tasks s)
  /\ forall n t,
       nth_error (tasks s) n = Some t ->
       nth_error (tasks (toggleTaskStatus i (toggleTaskStatus i s))) n = Some t
       /\ exists t1,
            nth_error (tasks (toggleTaskStatus i s)) n = Some t1
            /\ (id t <> i -> t1 = t)
            /\ (id t = i ->
                status t1 <> status t /\ status_ok t1 /\ t1 = set_status t (status t1)).
Proof.
  intros Hok.
  assert (Htwice : toggleTaskStatus i (toggleTaskStatus i s) = s).
  { apply state_eq.
    - rewrite !toggle_tasks. apply map_toggle_involutive, Hok.
    - rewrite (proj1 (toggle_keeps_rest i _)). apply toggle_keeps_rest.
    - rewrite (proj1 (proj2 (toggle_keeps_rest i _))). apply toggle_keeps_rest.
    - rewrite (proj2 (proj2 (toggle_keeps_rest i _))). apply toggle_keeps_rest. }
  split; [exact Htwice |]. split.
  - rewrite toggle_tasks. apply length_map.
  - intros n t Hn. split; [rewrite Htwice; exact Hn |].
    exists (toggle_one i t). split.
    + rewrite toggle_tasks. apply map_nth_error, Hn.
    + assert (Ht : status_ok t).
      { apply (proj1 (List.Forall_forall _ _) Hok). eapply nth_error_In, Hn. }
      split.
      * apply toggle_one_other.
      * intros Hid. destruct (toggle_one_flips i t Ht Hid) as [Hf He].
        split; [exact Hf |]. split; [apply toggle_one_status_ok, Ht | exact He].
Qed.

Lemma filter_twice {A : Type} (f : A -> bool) (l : list A) :
  List.filter f (List.filter f l) = List.filter f l.
Proof.
  induction l as [|a l IH]; simpl; [reflexivity |].
  destruct (f a) eqn:E; simpl; rewrite ?E, IH; reflexivity.
Qed.

Lemma filter_sublist {A : Type} (f : A -> bool) (l : list A) :
  sublist (List.filter f l) l.
Proof.
  induction l as [|a l IH]; simpl; [constructor |].
  destruct (f a); constructor; exact IH.
Qed.

(** C6.  Under each of the filters all, open and done (and under any
    other filter string), filtering what the filter left gives the same
    list again, whether by the predicate or by showing the filtered list
    under the same filter once more; choosing a filter leaves the stored
    task list as it is, in length and order, and the filtered list is a
    sub-list of it in the same order. *)
Theorem filter_idempotent_and_pure (s : State) (p : string) :
  List.filter (matches p) (List.filter (matches p) (tasks s))
  = List.filter (matches p) (tasks s)
  /\ filteredTasks (setTasks (filteredTasks (setFilter p s)) (setFilter p s))
     = filteredTasks (setFilter p s)
  /\ tasks (setFilter p s) = tasks s
  /\ length (tasks (setFilter p s)) = length (tasks s)
  /\ sublist (filteredTasks (setFilter p s)) (tasks s).
Proof.
  split; [apply filter_twice |]. split; [apply filter_twice |].
  split; [reflexivity |]. split; [reflexivity |].
  apply filter_sublist.
Qed.

End TaskList.

Lemma toggle_twice_restores_witness :
  TasksView.toggleTaskStatus "c2" (TasksView.toggleTaskStatus "c2" sample_tasks_state)
  = sample_tasks_state.
Proof.
  apply (toggle_twice_restores sample_tasks_state "c2").
  apply (@allTasks_status_ok sampleRuntime).
Defined.

(** ** The transcript of the meeting detail *)

Section Truncation.

Lemma substring0_length n s :
  n <= String.length s -> String.length (Js.substring0 n s) = n.
Proof.
  unfold Js.substring0. revert s.
  induction n as [|n IH]; intros [|c r]; simpl; intros Hn; try lia.
  rewrite IH by lia. reflexivity.
Qed.

Lemma substring0_split n s : exists rest, s = Js.substring0 n s ++ rest.
Proof.
  unfold Js.substring0. revert s.
  induction n as [|n IH]; intros [|c r]; simpl.
  - exists "". reflexivity.
  - exists (String c r). reflexivity.
  - exists "". reflexivity.
  - destruct (IH r) as [rest Hr]. exists rest.
    change (String c r = String c (String.substring 0 n r ++ rest)).
    f_equal. exact Hr.
Qed.

Lemma truthy_nonempty s : Js.truthy s = true <-> s <> "".
Proof. destruct s; simpl; split; congruence. Qed.

End Truncation.

Section Transcript.
Import MeetingDetail.

(** What the loaded view shows is the transcript block of its state. *)
Lemma detail_transcript (s : State) (m : Meeting) :
  st_loading s = false -> st_meeting s = Some m ->
  exists v, MeetingDetail s = Detail v
            /\ view_transcript v
               = transcriptBlock (st_transcriptExpanded s) (transcript_text m).
Proof.
  intros Hl Hm. unfold MeetingDetail. rewrite Hl, Hm.
  eexists. split; reflexivity.
Qed.

(** C7, as amended.  For a loaded meeting with a transcript: a non-empty
    transcript of at most 1000 characters is shown in full without a
    control; a transcript of more than 1000 characters is shown, while
    collapsed, as exactly its first 1000 characters followed by three
    dots, with the control Read more, and in full with the control Read
    less once the user has expanded it; an empty transcript is shown as
    the placeholder, without a control. *)
Theorem transcript_truncated_at_1000 (s : State) (m : Meeting) (text : string) :
  st_loading s = false -> st_meeting s = Some m -> transcript_text m = Some text ->
  exists v,
    MeetingDetail s = Detail v
    /\ (text <> "" -> String.length text <= 1000 ->
        view_transcript v = {| block_text := text; block_control := None |})
    /\ (String.length text > 1000 -> st_transcriptExpanded s = false ->
        view_transcript v
        = {| block_text := Js.substring0 1000 text ++ "...";
             block_control := Some "Read more" |}
        /\ String.length (Js.substring0 1000 text) = 1000
        /\ (exists rest, text = Js.substring0 1000 text ++ rest)
        /\ exists v', MeetingDetail (toggleTranscript s) = Detail v'
                      /\ view_transcript v'
                         = {| block_text := text; block_control := Some "Read less" |})
    /\ (String.length text > 1000 -> st_transcriptExpanded s = true ->
        view_transcript v = {| block_text := text; block_control := Some "Read less" |})
    /\ (text = "" ->
        view_transcript v
        = {| block_text := "Transcript not available"; block_control := None |}).
Proof.
  intros Hl Hm Ht.
  destruct (detail_transcript s m Hl Hm) as (v & Hv & Hb).
  exists v. split; [exact Hv |]. rewrite Hb, Ht. clear Hv Hb v.
  unfold transcriptBlock, Js.length_le, Js.length_gt, TRANSCRIPT_TRUNCATE_LENGTH.
  split; [| split; [| split]].
  - intros Hne Hlen. apply truthy_nonempty in Hne.
    apply Nat.leb_le in Hlen. rewrite Hlen, Hne. simpl.
    rewrite Hne, !orb_true_r. reflexivity.
  - intros Hlen Hc.
    assert (Hgt : (String.length text <=? 1000)%nat = false) by (apply Nat.leb_gt; lia).
    assert (Hne : Js.truthy text = true) by (destruct text; [simpl in Hlen; lia | reflexivity]).
    rewrite Hgt, Hne, Hc. simpl. split; [reflexivity |].
    split; [apply substring0_length; lia |].
    split; [apply substring0_split |].
    destruct (detail_transcript (toggleTranscript s) m Hl Hm) as (v' & Hv' & Hb').
    exists v'. split; [exact Hv' |]. rewrite Hb', Ht.
    unfold transcriptBlock, toggleTranscript, Js.length_gt, TRANSCRIPT_TRUNCATE_LENGTH.
    simpl. rewrite Hc, Hgt, Hne. reflexivity.
  - intros Hlen He.
    assert (Hgt : (String.length text <=? 1000)%nat = false) by (apply Nat.leb_gt; lia).
    assert (Hne : Js.truthy text = true) by (destruct text; [simpl in Hlen; lia | reflexivity]).
    rewrite Hgt, Hne, He. simpl. rewrite Hne. reflexivity.
  - intros ->. simpl. rewrite orb_true_r. reflexivity.
Qed.

End Transcript.

Lemma transcript_truncated_at_1000_witness :
  exists v,
    MeetingDetail.MeetingDetail sample_long_state = MeetingDetail.Detail v
    /\ MeetingDetail.view_transcript v
       = {| MeetingDetail.block_text := Js.substring0 1000 long_transcript ++ "...";
            MeetingDetail.block_control := Some "Read more" |}.
Proof.
  destruct (transcript_truncated_at_1000 sample_long_state
              (MeetingDetail.transform
                 {| data_id := "m2"; data_title := "Retro";
                    data_date := "2025-01-02T00:00:00.000Z";
                    data_participants := ["Ada"]; data_summary := "";
                    data_transcript_text := Some long_transcript;
                    data_action_items := [] |})
              long_transcript eq_refl eq_refl eq_refl)
    as (v & Hv & _ & Hlong & _).
  exists v. split; [exact Hv |].
  apply Hlong; [| reflexivity].
  apply Nat.leb_le. vm_compute. reflexivity.
Defined.

(** C7 as stated fails for the empty transcript: it has at most 1000
    characters, and the view shows the placeholder, not the (empty)
    transcript text. *)
Lemma empty_transcript_shows_placeholder :
  MeetingDetail.transcript_text (MeetingDetail.transform sample_meeting) = Some ""
  /\ String.length "" <= 1000
  /\ exists v,
       MeetingDetail.MeetingDetail sample_detail_state = MeetingDetail.Detail v
       /\ MeetingDetail.block_text (MeetingDetail.view_transcript v)
          = "Transcript not available"
       /\ MeetingDetail.block_text (MeetingDetail.view_transcript v) <> "".
Proof.
  split; [reflexivity |]. split; [simpl; lia |].
  eexists. split; [reflexivity |]. split; [reflexivity | discriminate].
Qed.

(** ** Converting action items *)

Section Conversion.
Import MeetingDetail.

Lemma append_cons c a b : String c a ++ b = String c (a ++ b).
Proof. reflexivity. Qed.

Lemma startsWith_app b c : Js.startsWith (b ++ c) b = true.
Proof.
  induction b as [|x b IH]; [destruct c; reflexivity |].
  rewrite append_cons. simpl. rewrite Ascii.eqb_refl. exact IH.
Qed.




Lemma kept_after_filter (item ai : ActionItem) (l : list ActionItem) :
  In ai (List.filter (fun x => negb (String.eqb (action_id x) (action_id item))) l) ->
  In ai l /\ action_id ai <> action_id item.
Proof.
  intros Hin. apply filter_In in Hin as [Hin Hne]. split; [exact Hin |].
  apply negb_true_iff, String.eqb_neq in Hne. exact Hne.
Qed.



(** A click that is settled before the next one is a step of the
    one-after-another run. *)
Lemma click_then_settle (x : Session) (a : Attempt) :
  ses_pending x = [] ->
  ses_state (session_run x [Click (att_item a);
                            Settled 0 (att_response a) (att_answer a)])
  = convert_step (ses_state x) a.
Proof. intros Hp. unfold session_run. simpl. rewrite Hp. reflexivity. Qed.




End Conversion.



(** Two conversions in flight at once: both closures hold the list of
    the render they were created in, so the second to settle writes back
    the item the first one removed. *)
Example overlapping_conversions_restore_item :
  MeetingDetail.st_actionItems sample_detail_state = [item_report; item_room]
  /\ MeetingDetail.st_actionItems
       (MeetingDetail.ses_state
          (MeetingDetail.session_run
             {| MeetingDetail.ses_state := sample_detail_state;
                MeetingDetail.ses_pending := [];
                MeetingDetail.ses_shown := [] |}
             [ MeetingDetail.Click item_report;
               MeetingDetail.Click item_room;
               MeetingDetail.Settled 0 converted_ok false;
               MeetingDetail.Settled 0 converted_ok false ]))
     = [item_report].
Proof. split; reflexivity. Qed.

(** ** Participants *)

Section Participants.

(** The participant entries that both meeting adapters build. *)
Lemma detail_participants (data : MeetingData) :
  MeetingDetail.participants (MeetingDetail.transform data)
  = map (fun name => {| participant_id := Js.toLowerCase name;
                        participant_name := name |})
        (data_participants data).
Proof. reflexivity. Qed.

Lemma listed_participants (data : MeetingData) (m : MeetingsView.Meeting) :
  MeetingsView.transform data = Some m ->
  MeetingsView.participants m = MeetingDetail.participants (MeetingDetail.transform data).
Proof.
  unfold MeetingsView.transform.
  destruct (data_transcript_text data); [| discriminate].
  intros [= <-]. reflexivity.
Qed.

(** C8, as amended.  The meeting adapter makes one participant entry
    per name of the list, in order, with the lower-cased name as id and
    the name as it is; the list view builds the same entries.  Hence two
    names that differ only by letter case stay two entries, and these two
    entries carry the same id: for Sam and sam both ids are sam. *)
Theorem participants_one_entry_per_name (data : MeetingData) :
  let ps := MeetingDetail.participants (MeetingDetail.transform data) in
  length ps = length (data_participants data)
  /\ map participant_name ps = data_participants data
  /\ map participant_id ps = map Js.toLowerCase (data_participants data)
  /\ (forall m, MeetingsView.transform data = Some m -> MeetingsView.participants m = ps)
  /\ (forall i j a b,
        i <> j ->
        nth_error (data_participants data) i = Some a ->
        nth_error (data_participants data) j = Some b ->
        Js.toLowerCase a = Js.toLowerCase b ->
        nth_error ps i = Some {| participant_id := Js.toLowerCase a; participant_name := a |}
        /\ nth_error ps j = Some {| participant_id := Js.toLowerCase a; participant_name := b |})
  /\ (data_participants data = ["Sam"; "sam"] ->
      ps = [ {| participant_id := "sam"; participant_name := "Sam" |};
             {| participant_id := "sam"; participant_name := "sam" |} ]).
Proof.
  intros ps. subst ps. rewrite detail_participants.
  split; [apply length_map |].
  split; [rewrite map_map; apply map_id |].
  split; [rewrite map_map; reflexivity |].
  split; [intros m Hm; rewrite (listed_participants data m Hm); apply detail_participants |].
  split.
  - intros i j a b _ Ha Hb Hab. split.
    + rewrite (map_nth_error _ _ _ Ha). reflexivity.
    + rewrite (map_nth_error _ _ _ Hb), Hab. reflexivity.
  - intros ->. reflexivity.
Qed.

End Participants.

Lemma participants_one_entry_per_name_witness :
  MeetingDetail.participants (MeetingDetail.transform sample_meeting)
  = [ {| participant_id := "sam"; participant_name := "Sam" |};
      {| participant_id := "sam"; participant_name := "sam" |} ].
Proof.
  apply (proj2 (proj2 (proj2 (proj2 (proj2
           (participants_one_entry_per_name sample_meeting)))))).
  reflexivity.
Defined.

(** C8 as stated fails: for the participants Sam and sam the adapter
    gives two entries, not one. *)
Lemma sam_and_sam_stay_two_entries :
  data_participants sample_meeting = ["Sam"; "sam"]
  /\ length (MeetingDetail.participants (MeetingDetail.transform sample_meeting)) = 2
  /\ ~ (exists p,
          MeetingDetail.participants (MeetingDetail.transform sample_meeting) = [p])
  /\ (forall m, MeetingsView.transform sample_meeting = Some m ->
        length (MeetingsView.participants m) = 2).
Proof.
  split; [reflexivity |]. split; [reflexivity |]. split.
  - intros [p Hp]. discriminate Hp.
  - intros m [= <-]. reflexivity.
Qed.

(** * Further properties of the components *)

(** ** Messages, documents and queries of the products page *)

Section ProductChannels.
Context `{Runtime}.
Import ProductsPage.

Lemma addMessage_lookup p m s :
  messagesByProduct (addMessage p m s) !! p
  = Some (default [] (messagesByProduct s !! p) ++ [m])%list.
Proof. simpl. apply lookup_insert_eq. Qed.

Lemma addMessage_lookup_other p q m s :
  q <> p -> messagesByProduct (addMessage p m s) !! q = messagesByProduct s !! q.
Proof. intros Hne. simpl. apply lookup_insert_ne. congruence. Qed.

Lemma loadDocuments_messages o s :
  messagesByProduct (loadDocuments o s) = messagesByProduct s.
Proof. destruct o as [m | [|] st stt [m | d]]; reflexivity. Qed.

Lemma loadDocuments_changes o s :
  documents (loadDocuments o s) <> documents s -> succeeded o = true.
Proof.
  destruct o as [m | [|] st stt [m | d]]; simpl; intros Hd;
    first [reflexivity | congruence].
Qed.

(** The upload handler by itself, up to its last update and before the
    effect of the page runs: it adds one message to the messages of the
    current product and leaves those of the other products alone; when
    the check let the file through, the uploading flag is cleared at the
    end on every path; the handler's own reload replaces the document
    list only if the upload and that reload both succeeded. *)
Lemma handleFileUpload_run (productName name : string) (now : Z)
    (upload : FetchOutcome UploadBody) (reload : FetchOutcome DocumentsBody)
    (s : State) :
  let r := handleFileUpload productName (Some {| file_name := name |})
             now upload reload s in
  (exists text,
     messagesByProduct (run_state r) !! productName
     = Some (default [] (messagesByProduct s !! productName)
             ++ [ai_message now text])%list)
  /\ (forall q, q <> productName ->
        messagesByProduct (run_state r) !! q = messagesByProduct s !! q)
  /\ (run_requests r <> [] -> uploading (run_state r) = false)
  /\ (documents (run_state r) <> documents s ->
        succeeded upload = true /\ succeeded reload = true).
Proof.
  intros r. subst r.
  destruct (pop_split_total "." name) as [seg Hseg].
  unfold handleFileUpload. simpl. rewrite (fileExt_of_pop _ _ Hseg).
  destruct (extension_allowed _); simpl.
  - destruct upload as [m | [|] st stt [m | b]]; simpl;
      rewrite ?loadDocuments_messages; simpl;
      (split; [eexists; apply lookup_insert_eq |]);
      (split; [intros q Hq; rewrite lookup_insert_ne by congruence;
               rewrite ?loadDocuments_messages; reflexivity |]);
      (split; [reflexivity |]); try congruence.
    intros Hd. split; [reflexivity |]. apply (loadDocuments_changes reload _ Hd).
  - split; [eexists; apply lookup_insert_eq |].
    split; [intros q Hq; apply lookup_insert_ne; congruence |].
    split; congruence.
Qed.

(** The delete handler by itself, before the effect of the page runs: it
    adds one message to the current product; the message is the success
    text exactly when the delete response is a success; the handler's own
    reload is sent only after a successful delete. *)
Lemma handleDeleteDocument_run (productName documentId : string) (now : Z)
    (response : FetchOutcome DeleteBody) (reload : FetchOutcome DocumentsBody)
    (s : State) :
  let r := handleDeleteDocument productName documentId now response reload s in
  (exists text,
     messagesByProduct (run_state r) !! productName
     = Some (default [] (messagesByProduct s !! productName)
             ++ [ai_message now text])%list
     /\ (text = "Document deleted successfully" <-> responded_ok response = true))
  /\ (forall q, q <> productName ->
        messagesByProduct (run_state r) !! q = messagesByProduct s !! q)
  /\ (documents (run_state r) <> documents s ->
        responded_ok response = true /\ succeeded reload = true)
  /\ (responded_ok response = false ->
        run_requests r = [delete_request documentId]
        /\ documents (run_state r) = documents s).
Proof.
  intros r. subst r.
  assert (Herr : forall m, "Error: " ++ m <> "Document deleted successfully")
    by (intros m; change ("Error: " ++ m) with (String "E" ("rror: " ++ m)); discriminate).
  destruct response as [m | [|] st stt [m | b]]; simpl;
    rewrite ?loadDocuments_messages; simpl.
  all: split;
    [ eexists; split; [apply lookup_insert_eq |];
      split; [first [reflexivity | intros Ht; exfalso; apply (Herr _ Ht)]
             | first [reflexivity | discriminate]] |].
  all: split;
    [ intros q Hq; rewrite lookup_insert_ne by congruence;
      rewrite ?loadDocuments_messages; reflexivity |].
  all: split;
    [ intros Hd; first [congruence
        | split; [reflexivity | apply (loadDocuments_changes reload _ Hd)]]
    | first [discriminate | intros _; split; reflexivity] ].
Qed.

End ProductChannels.

Section TrimFacts.

Lemma trimStart_blank s :
  forallb Js.isSpace (list_ascii_of_string s) = true -> Js.trimStart s = "".
Proof.
  induction s as [|c r IH]; simpl; [reflexivity |].
  intros Hb. apply andb_true_iff in Hb as [Hc Hr]. rewrite Hc. apply IH, Hr.
Qed.

Lemma trimEnd_empty s :
  Js.trimEnd s = "" -> forallb Js.isSpace (list_ascii_of_string s) = true.
Proof.
  induction s as [|c r IH]; simpl; [reflexivity |].
  destruct (Js.trimEnd r) eqn:E; [| discriminate].
  destruct (Js.isSpace c); [| discriminate].
  intros _. apply IH. reflexivity.
Qed.

Lemma trimStart_suffix s :
  exists pre, s = pre ++ Js.trimStart s
              /\ forallb Js.isSpace (list_ascii_of_string pre) = true.
Proof.
  induction s as [|c r IH]; simpl.
  - exists "". split; reflexivity.
  - destruct (Js.isSpace c) eqn:Hc.
    + destruct IH as (pre & Hr & Hp). exists (String c pre). split.
      * change (String c r = String c (pre ++ Js.trimStart r)). f_equal. exact Hr.
      * simpl. rewrite Hc. exact Hp.
    + exists "". split; reflexivity.
Qed.

Lemma forallb_chars_app a b :
  forallb Js.isSpace (list_ascii_of_string (a ++ b))
  = forallb Js.isSpace (list_ascii_of_string a)
    && forallb Js.isSpace (list_ascii_of_string b).
Proof.
  induction a as [|c a IH]; [reflexivity |].
  change (String c a ++ b) with (String c (a ++ b)). simpl. rewrite IH.
  apply andb_assoc.
Qed.

(** [trim] gives the empty string exactly on the strings made of white
    space only. *)
Lemma trim_empty_iff s :
  Js.trim s = "" <-> forallb Js.isSpace (list_ascii_of_string s) = true.
Proof.
  unfold Js.trim. split.
  - intros Ht. apply trimEnd_empty in Ht.
    destruct (trimStart_suffix s) as (pre & Hs & Hp).
    rewrite Hs, forallb_chars_app, Hp, Ht. reflexivity.
  - intros Hb. rewrite (trimStart_blank s Hb). reflexivity.
Qed.

Lemma append_inj_l a b c : a ++ b = a ++ c -> b = c.
Proof.
  induction a as [|x a IH]; [tauto |].
  change (String x (a ++ b) = String x (a ++ c) -> b = c).
  intros [= Heq]. apply IH, Heq.
Qed.

End TrimFacts.

Section Submit.
Context `{Runtime}.
Import ProductsPage.

Lemma admin_request_distinct (m p : string) :
  p <> "/admin/assign-task" ->
  admin_assign_request <> {| req_method := m; req_url := API_URL ++ p |}.
Proof.
  intros Hp E. apply (f_equal req_url) in E. simpl in E.
  apply append_inj_l in E. congruence.
Qed.

(** The request that a query on a product goes to, if any. *)
Lemma submit_requests productName now1 now2 response s :
  Js.trim (inputValue s) <> "" -> loading s = false ->
  run_requests (handleSubmit productName now1 now2 response s)
  = if String.eqb productName "Trans2Actions" then [query_request]
    else if String.eqb productName "User-Load" then
      if asks_for_tasks (Js.trim (inputValue s))
      then [userload_tasks_request] else [userload_update_request]
    else if String.eqb productName "AdminPerspective" then [admin_assign_request]
    else [].
Proof.
  intros Hq Hl. apply truthy_nonempty in Hq.
  unfold handleSubmit. rewrite Hq, Hl. simpl.
  destruct (String.eqb productName "Trans2Actions");
    [destruct response as [m | [|] st stt [m | b]]; reflexivity |].
  destruct (String.eqb productName "User-Load").
  - destruct (asks_for_tasks _);
      destruct response as [m | [|] st stt [m | b]]; reflexivity.
  - destruct (String.eqb productName "AdminPerspective");
      [destruct response as [m | [|] st stt [m | b]]; reflexivity | reflexivity].
Qed.

(** A query that is blank (empty or white space only), or one submitted
    while the previous one is still loading, does nothing at all: no
    message, no request, the input stays. *)
Theorem blank_or_busy_submit_ignored (productName : string) (now1 now2 : Z)
    (response : FetchOutcome SubmitBody) (s : State) :
  forallb Js.isSpace (list_ascii_of_string (inputValue s)) = true \/ loading s = true ->
  handleSubmit productName now1 now2 response s
  = {| run_state := s; run_requests := [] |}.
Proof.
  intros [Hb | Hl]; unfold handleSubmit.
  - apply trim_empty_iff in Hb. rewrite Hb. reflexivity.
  - rewrite Hl, orb_true_r. reflexivity.
Qed.

(** The submit handler by itself, on a query that is not blank and
    while nothing is loading, before the effects of the page run: the
    trimmed query is appended as the user's message; the handler sends
    one request to the endpoint of the product (none for a name that is
    no product) and for each request one reply or error message follows;
    at the end the input is empty and the loading flag is cleared; the
    handler touches neither the other products' messages nor the
    documents. *)
Lemma handleSubmit_run (productName : string) (now1 now2 : Z)
    (response : FetchOutcome SubmitBody) (s : State) :
  Js.trim (inputValue s) <> "" -> loading s = false ->
  let r := handleSubmit productName now1 now2 response s in
  (exists replies,
     messagesByProduct (run_state r) !! productName
     = Some (default [] (messagesByProduct s !! productName)
             ++ {| msg_id := now1; msg_type := "user";
                   msg_text := Js.trim (inputValue s) |} :: replies)%list
     /\ length replies = length (run_requests r)
     /\ Forall (fun m => msg_type m = "ai" /\ msg_id m = (now2 + 1)%Z) replies)
  /\ length (run_requests r) <= 1
  /\ (In admin_assign_request (run_requests r) <-> productName = "AdminPerspective")
  /\ inputValue (run_state r) = ""
  /\ loading (run_state r) = false
  /\ documents (run_state r) = documents s
  /\ (forall q, q <> productName ->
        messagesByProduct (run_state r) !! q = messagesByProduct s !! q).
Proof.
  intros Hq Hl r.
  assert (Hreqs := submit_requests productName now1 now2 response s Hq Hl).
  fold r in Hreqs.
  assert (Hstate :
    (exists text,
       run_state r
       = setLoading false
           (addMessage productName (ai_message (now2 + 1) text)
              (setLoading true (setInputValue ""
                 (addMessage productName
                    {| msg_id := now1; msg_type := "user";
                       msg_text := Js.trim (inputValue s) |} s))))
       /\ length (run_requests r) = 1)
    \/ (run_state r
        = setLoading false
            (setLoading true (setInputValue ""
               (addMessage productName
                  {| msg_id := now1; msg_type := "user";
                     msg_text := Js.trim (inputValue s) |} s)))
        /\ run_requests r = [])).
  { subst r. clear Hreqs. apply truthy_nonempty in Hq.
    unfold handleSubmit. rewrite Hq, Hl. simpl.
    destruct (String.eqb productName "Trans2Actions");
      [left; destruct response as [m | [|] st stt [m | b]]; eexists; split; reflexivity |].
    destruct (String.eqb productName "User-Load").
    - left. destruct (asks_for_tasks _);
        destruct response as [m | [|] st stt [m | b]]; eexists; split; reflexivity.
    - destruct (String.eqb productName "AdminPerspective");
        [left; destruct response as [m | [|] st stt [m | b]]; eexists; split; reflexivity |].
      right. split; reflexivity. }
  assert (Hadmin :
    In admin_assign_request (run_requests r) <-> productName = "AdminPerspective").
  { rewrite Hreqs.
    destruct (String.eqb_spec productName "Trans2Actions") as [-> | H1].
    { split; [| discriminate]. intros [E | []]. exfalso.
      apply (admin_request_distinct "POST" "/trans2actions/query"); [discriminate |].
      symmetry. exact E. }
    destruct (String.eqb_spec productName "User-Load") as [-> | H2].
    { split; [| discriminate].
      destruct (asks_for_tasks _); intros [E | []]; exfalso.
      - apply (admin_request_distinct "GET" "/userload/tasks"); [discriminate |].
        symmetry. exact E.
      - apply (admin_request_distinct "POST" "/userload/update-task"); [discriminate |].
        symmetry. exact E. }
    destruct (String.eqb_spec productName "AdminPerspective") as [-> | H3].
    - split; [reflexivity | intros _; left; reflexivity].
    - split; [intros [] | contradiction]. }
  destruct Hstate as [(text & Hs & Hn) | [Hs Hn]]; rewrite Hs; simpl.
  - split.
    { exists [ai_message (now2 + 1) text]. split.
      - rewrite lookup_insert_eq, lookup_insert_eq. simpl.
        rewrite <- app_assoc. reflexivity.
      - split; [symmetry; exact Hn |]. repeat constructor. }
    split; [lia |]. split; [exact Hadmin |].
    split; [reflexivity |]. split; [reflexivity |]. split; [reflexivity |].
    intros q Hne. rewrite !lookup_insert_ne by congruence. reflexivity.
  - split.
    { exists []. split; [apply lookup_insert_eq |].
      split; [rewrite Hn; reflexivity | constructor]. }
    split; [rewrite Hn; simpl; lia |]. split; [exact Hadmin |].
    split; [reflexivity |]. split; [reflexivity |]. split; [reflexivity |].
    intros q Hne. rewrite lookup_insert_ne by congruence. reflexivity.
Qed.

(** The page an employee sees never posts to the admin endpoint: on
    every product route that renders for an employee, a query goes
    elsewhere or nowhere. *)
Theorem employee_page_never_assigns (productName : string) (user : option User)
    (now1 now2 : Z) (response : FetchOutcome SubmitBody) (s : State) (v : PageView) :
  persona_is user "employee" = true ->
  ProductsPage productName user s = Page v ->
  Forall (fun request => request <> admin_assign_request)
    (run_requests (handleSubmit productName now1 now2 response s)).
Proof.
  intros He Hv. apply List.Forall_forall. intros request Hin ->. revert Hin.
  assert (Hp : productName <> "AdminPerspective").
  { intros ->. unfold ProductsPage in Hv. rewrite He in Hv. discriminate. }
  destruct (negb (Js.truthy (Js.trim (inputValue s))) || loading s) eqn:Hg;
    [unfold handleSubmit; rewrite Hg; simpl; tauto |].
  apply orb_false_iff in Hg as [Hq Hl]. apply negb_false_iff in Hq.
  apply truthy_nonempty in Hq.
  rewrite (submit_requests productName now1 now2 response s Hq Hl).
  destruct (String.eqb_spec productName "AdminPerspective") as [E | _];
    [contradiction |].
  destruct (String.eqb productName "Trans2Actions").
  { intros [E | []]. apply (admin_request_distinct "POST" "/trans2actions/query"); [discriminate |].
    symmetry. exact E. }
  destruct (String.eqb productName "User-Load"); [| simpl; tauto].
  destruct (asks_for_tasks _); intros [E | []].
  - apply (admin_request_distinct "GET" "/userload/tasks"); [discriminate |]. symmetry. exact E.
  - apply (admin_request_distinct "POST" "/userload/update-task"); [discriminate |]. symmetry. exact E.
Qed.

End Submit.

(** ** The handlers as the page runs them *)

Section PageRuns.
Context `{Runtime}.
Import ProductsPage.

Lemma message_added_grown p s s' m l :
  messagesByProduct s' !! p
  = Some (default [] (messagesByProduct s !! p) ++ m :: l)%list ->
  message_added p s s' = true.
Proof.
  intros E. unfold message_added. rewrite E. simpl.
  rewrite length_app. simpl. apply negb_true_iff, Nat.eqb_neq. lia.
Qed.

Lemma effect_settled_messages p o s :
  messagesByProduct (effect_settled p o s) = messagesByProduct s.
Proof.
  unfold effect_settled. destruct (String.eqb p "Trans2Actions"); [| reflexivity].
  apply loadDocuments_messages.
Qed.

Lemma loadDocuments_uploading o s : uploading (loadDocuments o s) = uploading s.
Proof. destruct o as [m | [|] st stt [m | d]]; reflexivity. Qed.

Lemma loadDocuments_inputValue o s : inputValue (loadDocuments o s) = inputValue s.
Proof. destruct o as [m | [|] st stt [m | d]]; reflexivity. Qed.

Lemma loadDocuments_loading o s : loading (loadDocuments o s) = loading s.
Proof. destruct o as [m | [|] st stt [m | d]]; reflexivity. Qed.

Lemma loadDocuments_listed st stt data s :
  documents (loadDocuments (Responded true st stt (inr data)) s)
  = default [] (body_documents data).
Proof. reflexivity. Qed.

Lemma effect_settled_changes p o s :
  documents (effect_settled p o s) <> documents s ->
  p = "Trans2Actions" /\ succeeded o = true.
Proof.
  unfold effect_settled.
  destruct (String.eqb_spec p "Trans2Actions") as [-> | Hne]; [| congruence].
  intros Hd. split; [reflexivity | apply (loadDocuments_changes o s Hd)].
Qed.

Lemma effect_settled_cases p o s :
  effect_settled p o s = s \/ (p = "Trans2Actions" /\ succeeded o = true).
Proof.
  unfold effect_settled.
  destruct (String.eqb_spec p "Trans2Actions") as [-> | Hne]; [| left; reflexivity].
  destruct o as [m | [|] st stt [m | d]]; simpl; auto.
Qed.

Lemma upload_not_reload : upload_request <> loadDocuments_request.
Proof. intros E. apply (f_equal req_method) in E. discriminate E. Qed.

(** What [then_effect] makes of a run that added a message. *)
Lemma then_effect_added p o s r :
  message_added p s (run_state r) = true ->
  then_effect p o s r
  = if addMessage_throws p s then None
    else Some {| run_state := effect_settled p o (run_state r);
                 run_requests := (run_requests r ++ effect_requests p)%list |}.
Proof. intros Ha. unfold then_effect. rewrite Ha. reflexivity. Qed.

(** An upload as the page runs it, the effect included.  On a route name
    whose messages the state inherits the update throws.  Otherwise the
    run adds one message to the messages of the current product and
    leaves those of the other products alone; a run that sent the upload
    ends with the uploading flag cleared; its requests are those of the
    handler followed by the request of the effect.  On the Trans2Actions
    route, the only one that shows the upload control, the last request
    is therefore always a reload of the documents, also when the check
    turned the file away and the handler itself sent nothing, and the
    document list at the end is the one that last reload returns when it
    succeeds.  The document list changes only if that last reload
    succeeded, or the upload and the handler's own reload did. *)
Theorem upload_on_page_outcome (productName name : string) (now : Z)
    (upload : FetchOutcome UploadBody) (reload effectReload : FetchOutcome DocumentsBody)
    (s : State) :
  let handled := handleFileUpload productName (Some {| file_name := name |})
                   now upload reload s in
  let page := upload_on_page productName (Some {| file_name := name |})
                now upload reload effectReload s in
  (addMessage_throws productName s = true -> page = None)
  /\ (addMessage_throws productName s = false ->
      exists r,
        page = Some r
        /\ (exists text,
              messagesByProduct (run_state r) !! productName
              = Some (default [] (messagesByProduct s !! productName)
                      ++ [ai_message now text])%list)
        /\ (forall q, q <> productName ->
              messagesByProduct (run_state r) !! q = messagesByProduct s !! q)
        /\ (In upload_request (run_requests r) -> uploading (run_state r) = false)
        /\ run_requests r = (run_requests handled ++ effect_requests productName)%list
        /\ (productName = "Trans2Actions" ->
              last (run_requests r) = Some loadDocuments_request
              /\ (run_requests handled = [] -> run_requests r = [loadDocuments_request])
              /\ forall st stt data,
                   effectReload = Responded true st stt (inr data) ->
                   documents (run_state r) = default [] (body_documents data))
        /\ (documents (run_state r) <> documents s ->
              productName = "Trans2Actions" /\ succeeded effectReload = true
              \/ succeeded upload = true /\ succeeded reload = true)).
Proof.
  intros handled page.
  destruct (handleFileUpload_run productName name now upload reload s)
    as ((text & Hm) & Hq & Hu & Hd). fold handled in Hm, Hq, Hu, Hd.
  assert (Hpage : page
    = if addMessage_throws productName s then None
      else Some {| run_state := effect_settled productName effectReload (run_state handled);
                   run_requests := (run_requests handled ++ effect_requests productName)%list |}).
  { apply then_effect_added. apply (message_added_grown _ _ _ _ [] Hm). }
  rewrite Hpage. clear Hpage page.
  split; [intros ->; reflexivity |]. intros ->.
  eexists. split; [reflexivity |]. simpl.
  rewrite effect_settled_messages.
  split; [exists text; exact Hm |]. split; [exact Hq |].
  split; [| split; [reflexivity | split]].
  - intros Hin.
    assert (Hsent : run_requests handled <> []).
    { intros E. rewrite E in Hin. simpl in Hin. unfold effect_requests in Hin.
      destruct (String.eqb productName "Trans2Actions"); simpl in Hin; [| exact Hin].
      destruct Hin as [E' | []]. apply upload_not_reload. symmetry. exact E'. }
    unfold effect_settled. destruct (String.eqb productName "Trans2Actions");
      rewrite ?loadDocuments_uploading; apply Hu, Hsent.
  - intros ->. unfold effect_requests, effect_settled. simpl.
    split; [apply last_snoc |]. split; [intros ->; reflexivity |].
    intros st stt data ->. reflexivity.
  - intros Hne.
    destruct (effect_settled_cases productName effectReload (run_state handled))
      as [E | E]; [| left; exact E].
    right. apply Hd. rewrite <- E. exact Hne.
Qed.

(** A delete as the page runs it, the effect included.  On a route name
    whose messages the state inherits the update throws.  Otherwise the
    run adds one message to the current product, the success text exactly
    when the delete response is a success; it sends the delete request,
    the handler's own reload after a successful delete, and then the
    request of the effect: on the Trans2Actions route the documents are
    reloaded at the end of every delete, failed or not, and the document
    list at the end is the one that last reload returns when it
    succeeds.  The document list changes only if that last reload
    succeeded, or the delete and the handler's own reload did. *)
Theorem delete_on_page_outcome (productName documentId : string) (now : Z)
    (response : FetchOutcome DeleteBody) (reload effectReload : FetchOutcome DocumentsBody)
    (s : State) :
  let page := delete_on_page productName documentId now response reload effectReload s in
  (addMessage_throws productName s = true -> page = None)
  /\ (addMessage_throws productName s = false ->
      exists r,
        page = Some r
        /\ (exists text,
              messagesByProduct (run_state r) !! productName
              = Some (default [] (messagesByProduct s !! productName)
                      ++ [ai_message now text])%list
              /\ (text = "Document deleted successfully" <-> responded_ok response = true))
        /\ (forall q, q <> productName ->
              messagesByProduct (run_state r) !! q = messagesByProduct s !! q)
        /\ run_requests r
           = (delete_request documentId
              :: (if responded_ok response then [loadDocuments_request] else [])
              ++ effect_requests productName)%list
        /\ (productName = "Trans2Actions" ->
              last (run_requests r) = Some loadDocuments_request
              /\ forall st stt data,
                   effectReload = Responded true st stt (inr data) ->
                   documents (run_state r) = default [] (body_documents data))
        /\ (documents (run_state r) <> documents s ->
              productName = "Trans2Actions" /\ succeeded effectReload = true
              \/ responded_ok response = true /\ succeeded reload = true)).
Proof.
  intros page.
  pose (handled := handleDeleteDocument productName documentId now response reload s).
  destruct (handleDeleteDocument_run productName documentId now response reload s)
    as ((text & Hm & Ht) & Hq & Hd & _). fold handled in Hm, Hq, Hd.
  assert (Hreqs : run_requests handled
    = delete_request documentId
      :: (if responded_ok response then [loadDocuments_request] else [])).
  { subst handled. destruct response as [m | [|] st stt [m | b]]; reflexivity. }
  assert (Hpage : page
    = if addMessage_throws productName s then None
      else Some {| run_state := effect_settled productName effectReload (run_state handled);
                   run_requests := (run_requests handled ++ effect_requests productName)%list |}).
  { apply then_effect_added. apply (message_added_grown _ _ _ _ [] Hm). }
  rewrite Hpage. clear Hpage page.
  split; [intros ->; reflexivity |]. intros ->.
  eexists. split; [reflexivity |]. simpl.
  rewrite effect_settled_messages.
  split; [exists text; split; assumption |]. split; [exact Hq |].
  split; [rewrite Hreqs; reflexivity |]. split.
  - intros ->. unfold effect_requests, effect_settled. simpl.
    split; [apply last_snoc |]. intros st stt data ->. reflexivity.
  - intros Hne.
    destruct (effect_settled_cases productName effectReload (run_state handled))
      as [E | E]; [| left; exact E].
    right. apply Hd. rewrite <- E. exact Hne.
Qed.

Lemma reload_not_admin : loadDocuments_request <> admin_assign_request.
Proof. intros E. apply (f_equal req_method) in E. discriminate E. Qed.

(** A query that is not blank, submitted while nothing is loading, as
    the page runs it, the effects included.  On a route name whose
    messages the state inherits the update throws.  Otherwise the trimmed
    query is appended as the user's message, followed by one reply or
    error message on the three products and by nothing on a name that is
    no product; the requests are the one to the endpoint of the product
    and, on the Trans2Actions route, the two reloads of the documents
    that the two new messages set off; the admin endpoint is addressed on
    the AdminPerspective route only; at the end the input is empty and
    the loading flag is cleared; the other products' messages are
    untouched; the documents are untouched outside the Trans2Actions
    route, and there they change only if one of the two reloads
    succeeded, in whichever order the two answers arrive. *)
Theorem submit_on_page_outcome (productName : string) (now1 now2 : Z)
    (response : FetchOutcome SubmitBody)
    (reload1 reload2 : FetchOutcome DocumentsBody) (reload1_last : bool) (s : State) :
  Js.trim (inputValue s) <> "" -> loading s = false ->
  let page := submit_on_page productName now1 now2 response
                reload1 reload2 reload1_last s in
  (addMessage_throws productName s = true -> page = None)
  /\ (addMessage_throws productName s = false ->
      exists r,
        page = Some r
        /\ (exists replies,
              messagesByProduct (run_state r) !! productName
              = Some (default [] (messagesByProduct s !! productName)
                      ++ {| msg_id := now1; msg_type := "user";
                            msg_text := Js.trim (inputValue s) |} :: replies)%list
              /\ length replies <= 1
              /\ (replies = [] <-> productInfo !! productName = None)
              /\ Forall (fun m => msg_type m = "ai" /\ msg_id m = (now2 + 1)%Z) replies)
        /\ run_requests r
           = (if String.eqb productName "Trans2Actions"
              then [query_request; loadDocuments_request; loadDocuments_request]
              else if String.eqb productName "User-Load" then
                if asks_for_tasks (Js.trim (inputValue s))
                then [userload_tasks_request] else [userload_update_request]
              else if String.eqb productName "AdminPerspective" then [admin_assign_request]
              else [])
        /\ (In admin_assign_request (run_requests r) <-> productName = "AdminPerspective")
        /\ inputValue (run_state r) = ""
        /\ loading (run_state r) = false
        /\ (productName <> "Trans2Actions" -> documents (run_state r) = documents s)
        /\ (documents (run_state r) <> documents s ->
              succeeded reload1 = true \/ succeeded reload2 = true)
        /\ (forall q, q <> productName ->
              messagesByProduct (run_state r) !! q = messagesByProduct s !! q)).
Proof.
  intros Hq Hl page.
  pose (handled := handleSubmit productName now1 now2 response s).
  destruct (handleSubmit_run productName now1 now2 response s Hq Hl)
    as ((replies & Hm & Hn & Hai) & Hle & Hadmin & Hin & Hld & Hdoc & Hoth).
  fold handled in Hm, Hn, Hle, Hadmin, Hin, Hld, Hdoc, Hoth.
  assert (Hreqs := submit_requests productName now1 now2 response s Hq Hl).
  fold handled in Hreqs.
  assert (Hpage : page
    = if addMessage_throws productName s then None
      else if String.eqb productName "Trans2Actions" then
        Some {| run_state :=
                  if reload1_last
                  then loadDocuments reload1 (loadDocuments reload2 (run_state handled))
                  else loadDocuments reload2 (loadDocuments reload1 (run_state handled));
                run_requests :=
                  (run_requests handled ++ [loadDocuments_request; loadDocuments_request])%list |}
      else Some handled).
  { subst page. unfold submit_on_page. fold handled.
    rewrite (message_added_grown _ _ _ _ _ Hm). reflexivity. }
  rewrite Hpage. clear Hpage page.
  split; [intros ->; reflexivity |]. intros ->.
  assert (Hrep : replies = [] <-> productInfo !! productName = None).
  { rewrite productInfo_lookup.
    destruct replies as [|m l]; simpl in Hn; rewrite Hreqs in Hn.
    - split; [intros _ | reflexivity].
      repeat case_decide; subst; simpl in Hn;
        try destruct (asks_for_tasks _); simpl in Hn; first [discriminate | reflexivity].
    - split; [discriminate |].
      repeat case_decide; subst; try discriminate.
      rewrite !(proj2 (String.eqb_neq _ _)) in Hn by assumption. discriminate. }
  destruct (String.eqb_spec productName "Trans2Actions") as [-> | Hne].
  - eexists. split; [reflexivity |]. simpl.
    assert (Hmsg : forall b : bool,
      messagesByProduct
        (if b then loadDocuments reload1 (loadDocuments reload2 (run_state handled))
         else loadDocuments reload2 (loadDocuments reload1 (run_state handled)))
      = messagesByProduct (run_state handled))
      by (intros [|]; rewrite !loadDocuments_messages; reflexivity).
    rewrite Hmsg.
    split; [exists replies; split; [exact Hm |];
            split; [rewrite Hn; exact Hle | split; [exact Hrep | exact Hai]] |].
    split; [rewrite Hreqs; reflexivity |].
    split.
    { rewrite Hreqs. simpl. split; [| discriminate].
      intros [E | [E | [E | []]]]; exfalso.
      - apply (admin_request_distinct "POST" "/trans2actions/query"); [discriminate |].
        symmetry. exact E.
      - apply reload_not_admin, E.
      - apply reload_not_admin, E. }
    split; [destruct reload1_last; rewrite !loadDocuments_inputValue; exact Hin |].
    split; [destruct reload1_last; rewrite !loadDocuments_loading; exact Hld |].
    split; [congruence |].
    split; [| exact Hoth].
    intros Hd.
    destruct (succeeded reload1) eqn:E1; [left; reflexivity |].
    destruct (succeeded reload2) eqn:E2; [right; reflexivity |]. exfalso.
    assert (Hid : forall o t, succeeded o = false -> loadDocuments o t = t).
    { intros o t Ho. destruct o as [m | [|] st stt [m | d]]; first [reflexivity | discriminate]. }
    apply Hd. destruct reload1_last; rewrite !Hid by assumption; exact Hdoc.
  - exists handled. split; [reflexivity |].
    split; [exists replies; split; [exact Hm |];
            split; [rewrite Hn; exact Hle | split; [exact Hrep | exact Hai]] |].
    split; [exact Hreqs |]. split; [exact Hadmin |].
    split; [exact Hin |]. split; [exact Hld |]. split; [intros _; exact Hdoc |].
    split; [| exact Hoth]. intros Hd. contradiction.
Qed.

End PageRuns.

(** ** The product menu and the product routes *)

Section Menu.
Import ProductsPage.

(** Every product that the navigation bar offers a user (anonymous,
    employee, admin or of any other persona) has a route that renders
    that very product for this user, never the redirect and never the
    fall-back product; and the side bar of that page lists the same
    products as the navigation bar, in the same order. *)
Theorem navbar_products_render (user : option User) (s : State) (p : Navbar.Product) :
  In p (Navbar.products user) ->
  exists v info,
    ProductsPage (Navbar.name p) user s = Page v
    /\ productInfo !! Navbar.name p = Some info
    /\ shown_product v = info
    /\ map (fun l => href (fst l)) (shown_links v)
       = map Navbar.product_link (Navbar.products user).
Proof.
  unfold Navbar.products, ProductsPage.
  destruct (persona_is user "employee") eqn:He; simpl.
  - intros [<- | [<- | []]]; simpl; rewrite productInfo_lookup; simpl;
      eexists; eexists; repeat split; reflexivity.
  - intros [<- | [<- | [<- | []]]]; simpl; rewrite productInfo_lookup; simpl;
      eexists; eexists; repeat split; reflexivity.
Qed.

End Menu.

(** ** Grouping the cards by list *)

Section Grouping.
Import TasksView.

(** The cards of [cs] that are on the list [i]. *)
Local Abbreviation on_list i cs :=
  (List.filter (fun c => String.eqb (Card.list_id c) i) cs).

Lemma push_ids c m :
  map cl_id (listsMap_push c m)
  = if existsb (fun g => String.eqb (cl_id g) (Card.list_id c)) m
    then map cl_id m
    else (map cl_id m ++ [Card.list_id c])%list.
Proof.
  induction m as [|e r IH]; simpl; [reflexivity |].
  destruct (String.eqb (cl_id e) (Card.list_id c)); simpl; [reflexivity |].
  rewrite IH. destruct (existsb _ r); reflexivity.
Qed.

Lemma existsb_ids c m :
  existsb (fun g => String.eqb (cl_id g) (Card.list_id c)) m = true
  <-> In (Card.list_id c) (map cl_id m).
Proof.
  rewrite existsb_exists, in_map_iff. split.
  - intros (g & Hg & Heq). apply String.eqb_eq in Heq. eauto.
  - intros (g & Heq & Hg). exists g. split; [exact Hg |]. apply String.eqb_eq, Heq.
Qed.

(** The entries after a push: the old ones, the one of the card's list
    with the card added at its end, and a new entry if the list is new. *)
Lemma push_entries c m g' :
  List.NoDup (map cl_id m) ->
  In g' (listsMap_push c m) ->
  (exists g, In g m /\ cl_id g' = cl_id g /\ cl_name g' = cl_name g
             /\ cl_cards g'
                = (cl_cards g
                   ++ if String.eqb (cl_id g) (Card.list_id c) then [c] else [])%list)
  \/ (~ In (Card.list_id c) (map cl_id m)
      /\ g' = {| cl_id := Card.list_id c; cl_name := Card.list_name c;
                 cl_cards := [c] |}).
Proof.
  induction m as [|e r IH]; simpl; intros Hnd Hin.
  - destruct Hin as [<- | []]. right. split; [tauto | reflexivity].
  - apply List.NoDup_cons_iff in Hnd as [Hfresh Hnd].
    destruct (String.eqb_spec (cl_id e) (Card.list_id c)) as [Heq | Hne].
    + destruct Hin as [<- | Hin].
      * left. exists e. simpl. rewrite Heq, String.eqb_refl. tauto.
      * left. exists g'. split; [right; exact Hin |].
        split; [reflexivity |]. split; [reflexivity |].
        destruct (String.eqb_spec (cl_id g') (Card.list_id c)) as [Hg | _].
        -- exfalso. apply Hfresh. rewrite Heq, <- Hg. apply in_map, Hin.
        -- symmetry. apply app_nil_r.
    + destruct Hin as [<- | Hin].
      * left. exists e. split; [left; reflexivity |].
        split; [reflexivity |]. split; [reflexivity |].
        destruct (String.eqb_spec (cl_id e) (Card.list_id c)); [contradiction |].
        symmetry. apply app_nil_r.
      * destruct (IH Hnd Hin) as [(g & Hg & H1 & H2 & H3) | [Hnew ->]].
        -- left. exists g. split; [right; exact Hg | tauto].
        -- right. split; [| reflexivity]. intros [E | E]; [congruence | tauto].
Qed.

Lemma on_list_snoc i cs c :
  on_list i (cs ++ [c])
  = (on_list i cs ++ if String.eqb i (Card.list_id c) then [c] else [])%list.
Proof.
  rewrite List.filter_app. simpl. rewrite (String.eqb_sym (Card.list_id c) i).
  destruct (String.eqb i (Card.list_id c)); reflexivity.
Qed.

Lemma filter_none {A : Type} (f : A -> bool) (l : list A) :
  (forall x, In x l -> f x = false) -> List.filter f l = [].
Proof.
  induction l as [|a l IH]; simpl; intros Hall; [reflexivity |].
  rewrite (Hall a) by tauto. apply IH. intros x Hx. apply Hall. tauto.
Qed.

Lemma grouped_push cs c m : grouped cs m -> grouped (cs ++ [c]) (listsMap_push c m).
Proof.
  intros (Hnd & Hcards & Hcover). split; [| split].
  - rewrite push_ids.
    destruct (existsb _ m) eqn:E; [exact Hnd |].
    apply List.NoDup_app; [exact Hnd | repeat constructor; simpl; tauto |].
    intros i Hi [<- | []]. apply existsb_ids in Hi. congruence.
  - intros g' Hin.
    destruct (push_entries c m g' Hnd Hin) as [(g & Hg & H1 & H2 & H3) | [Hnew ->]].
    + destruct (Hcards g Hg) as (Hc & c0 & rest & Hhd & Hname).
      rewrite H1, H2, H3, on_list_snoc, Hc. split; [reflexivity |].
      rewrite <- Hc, Hhd. simpl. eauto.
    + simpl. split; [| eauto].
      rewrite on_list_snoc, String.eqb_refl.
      rewrite filter_none; [reflexivity |].
      intros x Hx. apply String.eqb_neq. intros Heq.
      apply Hnew. rewrite <- Heq. apply Hcover, Hx.
  - intros x Hx. rewrite push_ids.
    destruct (existsb _ m) eqn:E.
    + apply in_app_or in Hx as [Hx | [<- | []]]; [apply Hcover, Hx |].
      apply existsb_ids, E.
    + apply in_or_app.
      apply in_app_or in Hx as [Hx | [<- | []]]; [left; apply Hcover, Hx |].
      right. left. reflexivity.
Qed.

Lemma groupCards_snoc cs c :
  groupCards (cs ++ [c]) = listsMap_push c (groupCards cs).
Proof. unfold groupCards. rewrite fold_left_app. reflexivity. Qed.

Lemma groupCards_grouped cs : grouped cs (groupCards cs).
Proof.
  induction cs as [|c cs IH] using rev_ind.
  - split; [constructor |]. split; [intros g [] | intros c []].
  - rewrite groupCards_snoc. apply grouped_push, IH.
Qed.

Lemma push_total c m :
  length (concat (map cl_cards (listsMap_push c m)))
  = S (length (concat (map cl_cards m))).
Proof.
  induction m as [|e r IH]; simpl; [reflexivity |].
  destruct (String.eqb (cl_id e) (Card.list_id c)); simpl.
  - rewrite !length_app. simpl. lia.
  - rewrite !length_app, IH. lia.
Qed.

(** The grouping splits the cards by list: every list id has one entry;
    the entry of a list holds exactly the cards of that list, in the
    order of the cards, is never empty, and takes its name from its first
    card; every card is in the entry of its list; and the entries
    together hold as many cards as there are. *)
Theorem groupCards_partition (cs : list Card.t) :
  List.NoDup (map cl_id (groupCards cs))
  /\ (forall g, In g (groupCards cs) ->
        cl_cards g = List.filter (fun c => String.eqb (Card.list_id c) (cl_id g)) cs
        /\ exists c0 rest, cl_cards g = c0 :: rest /\ cl_name g = Card.list_name c0)
  /\ (forall c, In c cs ->
        exists g, In g (groupCards cs) /\ cl_id g = Card.list_id c /\ In c (cl_cards g))
  /\ length (concat (map cl_cards (groupCards cs))) = length cs.
Proof.
  destruct (groupCards_grouped cs) as (Hnd & Hcards & Hcover).
  split; [exact Hnd |]. split; [exact Hcards |]. split.
  - intros c Hc. destruct (proj1 (in_map_iff _ _ _) (Hcover c Hc)) as (g & Hid & Hg).
    exists g. split; [exact Hg |]. split; [exact Hid |].
    rewrite (proj1 (Hcards g Hg)). apply filter_In. split; [exact Hc |].
    rewrite Hid. apply String.eqb_refl.
  - induction cs as [|c cs IH] using rev_ind; [reflexivity |].
    rewrite groupCards_snoc, push_total, length_app. simpl.
    rewrite IH; [lia | apply groupCards_grouped..].
Qed.

End Grouping.

(** ** Fetching, counting and toggling tasks *)

Section FetchOutcome.
Context `{Runtime}.
Import TasksView.

Lemma allTasks_listId k cs task :
  In task (allTasks k cs) ->
  exists card, In card cs /\ listId task = Card.list_id card
               /\ listName task = Card.list_name card.
Proof.
  revert k. induction cs as [|c r IH]; intros k; simpl; [tauto |].
  intros [<- | Hin].
  - exists c. split; [left; reflexivity | split; reflexivity].
  - destruct (IH _ Hin) as (card & Hc & Hl). exists card. split; [right; exact Hc | exact Hl].
Qed.

(** Every run of the fetch ends with the loading flag cleared and the
    filter as it was; it asks for the settings first and for the cards
    only when the settings gave a board id; the tasks or the grouping
    change only when both responses succeeded and the board has at least
    one card, so a board without cards, a body without cards and a
    missing board id all leave the previous tasks in place. *)
Theorem fetchTasks_outcome (k : nat) (settingsResponse : FetchOutcome SettingsBody)
    (response : FetchOutcome (option CardsData)) (s : State) :
  let r := fetchTasks k settingsResponse response s in
  (forall st stt,
     tasks (run_state (fetchTasks k settingsResponse
                         (Responded true st stt (inr (Some {| cards := Some [] |}))) s))
     = tasks s)
  /\ loading (run_state r) = false
  /\ filter (run_state r) = filter s
  /\ (run_requests r = [settings_request]
      \/ exists st stt boardId,
           settingsResponse
           = Responded true st stt (inr {| workspace_id := Some boardId |})
           /\ Js.truthy boardId = true
           /\ run_requests r = [settings_request; cards_request boardId])
  /\ (tasks (run_state r) <> tasks s \/ lists (run_state r) <> lists s ->
      succeeded settingsResponse = true
      /\ exists st stt c cs,
           response = Responded true st stt (inr (Some {| cards := Some (c :: cs) |}))
           /\ tasks (run_state r) = allTasks k (c :: cs)
           /\ lists (run_state r) = groupCards (c :: cs)).
Proof.
  intros r. subst r. unfold fetchTasks.
  assert (Hkeep : forall reqs,
    reqs = [settings_request]
    \/ (exists st stt boardId,
          settingsResponse
          = Responded true st stt (inr {| workspace_id := Some boardId |})
          /\ Js.truthy boardId = true
          /\ reqs = [settings_request; cards_request boardId]) ->
    loading (setLoading false (setLoading true s)) = false
    /\ filter (setLoading false (setLoading true s)) = filter s
    /\ (reqs = [settings_request]
        \/ exists st stt boardId,
             settingsResponse
             = Responded true st stt (inr {| workspace_id := Some boardId |})
             /\ Js.truthy boardId = true
             /\ reqs = [settings_request; cards_request boardId])
    /\ (tasks (setLoading false (setLoading true s)) <> tasks s
        \/ lists (setLoading false (setLoading true s)) <> lists s ->
        succeeded settingsResponse = true
        /\ exists st stt c cs,
             response = Responded true st stt (inr (Some {| cards := Some (c :: cs) |}))
             /\ tasks (setLoading false (setLoading true s)) = allTasks k (c :: cs)
             /\ lists (setLoading false (setLoading true s)) = groupCards (c :: cs))).
  { intros reqs Hr. split; [reflexivity |]. split; [reflexivity |].
    split; [exact Hr |]. simpl. intros [Hc | Hc]; congruence. }
  destruct settingsResponse as [m | [|] st stt [m | [[b|]]]]; simpl;
    try (split; [reflexivity |]; apply (Hkeep [settings_request]); left; reflexivity).
  destruct (Js.truthy b) eqn:Hb; simpl;
    [| split; [reflexivity |]; apply (Hkeep [settings_request]); left; reflexivity].
  assert (Hreq : [settings_request; cards_request b] = [settings_request]
    \/ (exists st0 stt0 boardId,
          Responded true st stt (inr {| workspace_id := Some b |})
          = Responded true st0 stt0 (inr {| workspace_id := Some boardId |})
          /\ Js.truthy boardId = true
          /\ [settings_request; cards_request b]
             = [settings_request; cards_request boardId])).
  { right. exists st, stt, b. split; [reflexivity |]. split; [exact Hb | reflexivity]. }
  split; [reflexivity |].
  destruct response as [m | [|] st' stt' [m | [[[[|c cs]|]]|]]]; simpl;
    try (apply (Hkeep _ Hreq)).
  split; [reflexivity |]. split; [reflexivity |]. split; [exact Hreq |].
  intros _. split; [reflexivity |]. exists st', stt', c, cs.
  repeat split; reflexivity.
Qed.

(** After a fetch that succeeds, the task list and the grouping describe
    the same cards: there are as many tasks as cards in the groups, every
    task's list is one of the groups, named as the task says, every
    status is open or done, and the requests were the settings and then
    the cards of the configured board. *)
Theorem fetched_tasks_match_groups (k : nat) (st stt st' stt' boardId : string)
    (c : Card.t) (cs : list Card.t) (s : State) :
  Js.truthy boardId = true ->
  let r := fetchTasks k
             (Responded true st stt (inr {| workspace_id := Some boardId |}))
             (Responded true st' stt' (inr (Some {| cards := Some (c :: cs) |}))) s in
  run_requests r = [settings_request; cards_request boardId]
  /\ length (tasks (run_state r))
     = length (concat (map cl_cards (lists (run_state r))))
  /\ map id (tasks (run_state r)) = map Card.id (c :: cs)
  /\ (forall task, In task (tasks (run_state r)) ->
        exists g, In g (lists (run_state r))
                  /\ cl_id g = listId task
                  /\ exists card, In card (cl_cards g) /\ listName task = Card.list_name card)
  /\ Forall status_ok (tasks (run_state r)).
Proof.
  intros Hb r. subst r. unfold fetchTasks. simpl. rewrite Hb. simpl.
  split; [reflexivity |].
  destruct (groupCards_grouped (c :: cs)) as (Hnd & Hcards & Hcover).
  split.
  { assert (Htot : forall l, length (concat (map cl_cards (groupCards l))) = length l).
    { induction l as [|x l IH] using rev_ind; [reflexivity |].
      rewrite groupCards_snoc, push_total, IH, length_app. simpl. lia. }
    rewrite Htot. apply (allTasks_length k (c :: cs)). }
  split; [apply (allTasks_ids k (c :: cs)) |].
  split; [| apply (allTasks_status_ok k (c :: cs))].
  intros task Hin.
  destruct (allTasks_listId k (c :: cs) task Hin) as (card & Hc & Hid & Hname).
  destruct (proj1 (in_map_iff _ _ _) (Hcover card Hc)) as (g & Hg & Hing).
  exists g. split; [exact Hing |]. split; [congruence |].
  exists card. split; [| exact Hname].
  rewrite (proj1 (Hcards g Hing)). apply filter_In. split; [exact Hc |].
  rewrite Hg. apply String.eqb_refl.
Qed.

End FetchOutcome.

Section Counters.
Import TasksView.

Lemma open_done_split (l : list Task) :
  Forall status_ok l ->
  length (List.filter (fun t => String.eqb (status t) "open") l)
  + length (List.filter (fun t => String.eqb (status t) "done") l)
  = length l.
Proof.
  induction 1 as [|t l Ht _ IH]; simpl; [reflexivity |].
  destruct Ht as [-> | ->]; simpl; lia.
Qed.

(** On a task list whose statuses are open or done the counters of the
    Open and Done buttons add up to the counter of the All button; the
    list area shows the filtered tasks, or the empty state when there is
    none, and the number of cards shown is the counter of the button of
    the current filter. *)
Theorem counters_add_up (s : State) :
  Forall status_ok (tasks s) ->
  let v := TasksView s in
  count_open v + count_done v = count_all v
  /\ length (filteredTasks s)
     = (if active_open v then count_open v
        else if active_done v then count_done v else count_all v)
  /\ (loading s = false ->
      match body v with
      | LoadingTasks => False
      | Cards shown => shown = filteredTasks s /\ shown <> []
      | NoCards => filteredTasks s = []
      end).
Proof.
  intros Hok v. subst v. simpl. split; [apply open_done_split, Hok |]. split.
  - unfold filteredTasks, matches.
    destruct (String.eqb (filter s) "open"); [reflexivity |].
    destruct (String.eqb (filter s) "done"); [reflexivity |].
    rewrite forallb_filter_id; [reflexivity |].
    apply forallb_forall. reflexivity.
  - intros ->. destruct (filteredTasks s); [reflexivity |].
    split; [reflexivity | discriminate].
Qed.

Lemma toggle_one_comm i j t :
  toggle_one i (toggle_one j t) = toggle_one j (toggle_one i t).
Proof.
  unfold toggle_one.
  destruct (String.eqb_spec (id t) i) as [Hi | Hi];
    destruct (String.eqb_spec (id t) j) as [Hj | Hj]; simpl;
    rewrite ?Hi, ?Hj, ?String.eqb_refl;
    repeat match goal with
           | |- context [String.eqb ?a ?b] =>
               destruct (String.eqb_spec a b); try congruence
           end; reflexivity.
Qed.

(** Toggles of two ids can be done in either order; a toggle never
    changes the number or the order of the tasks, their ids or anything
    but the status; and toggling an id that no task has changes nothing. *)
Theorem toggles_commute (s : State) (i j : string) :
  toggleTaskStatus i (toggleTaskStatus j s) = toggleTaskStatus j (toggleTaskStatus i s)
  /\ map id (tasks (toggleTaskStatus i s)) = map id (tasks s)
  /\ map (fun t => set_status t "") (tasks (toggleTaskStatus i s))
     = map (fun t => set_status t "") (tasks s)
  /\ (~ In i (map id (tasks s)) -> toggleTaskStatus i s = s).
Proof.
  split; [| split; [| split]].
  - apply state_eq.
    + rewrite !toggle_tasks, !map_map. apply map_ext. intros t. apply toggle_one_comm.
    + rewrite !(proj1 (toggle_keeps_rest _ _)). reflexivity.
    + rewrite !(proj1 (proj2 (toggle_keeps_rest _ _))). reflexivity.
    + rewrite !(proj2 (proj2 (toggle_keeps_rest _ _))). reflexivity.
  - rewrite toggle_tasks, map_map. apply map_ext. intros t. apply toggle_one_id.
  - rewrite toggle_tasks, map_map. apply map_ext. intros t.
    unfold toggle_one. destruct (String.eqb (id t) i); reflexivity.
  - intros Hni. unfold toggleTaskStatus.
    destruct (List.find _ (tasks s)) as [t|] eqn:E; [| reflexivity].
    exfalso. apply find_some in E as [Hin Heq]. apply String.eqb_eq in Heq.
    apply Hni. rewrite <- Heq. apply in_map, Hin.
Qed.

(** The card of a task: the checkbox is checked exactly for a done task
    and a checked card never shows the overdue mark; toggling the task
    flips its checkbox and leaves its Closed badge, its link and its list
    as they are. *)
Theorem checkbox_follows_toggle (isPast : string -> bool) (s : State) (i : string)
    (n : nat) (t : Task) :
  Forall status_ok (tasks s) ->
  nth_error (tasks s) n = Some t -> id t = i ->
  exists t',
    nth_error (tasks (toggleTaskStatus i s)) n = Some t'
    /\ TaskCard.checked (TaskCard.TaskCard isPast t')
       = negb (TaskCard.checked (TaskCard.TaskCard isPast t))
    /\ (TaskCard.checked (TaskCard.TaskCard isPast t) = true <-> status t = "done")
    /\ (TaskCard.checked (TaskCard.TaskCard isPast t') = true ->
        TaskCard.overdue_badge (TaskCard.TaskCard isPast t') = false
        /\ TaskCard.overdue_class (TaskCard.TaskCard isPast t') = false)
    /\ TaskCard.closed_badge (TaskCard.TaskCard isPast t')
       = TaskCard.closed_badge (TaskCard.TaskCard isPast t)
    /\ TaskCard.link (TaskCard.TaskCard isPast t')
       = TaskCard.link (TaskCard.TaskCard isPast t)
    /\ TaskCard.list_shown (TaskCard.TaskCard isPast t')
       = TaskCard.list_shown (TaskCard.TaskCard isPast t).
Proof.
  intros Hok Hn Hid. exists (toggle_one i t).
  split; [rewrite toggle_tasks; apply map_nth_error, Hn |].
  assert (Ht : status_ok t).
  { apply (proj1 (List.Forall_forall _ _) Hok). eapply nth_error_In, Hn. }
  unfold toggle_one. rewrite Hid, String.eqb_refl. simpl.
  destruct Ht as [Hs | Hs]; rewrite Hs; simpl;
    repeat split; try reflexivity; try discriminate; try congruence;
    rewrite ?andb_false_r; reflexivity.
Qed.

End Counters.

(** ** The meeting detail: summary, loading, action items, export *)

Section StringLengths.

Lemma length_append a b : String.length (a ++ b) = String.length a + String.length b.
Proof.
  induction a as [|c a IH]; [reflexivity |].
  change (String c a ++ b) with (String c (a ++ b)). simpl. rewrite IH. reflexivity.
Qed.

Lemma chars_append a b :
  list_ascii_of_string (a ++ b)
  = (list_ascii_of_string a ++ list_ascii_of_string b)%list.
Proof.
  induction a as [|c a IH]; [reflexivity |].
  change (String c a ++ b) with (String c (a ++ b)). simpl. rewrite IH. reflexivity.
Qed.

Lemma endsWith_app a b : Js.endsWith (a ++ b) b = true.
Proof.
  induction a as [|c a IH].
  - change ("" ++ b) with b. destruct b; simpl; rewrite ?Ascii.eqb_refl, ?String.eqb_refl;
      reflexivity.
  - change (String c a ++ b) with (String c (a ++ b)). simpl. rewrite IH.
    apply orb_true_r.
Qed.

Lemma endsWith_split s p : Js.endsWith s p = true -> exists pre, s = pre ++ p.
Proof.
  induction s as [|c r IH].
  - destruct p; simpl; [exists ""; reflexivity | discriminate].
  - change (Js.endsWith (String c r) p)
      with (String.eqb (String c r) p || Js.endsWith r p).
    intros Ho. apply orb_true_iff in Ho as [He | Hr].
    + apply String.eqb_eq in He. exists "". exact He.
    + destruct (IH Hr) as [pre ->]. exists (String c pre). reflexivity.
Qed.

End StringLengths.

Section Detail.
Import MeetingDetail.

(** The summary of the meeting detail is cut at 500 characters: a
    summary of at most 500 characters is shown in full without a control,
    the empty one as the empty text; a longer one is shown, while
    collapsed, as its first 500 characters and three dots (503 characters
    in all) with the control Read more, and in full with Read less when
    expanded.  The two controls are independent: expanding the summary
    leaves the transcript block as it is, and the other way round. *)
Theorem summary_truncated_at_500 (s : State) (m : Meeting) :
  st_loading s = false -> st_meeting s = Some m ->
  exists v vs vt,
    MeetingDetail s = Detail v
    /\ MeetingDetail (toggleSummary s) = Detail vs
    /\ MeetingDetail (toggleTranscript s) = Detail vt
    /\ view_transcript vs = view_transcript v
    /\ view_summary vt = view_summary v
    /\ (String.length (minutesSummary m) <= 500 ->
        view_summary v = {| block_text := minutesSummary m; block_control := None |}
        /\ view_summary vs = view_summary v)
    /\ (String.length (minutesSummary m) > 500 ->
        (st_summaryExpanded s = false ->
         view_summary v
         = {| block_text := Js.substring0 500 (minutesSummary m) ++ "...";
              block_control := Some "Read more" |}
         /\ String.length (block_text (view_summary v)) = 503
         /\ view_summary vs
            = {| block_text := minutesSummary m; block_control := Some "Read less" |})
        /\ (st_summaryExpanded s = true ->
            view_summary v
            = {| block_text := minutesSummary m; block_control := Some "Read less" |})).
Proof.
  intros Hl Hm. unfold MeetingDetail, toggleSummary, toggleTranscript. simpl.
  rewrite Hl, Hm.
  eexists. eexists. eexists.
  split; [reflexivity |]. split; [reflexivity |]. split; [reflexivity |]. simpl.
  split; [reflexivity |]. split; [reflexivity |].
  unfold summaryBlock, Js.length_le, Js.length_gt, SUMMARY_TRUNCATE_LENGTH.
  split.
  - intros Hlen. apply Nat.leb_le in Hlen. rewrite Hlen, !orb_true_r. simpl.
    split; reflexivity.
  - intros Hlen.
    assert (Hgt : (String.length (minutesSummary m) <=? 500)%nat = false)
      by (apply Nat.leb_gt; lia).
    rewrite Hgt. split; intros He; rewrite He; simpl; [| reflexivity].
    split; [reflexivity |]. split; [| reflexivity].
    rewrite length_append, substring0_length by lia. reflexivity.
Qed.

Lemma mapi_from_length {A B : Type} (f : A -> nat -> B) idx l :
  length (mapi_from f idx l) = length l.
Proof.
  revert idx. induction l as [|x l IH]; intros idx; simpl; [reflexivity |].
  rewrite IH. reflexivity.
Qed.

Lemma mapi_from_nth {A B : Type} (f : A -> nat -> B) idx l k :
  nth_error (mapi_from f idx l) k
  = option_map (fun x => f x (idx + k)) (nth_error l k).
Proof.
  revert idx k. induction l as [|x l IH]; intros idx [|k]; simpl; try reflexivity.
  - rewrite Nat.add_0_r. reflexivity.
  - rewrite IH. replace (S idx + k) with (idx + S k) by lia. reflexivity.
Qed.

Lemma mapi_from_ids (f : RawActionItem -> nat -> ActionItem) idx l x :
  (forall item k, action_id (f item k) = "action-" ++ pretty k) ->
  In x (map action_id (mapi_from f idx l)) ->
  exists k, idx <= k /\ x = "action-" ++ pretty k.
Proof.
  intros Hf. revert idx. induction l as [|a l IH]; intros idx; simpl; [tauto |].
  intros [<- | Hin].
  - exists idx. split; [lia | apply Hf].
  - destruct (IH _ Hin) as (k & Hk & ->). exists k. split; [lia | reflexivity].
Qed.

Lemma mapi_from_ids_nodup (f : RawActionItem -> nat -> ActionItem) idx l :
  (forall item k, action_id (f item k) = "action-" ++ pretty k) ->
  List.NoDup (map action_id (mapi_from f idx l)).
Proof.
  intros Hf. revert idx. induction l as [|a l IH]; intros idx; simpl; constructor.
  - intros Hin. destruct (mapi_from_ids f (S idx) l _ Hf Hin) as (k & Hk & Heq).
    rewrite Hf in Heq. apply append_inj_l in Heq.
    apply (inj pretty) in Heq. lia.
  - apply IH.
Qed.

(** The action items of a loaded meeting are the action items of the
    record in their order, the one at position k with the id action-k;
    the ids are pairwise different; the list of the view starts as this
    list. *)
Theorem loaded_action_ids_distinct (data : MeetingData) (st stt : string) (s : State) :
  let m := transform data in
  List.NoDup (map action_id (actionItems m))
  /\ length (actionItems m) = length (data_action_items data)
  /\ (forall k raw,
        nth_error (data_action_items data) k = Some raw ->
        nth_error (actionItems m) k
        = Some {| action_id := "action-" ++ pretty k; action_text := raw_text raw;
                  action_assignee := raw_assignee raw;
                  action_assigned_by := raw_assigned_by raw |})
  /\ st_actionItems (loadMeeting (Responded true st stt (inr data)) s) = actionItems m.
Proof.
  intros m. subst m. simpl. unfold mapi.
  split; [apply mapi_from_ids_nodup; reflexivity |].
  split; [apply mapi_from_length |]. split; [| reflexivity].
  intros k raw Hk. rewrite mapi_from_nth, Hk. reflexivity.
Qed.

Lemma filter_all {A : Type} (f : A -> bool) (l : list A) :
  (forall x, In x l -> f x = true) -> List.filter f l = l.
Proof.
  intros Hall. apply forallb_filter_id, forallb_forall, Hall.
Qed.

(** When the ids of the captured list are pairwise different, as they
    are after loading, a confirmed conversion of an item of the list
    takes out exactly this item: the items before it and after it stay
    in their order. *)
Theorem conversion_removes_exactly_one (captured : list ActionItem) (item : ActionItem)
    (response : FetchOutcome ConvertBody) (answer : bool) :
  List.NoDup (map action_id captured) -> In item captured ->
  confirmed_success response = true ->
  exists before after,
    captured = (before ++ item :: after)%list
    /\ run_setActionItems (convertActionToTask captured item response answer)
       = Some (before ++ after)%list
    /\ length (before ++ after)%list + 1 = length captured.
Proof.
  intros Hnd Hin Hok.
  destruct (in_split _ _ Hin) as (before & after & ->).
  exists before, after. split; [reflexivity |].
  assert (Hset :
    run_setActionItems (convertActionToTask (before ++ item :: after) item response answer)
    = Some (List.filter (fun ai => negb (String.eqb (action_id ai) (action_id item)))
              (before ++ item :: after))).
  { destruct response as [m | [|] st stt [m | result]]; simpl in *; try discriminate.
    rewrite Hok. reflexivity. }
  rewrite Hset. split; [| rewrite !length_app; simpl; lia]. f_equal.
  rewrite map_app in Hnd. simpl in Hnd.
  assert (Hmid := List.NoDup_remove_2 _ _ _ Hnd).
  rewrite List.filter_app. simpl. rewrite String.eqb_refl. simpl.
  rewrite !filter_all; [reflexivity | |];
    intros x Hx; apply negb_true_iff, String.eqb_neq; intros Heq;
    apply Hmid, in_or_app; [right | left]; rewrite <- Heq; apply in_map, Hx.
Qed.

(** After a load the view is out of its loading state; any failure
    (rejected request, non-success response, unparseable body) shows
    Meeting not found, even where a meeting was shown before; a success
    shows the meeting with its action items, and the two expand flags
    are carried over from before the load. *)
Theorem load_outcome (response : FetchOutcome MeetingData) (s : State) :
  let s' := loadMeeting response s in
  st_loading s' = false
  /\ st_summaryExpanded s' = st_summaryExpanded s
  /\ st_transcriptExpanded s' = st_transcriptExpanded s
  /\ (succeeded response = false ->
      MeetingDetail s' = MeetingNotFound /\ st_actionItems s' = st_actionItems s)
  /\ (forall st stt data,
        response = Responded true st stt (inr data) ->
        exists v, MeetingDetail s' = Detail v
                  /\ view_title v = data_title data
                  /\ view_actionItems v = actionItems (transform data)
                  /\ map participant_name (view_participants v) = data_participants data).
Proof.
  intros s'. subst s'.
  destruct response as [m | [|] st stt [m | data]]; simpl;
    (split; [reflexivity |]); (split; [reflexivity |]); (split; [reflexivity |]);
    (split; [first [discriminate | intros _; split; reflexivity] |]);
    try (intros st0 stt0 data0 [=]; fail).
  intros st0 stt0 data0 [= _ _ <-].
  eexists. split; [reflexivity |]. simpl.
  split; [reflexivity |]. split; [reflexivity |].
  rewrite map_map. apply map_id.
Qed.

Lemma isSpace_underscore : Js.isSpace "_" = false.
Proof. reflexivity. Qed.

Lemma replace_runs_no_space in_run s :
  forallb (fun c => negb (Js.isSpace c))
    (list_ascii_of_string (Js.replace_space_runs_from in_run "_" s)) = true.
Proof.
  revert in_run. induction s as [|c r IH]; intros in_run; simpl; [reflexivity |].
  destruct (Js.isSpace c) eqn:Hc.
  - destruct in_run; [apply IH |].
    change ("_" ++ Js.replace_space_runs_from true "_" r)
      with (String "_" (Js.replace_space_runs_from true "_" r)).
    simpl. apply IH.
  - simpl. rewrite Hc. simpl. apply IH.
Qed.

Lemma replace_runs_id in_run s :
  forallb (fun c => negb (Js.isSpace c)) (list_ascii_of_string s) = true ->
  Js.replace_space_runs_from in_run "_" s = s.
Proof.
  revert in_run. induction s as [|c r IH]; intros in_run; simpl; [reflexivity |].
  intros Hb. apply andb_true_iff in Hb as [Hc Hr]. apply negb_true_iff in Hc.
  rewrite Hc, (IH false Hr). reflexivity.
Qed.

Lemma trimStart_length s : String.length (Js.trimStart s) <= String.length s.
Proof.
  induction s as [|c r IH]; simpl; [lia |].
  destruct (Js.isSpace c); simpl; lia.
Qed.

Lemma replace_runs_word by_ word rest :
  forallb (fun c => negb (Js.isSpace c)) (list_ascii_of_string word) = true ->
  Js.replace_space_runs_from false by_ (word ++ rest)
  = word ++ Js.replace_space_runs_from false by_ rest.
Proof.
  induction word as [|c r IH]; intros Hw.
  - reflexivity.
  - change (String c r ++ rest) with (String c (r ++ rest)).
    simpl in Hw. apply andb_true_iff in Hw as [Hc Hr].
    apply negb_true_iff in Hc. simpl. rewrite Hc, (IH Hr). reflexivity.
Qed.

Lemma replace_runs_in_run by_ run rest :
  forallb Js.isSpace (list_ascii_of_string run) = true ->
  Js.replace_space_runs_from true by_ (run ++ rest)
  = Js.replace_space_runs_from true by_ rest.
Proof.
  induction run as [|c r IH]; intros Hw.
  - reflexivity.
  - change (String c r ++ rest) with (String c (r ++ rest)).
    simpl in Hw. apply andb_true_iff in Hw as [Hc Hr].
    simpl. rewrite Hc. apply IH, Hr.
Qed.

Lemma replace_runs_run by_ run rest :
  run <> "" ->
  forallb Js.isSpace (list_ascii_of_string run) = true ->
  Js.replace_space_runs_from false by_ (run ++ rest)
  = by_ ++ Js.replace_space_runs_from true by_ rest.
Proof.
  destruct run as [|c r]; [congruence |]. intros _ Hw.
  change (String c r ++ rest) with (String c (r ++ rest)).
  simpl in Hw. apply andb_true_iff in Hw as [Hc Hr].
  simpl. rewrite Hc. f_equal. apply replace_runs_in_run, Hr.
Qed.

Lemma replace_runs_restart by_ rest :
  Js.trimStart rest = rest ->
  Js.replace_space_runs_from true by_ rest = Js.replace_space_runs_from false by_ rest.
Proof.
  destruct rest as [|c r]; [reflexivity |]. simpl.
  destruct (Js.isSpace c); [| reflexivity].
  intros E. pose proof (trimStart_length r) as Hl. rewrite E in Hl. simpl in Hl. lia.
Qed.

(** One run of white space, between a word and the rest of the string,
    becomes one copy of the replacement. *)
Lemma replace_runs_step by_ word run rest :
  forallb (fun c => negb (Js.isSpace c)) (list_ascii_of_string word) = true ->
  run <> "" ->
  forallb Js.isSpace (list_ascii_of_string run) = true ->
  Js.trimStart rest = rest ->
  Js.replace_space_runs by_ (word ++ run ++ rest)
  = word ++ by_ ++ Js.replace_space_runs by_ rest.
Proof.
  intros Hw Hne Hr Ht. unfold Js.replace_space_runs.
  rewrite (replace_runs_word _ _ _ Hw), (replace_runs_run _ _ _ Hne Hr),
    (replace_runs_restart _ _ Ht). reflexivity.
Qed.

Lemma append_word_assoc a b c : (a ++ b) ++ c = a ++ (b ++ c).
Proof.
  induction a as [|x r IH]; [reflexivity |].
  change (String x r ++ b) with (String x (r ++ b)).
  change (String x (r ++ b) ++ c) with (String x ((r ++ b) ++ c)).
  change (String x r ++ (b ++ c)) with (String x (r ++ (b ++ c))).
  rewrite IH. reflexivity.
Qed.

(** The name of the exported file is the title with every run of white
    space turned into one underscore, followed by _minutes.txt.  It holds
    no white space, whatever the title, and is not longer than the title
    and the suffix; a title without white space is used as it is; and
    run by run: when the title is a word without white space (which may
    be empty), then a run of one or more white-space characters, then
    the title of another meeting that does not begin with white space,
    the name is the word, one underscore, and the name for that other
    meeting.  These two cases cover every title and fix the name. *)
Theorem download_name_has_no_space (meeting : Meeting) :
  forallb (fun c => negb (Js.isSpace c)) (list_ascii_of_string (download_name meeting))
  = true
  /\ Js.endsWith (download_name meeting) "_minutes.txt" = true
  /\ String.length (download_name meeting) <= String.length (title meeting) + 12
  /\ (forallb (fun c => negb (Js.isSpace c)) (list_ascii_of_string (title meeting)) = true ->
      download_name meeting = title meeting ++ "_minutes.txt")
  /\ (forall (other : Meeting) (word run : string),
        title meeting = word ++ run ++ title other ->
        forallb (fun c => negb (Js.isSpace c)) (list_ascii_of_string word) = true ->
        run <> "" ->
        forallb Js.isSpace (list_ascii_of_string run) = true ->
        Js.trimStart (title other) = title other ->
        download_name meeting = word ++ "_" ++ download_name other).
Proof.
  unfold download_name.
  split; [| split; [| split; [| split]]];
    [| | | | intros other word run E Hw Hne Hr Ht;
             rewrite E, (replace_runs_step "_" word run (title other) Hw Hne Hr Ht),
               !append_word_assoc; reflexivity ];
    unfold Js.replace_space_runs.
  - rewrite chars_append, forallb_app, replace_runs_no_space. reflexivity.
  - apply endsWith_app.
  - rewrite length_append. simpl.
    assert (Hlen : forall b s,
      String.length (Js.replace_space_runs_from b "_" s) <= String.length s).
    { intros b s. revert b. induction s as [|c r IH]; intros b; simpl; [lia |].
      specialize (IH true) as H1. specialize (IH false) as H2.
      destruct (Js.isSpace c); [destruct b |]; rewrite ?length_append; simpl; lia. }
    specialize (Hlen false (title meeting)). lia.
  - intros Hb. rewrite (replace_runs_id false _ Hb). reflexivity.
Qed.

(** Two spaces in a row give one underscore. *)
Example download_name_of_sample :
  download_name (transform sample_listed) = "Planning_day_one_minutes.txt".
Proof. reflexivity. Qed.

End Detail.

Section Overlap.
Import MeetingDetail.

Lemma settle_items_from r s ai :
  In ai (st_actionItems (settle r s)) ->
  In ai (st_actionItems s)
  \/ exists l, run_setActionItems r = Some l /\ In ai l.
Proof.
  unfold settle. destruct (run_setActionItems r) as [l|]; simpl; eauto.
Qed.

Lemma convert_sets_sublist captured item response answer l ai :
  run_setActionItems (convertActionToTask captured item response answer) = Some l ->
  In ai l -> In ai captured.
Proof.
  destruct response as [m | [|] st stt [m | result]]; simpl; try discriminate.
  destruct (success result); [| destruct (permission_error _); discriminate].
  intros [= <-] Hin. apply (kept_after_filter _ _ _ Hin).
Qed.

Lemma settle_keeps_rest r s :
  st_meeting (settle r s) = st_meeting s
  /\ st_loading (settle r s) = st_loading s
  /\ st_summaryExpanded (settle r s) = st_summaryExpanded s
  /\ st_transcriptExpanded (settle r s) = st_transcriptExpanded s.
Proof. unfold settle. destruct (run_setActionItems r); repeat split; reflexivity. Qed.

(** Conversions may overlap in any way, responses may arrive in any
    order and be successes or failures: the action-item list of the view
    only ever holds items of the list it started from, and the meeting
    shown and the expand flags are never touched. *)
Theorem overlapping_conversions_never_add (x : Session) (events : list Event) :
  ses_pending x = [] ->
  (forall ai,
     In ai (st_actionItems (ses_state (session_run x events))) ->
     In ai (st_actionItems (ses_state x)))
  /\ st_meeting (ses_state (session_run x events)) = st_meeting (ses_state x)
  /\ st_summaryExpanded (ses_state (session_run x events))
     = st_summaryExpanded (ses_state x)
  /\ st_transcriptExpanded (ses_state (session_run x events))
     = st_transcriptExpanded (ses_state x).
Proof.
  intros Hp.
  set (init := st_actionItems (ses_state x)).
  assert (Hinv : forall evs y,
    (forall ai, In ai (st_actionItems (ses_state y)) -> In ai init) ->
    (forall p, In p (ses_pending y) -> forall ai, In ai (pend_captured p) -> In ai init) ->
    (forall ai, In ai (st_actionItems (ses_state (session_run y evs))) -> In ai init)
    /\ st_meeting (ses_state (session_run y evs)) = st_meeting (ses_state y)
    /\ st_summaryExpanded (ses_state (session_run y evs)) = st_summaryExpanded (ses_state y)
    /\ st_transcriptExpanded (ses_state (session_run y evs))
       = st_transcriptExpanded (ses_state y)).
  { induction evs as [|e evs IH]; intros y Hs Hq; [simpl; tauto |].
    change (session_run y (e :: evs)) with (session_run (session_step y e) evs).
    destruct e as [item | n response answer].
    - specialize (IH (session_step y (Click item))). simpl in IH. apply IH.
      + exact Hs.
      + intros p Hin ai Hai. apply in_app_or in Hin as [Hin | [<- | []]].
        * apply (Hq p Hin ai Hai).
        * apply Hs, Hai.
    - destruct (ses_pending y !! n) as [p|] eqn:En.
      + assert (Hpin : In p (ses_pending y)).
        { apply list_elem_of_In. eapply list_elem_of_lookup_2, En. }
        assert (Hstep : session_step y (Settled n response answer)
          = {| ses_state :=
                 settle (convertActionToTask (pend_captured p) (pend_item p)
                           response answer) (ses_state y);
               ses_pending := delete n (ses_pending y);
               ses_shown :=
                 (ses_shown y
                  ++ run_effects (convertActionToTask (pend_captured p) (pend_item p)
                                    response answer))%list |})
          by (simpl; rewrite En; reflexivity).
        rewrite Hstep.
        destruct (settle_keeps_rest
                    (convertActionToTask (pend_captured p) (pend_item p) response answer)
                    (ses_state y)) as (K1 & _ & K3 & K4).
        rewrite <- K1, <- K3, <- K4.
        match goal with |- context [session_run ?z evs] => specialize (IH z) end.
        simpl in IH. apply IH.
        * intros ai Hai. apply settle_items_from in Hai as [Hai | (l & Hl & Hai)].
          -- apply Hs, Hai.
          -- apply (Hq p Hpin). eapply convert_sets_sublist; eassumption.
        * intros q Hin. apply (Hq q).
          apply list_elem_of_In. eapply list_elem_of_delete_inv.
          apply list_elem_of_In. exact Hin.
      + assert (Hstep : session_step y (Settled n response answer) = y)
          by (simpl; rewrite En; reflexivity).
        rewrite Hstep. apply IH; assumption. }
  apply Hinv; [tauto |]. rewrite Hp. intros p [].
Qed.

End Overlap.

(** ** The dashboard navigation *)

Section Navigation.
Import DashboardNav.

Lemma startsWith_get s p i c :
  Js.startsWith s p = true -> String.get i p = Some c -> String.get i s = Some c.
Proof.
  revert s i. induction p as [|a p IH]; intros s i; simpl.
  - intros _ Hg. discriminate Hg.
  - destruct s as [|b s]; simpl; [intros Hs; discriminate Hs |].
    destruct (Ascii.eqb a b) eqn:E; [| intros Hs; discriminate Hs].
    apply Ascii.eqb_eq in E as <-.
    intros Hs. destruct i as [|i]; simpl; [tauto | apply IH, Hs].
Qed.

Lemma get_append_l a b i c : String.get i a = Some c -> String.get i (a ++ b) = Some c.
Proof.
  revert i. induction a as [|x a IH]; intros i; simpl;
    [intros Hg; discriminate Hg |].
  change (String x a ++ b) with (String x (a ++ b)).
  destruct i as [|i]; simpl; [tauto | apply IH].
Qed.

Lemma append_assoc_str a b c : (a ++ b) ++ c = a ++ b ++ c.
Proof.
  induction a as [|x a IH]; [reflexivity |].
  change ((String x a ++ b) ++ c) with (String x ((a ++ b) ++ c)).
  rewrite IH. reflexivity.
Qed.

(** An active item puts its path at the front of the location. *)
Lemma isActive_get pathname path i c :
  isActive pathname path = true ->
  String.get i ("/app" ++ path) = Some c -> String.get i pathname = Some c.
Proof.
  unfold isActive. intros Ha Hg. apply orb_true_iff in Ha as [He | Hs].
  - apply String.eqb_eq in He. rewrite He. exact Hg.
  - apply (startsWith_get _ _ _ _ Hs).
    rewrite <- append_assoc_str. apply get_append_l, Hg.
Qed.

(** On every location at most one item of the navigation is shown as
    active; an item is active on its own path and on every path below it,
    so Meetings is active on the page of a single meeting; on the
    dashboard root, which shows the tasks, no item is active. *)
Theorem at_most_one_item_active (pathname : string) :
  length (active_items pathname) <= 1
  /\ active_items "/app" = []
  /\ (forall item, In item navItems ->
        isActive ("/app" ++ path item) (path item) = true
        /\ forall rest, isActive ("/app" ++ path item ++ "/" ++ rest) (path item) = true).
Proof.
  split; [| split; [reflexivity |]].
  - unfold active_items, navItems. simpl.
    destruct (isActive pathname "/tasks") eqn:Ht;
      destruct (isActive pathname "/meetings") eqn:Hm;
      destruct (isActive pathname "/settings") eqn:Hs; simpl; try lia; exfalso.
    all: repeat match goal with
         | H : isActive ?p ?q = true |- _ =>
             apply (fun H' => isActive_get p q 5 _ H' eq_refl) in H
         end; congruence.
  - intros item Hin. unfold isActive. split.
    + rewrite String.eqb_refl. reflexivity.
    + intros rest. rewrite <- !append_assoc_str.
      rewrite startsWith_app. apply orb_true_r.
Qed.

End Navigation.

(** ** The meeting list *)

Section MeetingList.
Context `{Runtime}.
Import MeetingsView.

Lemma join_cons_char sep c seg segs :
  Js.join sep (String c seg :: segs) = String c (Js.join sep (seg :: segs)).
Proof. destruct segs; reflexivity. Qed.

(** Joining the segments of a split with the separator gives the string
    back. *)
Lemma join_split sep s : Js.join (String sep "") (Js.split sep s) = s.
Proof.
  induction s as [|c r IH]; [reflexivity |]. simpl.
  destruct (Ascii.eqb_spec c sep) as [-> | Hne].
  - destruct (Js.split sep r) as [|seg segs] eqn:E;
      [exfalso; exact (split_nonempty _ _ E) |].
    change (Js.join (String sep "") ("" :: seg :: segs))
      with (String sep (Js.join (String sep "") (seg :: segs))).
    rewrite IH. reflexivity.
  - destruct (Js.split sep r) as [|seg segs] eqn:E;
      [exfalso; exact (split_nonempty _ _ E) |].
    rewrite join_cons_char, IH. reflexivity.
Qed.

Lemma split_length sep s :
  length (Js.split sep s)
  = S (length (List.filter (Ascii.eqb sep) (list_ascii_of_string s))).
Proof.
  induction s as [|c r IH]; [reflexivity |]. simpl.
  rewrite (Ascii.eqb_sym sep c).
  destruct (Ascii.eqb c sep); simpl.
  - rewrite IH. reflexivity.
  - destruct (Js.split sep r) as [|seg segs] eqn:E;
      [exfalso; exact (split_nonempty _ _ E) |].
    simpl in *. exact IH.
Qed.

Lemma mapi_from_text idx l :
  map text (mapi_from (fun line i => {| time := pretty (i + 1)%nat;
                                        speaker := "Speaker"; text := line |}) idx l)
  = l.
Proof.
  revert idx. induction l as [|x l IH]; intros idx; simpl; [reflexivity |].
  rewrite IH. reflexivity.
Qed.

(** The pseudo turns of a listed meeting are the lines of its
    transcript: one turn more than the transcript has line breaks (an
    empty transcript gives one empty turn), numbered from 1, all with the
    speaker Speaker; their texts joined by line breaks give the
    transcript back. *)
Theorem transcript_turns_roundtrip (data : MeetingData) (m : Meeting) (transcript_text : string) :
  transform data = Some m ->
  data_transcript_text data = Some transcript_text ->
  Js.join newline (map text (transcript m)) = transcript_text
  /\ length (transcript m)
     = S (length (List.filter (Ascii.eqb (ascii_of_nat 10))
                    (list_ascii_of_string transcript_text)))
  /\ (forall k turn,
        nth_error (transcript m) k = Some turn ->
        time turn = pretty (k + 1)%nat /\ speaker turn = "Speaker").
Proof.
  unfold transform. intros Ht Hd. rewrite Hd in Ht. injection Ht as <-. simpl.
  unfold mapi. split; [| split].
  - rewrite mapi_from_text. apply join_split.
  - rewrite mapi_from_length. apply split_length.
  - intros k turn Hk. rewrite mapi_from_nth in Hk.
    destruct (nth_error _ k); [| discriminate]. injection Hk as <-. split; reflexivity.
Qed.

(** The meeting list is replaced as a whole or not at all: after a
    success whose records all carry a transcript it holds one meeting per
    record, in order; a rejected request, a non-success response, an
    unparseable body or a single record without transcript leaves the
    previous list. *)
Theorem loadMeetings_all_or_nothing (response : FetchOutcome (list MeetingData))
    (meetings : list Meeting) :
  (succeeded response = false -> loadMeetings response meetings = meetings)
  /\ (forall st stt data,
        response = Responded true st stt (inr data) ->
        (Exists (fun d => data_transcript_text d = None) data ->
         loadMeetings response meetings = meetings)
        /\ (Forall (fun d => data_transcript_text d <> None) data ->
            Forall2 (fun d m => transform d = Some m /\ id m = data_id d
                                /\ title m = data_title d)
              data (loadMeetings response meetings))).
Proof.
  split.
  - destruct response as [m | [|] st stt [m | data]]; simpl; try reflexivity.
    discriminate.
  - intros st stt data ->. simpl. split.
    + intros Hex. destruct (mapM transform data) as [l|] eqn:E; [| reflexivity].
      exfalso. apply mapM_Some in E.
      induction E as [|d m ds ms Hd _ IH]; inversion Hex as [? ? Hn | ? ? Hn]; subst.
      * unfold transform in Hd. rewrite Hn in Hd. discriminate.
      * apply IH, Hn.
    + intros Hall. destruct (mapM transform data) as [l|] eqn:E.
      * apply mapM_Some in E. clear Hall.
        induction E as [|d m ds ms Hd _ IH]; constructor; [| exact IH].
        split; [exact Hd |]. unfold transform in Hd.
        destruct (data_transcript_text d); [| discriminate].
        injection Hd as <-. split; reflexivity.
      * exfalso. apply mapM_None in E.
        induction E as [d ds Hd | d ds _ IH]; inversion Hall; subst.
        -- unfold transform in Hd. destruct (data_transcript_text d);
             [discriminate | congruence].
        -- apply IH. assumption.
Qed.

(** A transcript upload is sent only for a file whose name ends in
    .docx, in these very letters; any other file gets the error notice,
    which is cleared three seconds later, and sends nothing.  When the
    upload goes ahead the settings are asked first, a non-success
    settings response does not stop the upload, and the uploading flag is
    cleared at the end on every path.  The meeting list itself is never
    changed by the handler. *)
Theorem transcript_upload_needs_docx (name : string)
    (settingsResponse : FetchOutcome SettingsBody)
    (response : FetchOutcome UploadBody) (s : State) :
  let r := handleFileUpload (Some name) settingsResponse response s in
  (run_requests r <> [] <-> exists pre, name = pre ++ ".docx")
  /\ (run_requests r = [] ->
      message (run_state r)
      = {| notice_type := "error"; notice_text := "Only .docx files are supported" |}
      /\ uploading (run_state r) = uploading s
      /\ run_later r = [ClearMessage 3000])
  /\ (run_requests r <> [] ->
      uploading (run_state r) = false
      /\ hd_error (run_requests r) = Some settings_request
      /\ (responded_ok settingsResponse = false ->
          (exists m, settingsResponse = Rejected m) \/ In upload_request (run_requests r)))
  /\ meetings (run_state r) = meetings s.
Proof.
  intros r. subst r. unfold handleFileUpload.
  destruct (Js.endsWith name ".docx") eqn:He; simpl.
  - assert (Hpre : exists pre, name = pre ++ ".docx") by (apply endsWith_split, He).
    destruct settingsResponse as [m | [|] st stt [m | b]]; simpl;
      try (destruct response as [m' | [|] st' stt' [m' | b']]; simpl);
      (split; [split; [intros _; exact Hpre | discriminate] |]);
      (split; [discriminate |]);
      (split; [| reflexivity]); intros _;
      (split; [reflexivity |]); (split; [reflexivity |]);
      first [discriminate | intros _; left; eexists; reflexivity
            | intros _; right; simpl; tauto].
  - split.
    { split; [intros Hn; exfalso; apply Hn; reflexivity |].
      intros [pre ->]. rewrite endsWith_app in He. discriminate. }
    split; [intros _; repeat split; reflexivity |].
    split; [intros Hn; exfalso; apply Hn; reflexivity | reflexivity].
Qed.

End MeetingList.

(** ** The session *)

Section Session.
Import AuthContext.
Variable JSON_stringify : User -> string.
Variable JSON_parse : string -> option User.

(** Logging out ends the session everywhere: the provider has no user
    and no token, both keys are gone from the storage while every other
    key stays, no Authorization header is sent any more, a protected
    route redirects to the login page, and a reload of the page finds no
    session to restore. *)
Theorem logout_ends_session (w : World) :
  let w' := logout w in
  user (state w') = None
  /\ token (state w') = None
  /\ localStorage w' !! "auraai_token" = None
  /\ localStorage w' !! "auraai_user" = None
  /\ (forall k, k <> "auraai_token" -> k <> "auraai_user" ->
        localStorage w' !! k = localStorage w !! k)
  /\ getAuthHeader (state w') = None
  /\ (forall (A : Type) (children : A),
        ProtectedRoute.ProtectedRoute (user (state w')) false children
        = ProtectedRoute.Navigate "/login" true)
  /\ (exists w'', mount JSON_parse {| state := initialState;
                                       localStorage := localStorage w' |} = Some w''
                  /\ user (state w'') = None /\ token (state w'') = None
                  /\ isLoading (state w'') = false).
Proof.
  intros w'. subst w'. simpl.
  assert (Ht : delete "auraai_user" (delete "auraai_token" (localStorage w))
               !! "auraai_token" = None).
  { rewrite lookup_delete_ne by discriminate. apply lookup_delete_eq. }
  split; [reflexivity |]. split; [reflexivity |]. split; [exact Ht |].
  split; [apply lookup_delete_eq |]. split.
  { intros k H1 H2. rewrite !lookup_delete_ne by congruence. reflexivity. }
  split; [reflexivity |]. split; [reflexivity |].
  unfold mount, stored. simpl. rewrite Ht.
  eexists. split; [reflexivity |]. repeat split; reflexivity.
Qed.

(** A login that succeeds survives a reload: with a token and a stored
    user that are not empty, and a stored user that parses back to the
    user, a fresh provider mounted on the storage the login left has the
    same user and token, sends the bearer header, and lets a protected
    route show its page. *)
Theorem login_survives_reload (st stt : string) (data : AuthBody) (w : World) :
  Js.truthy (access_token data) = true ->
  Js.truthy (JSON_stringify (auth_user data)) = true ->
  JSON_parse (JSON_stringify (auth_user data)) = Some (auth_user data) ->
  let after := login JSON_stringify (Responded true st stt (inr data)) w in
  snd after = Returned (auth_user data)
  /\ exists w',
       mount JSON_parse {| state := initialState;
                           localStorage := localStorage (fst after) |} = Some w'
       /\ user (state w') = Some (auth_user data)
       /\ token (state w') = Some (access_token data)
       /\ isLoading (state w') = false
       /\ state w' = {| user := user (state (fst after)); isLoading := false;
                        token := token (state (fst after)) |}
       /\ getAuthHeader (state w') = Some ("Bearer " ++ access_token data)
       /\ forall (A : Type) (children : A),
            ProtectedRoute.ProtectedRoute (user (state w')) (isLoading (state w')) children
            = ProtectedRoute.Children children.
Proof.
  intros Ht Hu Hp after. subst after. simpl. split; [reflexivity |].
  unfold mount, stored. simpl.
  rewrite lookup_insert_ne by discriminate.
  rewrite !lookup_insert_eq, Ht, Hu, Hp.
  eexists. split; [reflexivity |]. simpl.
  unfold getAuthHeader. simpl. rewrite Ht. repeat split; reflexivity.
Qed.

(** A login, sign-up or Google sign-in that fails changes neither the
    provider nor the storage and throws the reason (the detail of the
    error body, or the fall-back of the call when there is none); a
    verification of the stored token that fails, for any cause, is a
    logout. *)
Theorem failed_auth_keeps_session (fallback : string) (response : FetchOutcome AuthBody)
    (verification : FetchOutcome User) (w : World) :
  (succeeded response = false ->
   fst (authenticate JSON_stringify fallback response w) = w
   /\ exists reason,
        snd (authenticate JSON_stringify fallback response w) = Thrown reason
        /\ (forall st stt error,
              response = Responded false st stt (inr error) ->
              reason = Js.or_else (auth_detail error) fallback))
  /\ (succeeded verification = false ->
      verifyToken JSON_stringify verification w = logout w)
  /\ (forall st stt userData,
        verification = Responded true st stt (inr userData) ->
        user (state (verifyToken JSON_stringify verification w)) = Some userData
        /\ token (state (verifyToken JSON_stringify verification w)) = token (state w)
        /\ localStorage (verifyToken JSON_stringify verification w) !! "auraai_token"
           = localStorage w !! "auraai_token").
Proof.
  split; [| split].
  - destruct response as [m | [|] st stt [m | data]]; simpl; try discriminate;
      intros _; (split; [reflexivity |]); eexists; (split; [reflexivity |]);
      intros st0 stt0 error0 [=]; subst; reflexivity.
  - destruct verification as [m | [|] st stt [m | u]]; simpl; try discriminate;
      reflexivity.
  - intros st stt userData ->. simpl. repeat split.
    apply lookup_insert_ne. discriminate.
Qed.

End Session.

(** ** The meeting card *)

Section Card.
Import MeetingCard.

(** The summary preview of a meeting card is never longer than 203
    characters: a summary of up to 200 characters is shown as it is, a
    longer one as its first 200 characters and three dots, a missing or
    empty one as the placeholder. *)
Theorem summary_preview_bounded (minutesSummary : option string) :
  String.length (summary_preview minutesSummary) <= 203
  /\ (forall t, minutesSummary = Some t -> t <> "" -> String.length t <= 200 ->
        summary_preview minutesSummary = t)
  /\ (forall t, minutesSummary = Some t -> String.length t > 200 ->
        summary_preview minutesSummary = Js.substring0 200 t ++ "..."
        /\ String.length (summary_preview minutesSummary) = 203)
  /\ (Js.falsy_opt minutesSummary = true ->
      summary_preview minutesSummary = "No summary available").
Proof.
  unfold summary_preview, Js.length_gt.
  destruct minutesSummary as [t|]; simpl.
  2: { repeat split; try lia; try discriminate. }
  destruct (Js.truthy t) eqn:Ht; simpl.
  - destruct (String.length t <=? 200)%nat eqn:Hl; simpl.
    + apply Nat.leb_le in Hl. split; [lia |]. split; [intros ? [= <-]; reflexivity |].
      split; [intros ? [= <-] Hg; lia | discriminate].
    + apply Nat.leb_gt in Hl.
      assert (Hlen : String.length (Js.substring0 200 t ++ "...") = 203)
        by (rewrite length_append, substring0_length by lia; reflexivity).
      split; [lia |]. split; [intros ? [= <-] _ Hle; lia |].
      split; [intros ? [= <-] _; split; [reflexivity | exact Hlen] | discriminate].
  - split; [simpl; lia |]. apply negb_true_iff in Ht.
    split; [intros ? [= <-] Hne; apply truthy_nonempty in Hne; rewrite Hne in Ht; discriminate |].
    split; [| reflexivity].
    intros ? [= <-] Hg. destruct t; [simpl in Hg; lia | discriminate].
Qed.

End Card.

(** ** The further properties on the sample data *)

Lemma blank_or_busy_submit_ignored_witness :
  @ProductsPage.handleSubmit sampleRuntime "Trans2Actions" 1 2 (Rejected "offline")
    (ProductsPage.setInputValue "   " ProductsPage.initialState)
  = {| ProductsPage.run_state :=
         ProductsPage.setInputValue "   " ProductsPage.initialState;
       ProductsPage.run_requests := [] |}.
Proof.
  apply (@blank_or_busy_submit_ignored sampleRuntime).
  left. reflexivity.
Defined.

Lemma download_name_has_no_space_witness :
  MeetingDetail.download_name (MeetingDetail.transform sample_listed)
  = "Planning" ++ "_"
    ++ MeetingDetail.download_name (MeetingDetail.transform sample_listed_rest).
Proof.
  apply (proj2 (proj2 (proj2 (proj2
           (download_name_has_no_space (MeetingDetail.transform sample_listed)))))
           (MeetingDetail.transform sample_listed_rest) "Planning" "  ").
  - reflexivity.
  - reflexivity.
  - discriminate.
  - reflexivity.
  - reflexivity.
Defined.

Lemma upload_on_page_outcome_witness :
  exists r,
    @ProductsPage.upload_on_page sampleRuntime "Trans2Actions"
      (Some {| ProductsPage.file_name := "notes.exe" |}) 5
      (Rejected "offline") (Rejected "offline") (Rejected "offline")
      ProductsPage.initialState = Some r
    /\ ProductsPage.run_requests r
       = [ {| req_method := "GET";
              req_url := "http://localhost:8000/trans2actions/documents" |} ].
Proof.
  destruct (proj2 (@upload_on_page_outcome sampleRuntime "Trans2Actions" "notes.exe" 5
              (Rejected "offline") (Rejected "offline") (Rejected "offline")
              ProductsPage.initialState) eq_refl)
    as (r & Hr & _ & _ & _ & _ & Ht & _).
  exists r. split; [exact Hr |].
  apply (proj1 (proj2 (Ht eq_refl))). reflexivity.
Defined.

Lemma delete_on_page_outcome_witness :
  exists r,
    @ProductsPage.delete_on_page sampleRuntime "Trans2Actions" "d1" 5
      (Rejected "offline") (Rejected "offline") (Rejected "offline")
      ProductsPage.initialState = Some r
    /\ ProductsPage.run_requests r
       = [ {| req_method := "DELETE";
              req_url := "http://localhost:8000/trans2actions/documents/d1" |};
           {| req_method := "GET";
              req_url := "http://localhost:8000/trans2actions/documents" |} ].
Proof.
  destruct (proj2 (@delete_on_page_outcome sampleRuntime "Trans2Actions" "d1" 5
              (Rejected "offline") (Rejected "offline") (Rejected "offline")
              ProductsPage.initialState) eq_refl)
    as (r & Hr & _ & _ & Hreqs & _).
  exists r. split; [exact Hr | exact Hreqs].
Defined.

Lemma submit_on_page_outcome_witness :
  exists r,
    @ProductsPage.submit_on_page sampleRuntime "Trans2Actions" 10 20
      (Rejected "offline") (Rejected "offline") (Rejected "offline") false
      sample_query_state = Some r
    /\ ProductsPage.run_requests r
       = [ {| req_method := "POST";
              req_url := "http://localhost:8000/trans2actions/query" |};
           {| req_method := "GET";
              req_url := "http://localhost:8000/trans2actions/documents" |};
           {| req_method := "GET";
              req_url := "http://localhost:8000/trans2actions/documents" |} ].
Proof.
  destruct (proj2 (@submit_on_page_outcome sampleRuntime "Trans2Actions" 10 20
              (Rejected "offline") (Rejected "offline") (Rejected "offline") false
              sample_query_state ltac:(vm_compute; discriminate) eq_refl) eq_refl)
    as (r & Hr & _ & Hreqs & _).
  exists r. split; [exact Hr | exact Hreqs].
Defined.

Lemma employee_page_never_assigns_witness :
  Forall (fun request => request <> @ProductsPage.admin_assign_request sampleRuntime)
    (ProductsPage.run_requests
       (@ProductsPage.handleSubmit sampleRuntime "User-Load" 1 2
          (Rejected "offline") sample_query_state)).
Proof.
  destruct (ProductsPage.ProductsPage "User-Load" (Some sample_employee)
              sample_query_state) as [to r | v] eqn:E; [discriminate E |].
  apply (@employee_page_never_assigns sampleRuntime "User-Load" (Some sample_employee)
           1 2 (Rejected "offline") sample_query_state v); [reflexivity | exact E].
Defined.

Lemma navbar_products_render_witness :
  exists v info,
    ProductsPage.ProductsPage "User-Load" (Some sample_employee) ProductsPage.initialState
    = ProductsPage.Page v
    /\ ProductsPage.productInfo !! "User-Load" = Some info
    /\ ProductsPage.shown_product v = info.
Proof.
  destruct (navbar_products_render (Some sample_employee) ProductsPage.initialState
              {| Navbar.key := "userload"; Navbar.name := "User-Load";
                 Navbar.description :=
                   "Fetch pending tasks and deadlines, then update tasks via natural language prompts." |})
    as (v & info & Hv & Hi & Hs & _).
  - right. left. reflexivity.
  - exists v, info. split; [exact Hv |]. split; [exact Hi | exact Hs].
Defined.

Lemma fetched_tasks_match_groups_witness :
  length (TasksView.tasks
            (TasksView.run_state
               (@TasksView.fetchTasks sampleRuntime 0
                  (Responded true "200" "OK" (inr {| TasksView.workspace_id := Some "b1" |}))
                  (Responded true "200" "OK"
                     (inr (Some {| TasksView.cards := Some sample_cards |})))
                  TasksView.initialState)))
  = length (concat (map TasksView.cl_cards
              (TasksView.lists
                 (TasksView.run_state
                    (@TasksView.fetchTasks sampleRuntime 0
                       (Responded true "200" "OK"
                          (inr {| TasksView.workspace_id := Some "b1" |}))
                       (Responded true "200" "OK"
                          (inr (Some {| TasksView.cards := Some sample_cards |})))
                       TasksView.initialState))))).
Proof.
  apply (@fetched_tasks_match_groups sampleRuntime 0 "200" "OK" "200" "OK" "b1"
           (sample_card "c1" false (Some "2025-03-14T09:30:00.000Z"))
           [sample_card "c2" true None;
            sample_card "c3" false (Some "next tuesday-ish")]
           TasksView.initialState).
  reflexivity.
Defined.

Lemma counters_add_up_witness :
  TasksView.count_open (TasksView.TasksView sample_tasks_state)
  + TasksView.count_done (TasksView.TasksView sample_tasks_state)
  = TasksView.count_all (TasksView.TasksView sample_tasks_state).
Proof.
  apply (counters_add_up sample_tasks_state).
  apply (@allTasks_status_ok sampleRuntime).
Defined.

Lemma checkbox_follows_toggle_witness :
  exists t',
    nth_error (TasksView.tasks (TasksView.toggleTaskStatus "c1" sample_tasks_state)) 0
    = Some t'
    /\ TaskCard.checked (TaskCard.TaskCard (fun _ => true) t') = true.
Proof.
  destruct (checkbox_follows_toggle (fun _ => true) sample_tasks_state "c1" 0
              (@TasksView.cardToTask sampleRuntime 0
                 (sample_card "c1" false (Some "2025-03-14T09:30:00.000Z"))))
    as (t' & Hn & Hc & _).
  - apply (@allTasks_status_ok sampleRuntime).
  - reflexivity.
  - reflexivity.
  - exists t'. split; [exact Hn | exact Hc].
Defined.

Lemma summary_truncated_at_500_witness :
  exists v,
    MeetingDetail.MeetingDetail sample_detail_state = MeetingDetail.Detail v
    /\ MeetingDetail.view_summary v
       = {| MeetingDetail.block_text := "Short summary.";
            MeetingDetail.block_control := None |}.
Proof.
  destruct (summary_truncated_at_500 sample_detail_state
              (MeetingDetail.transform sample_meeting) eq_refl eq_refl)
    as (v & vs & vt & Hv & _ & _ & _ & _ & Hshort & _).
  exists v. split; [exact Hv |].
  apply Hshort. simpl. lia.
Defined.

Lemma conversion_removes_exactly_one_witness :
  exists before after,
    [item_report; item_room] = (before ++ item_room :: after)%list
    /\ MeetingDetail.run_setActionItems
         (MeetingDetail.convertActionToTask [item_report; item_room] item_room
            converted_ok false)
       = Some (before ++ after)%list.
Proof.
  destruct (conversion_removes_exactly_one [item_report; item_room] item_room
              converted_ok false) as (before & after & Hs & Hr & _).
  - repeat constructor; simpl; intuition discriminate.
  - right. left. reflexivity.
  - reflexivity.
  - exists before, after. split; [exact Hs | exact Hr].
Defined.

Lemma overlapping_conversions_never_add_witness :
  Forall (fun ai => In ai [item_report; item_room])
    (MeetingDetail.st_actionItems
       (MeetingDetail.ses_state
          (MeetingDetail.session_run
             {| MeetingDetail.ses_state := sample_detail_state;
                MeetingDetail.ses_pending := [];
                MeetingDetail.ses_shown := [] |}
             [ MeetingDetail.Click item_report;
               MeetingDetail.Click item_room;
               MeetingDetail.Settled 1 converted_ok false;
               MeetingDetail.Settled 0 refused_by_status false ]))).
Proof.
  apply List.Forall_forall.
  apply (overlapping_conversions_never_add
           {| MeetingDetail.ses_state := sample_detail_state;
              MeetingDetail.ses_pending := [];
              MeetingDetail.ses_shown := [] |}).
  reflexivity.
Defined.

Lemma transcript_turns_roundtrip_witness :
  exists m,
    MeetingsView.transform sample_listed = Some m
    /\ length (MeetingsView.transcript m) = 2
    /\ Js.join newline (map MeetingsView.text (MeetingsView.transcript m))
       = "Hello all" ++ newline ++ "Bye".
Proof.
  destruct (MeetingsView.transform sample_listed) as [m|] eqn:E; [| discriminate E].
  exists m. split; [reflexivity |].
  destruct (transcript_turns_roundtrip sample_listed m
              ("Hello all" ++ newline ++ "Bye") E eq_refl) as (Hj & Hl & _).
  split; [exact Hl | exact Hj].
Defined.

Lemma login_survives_reload_witness :
  exists w',
    AuthContext.mount sample_parse
      {| AuthContext.state := AuthContext.initialState;
         AuthContext.localStorage :=
           AuthContext.localStorage
             (fst (AuthContext.login sample_stringify sample_login_response fresh_world)) |}
    = Some w'
    /\ AuthContext.user (AuthContext.state w') = Some sample_employee.
Proof.
  destruct (login_survives_reload sample_stringify sample_parse "200" "OK"
              {| AuthContext.auth_detail := None;
                 AuthContext.access_token := "tok-123";
                 AuthContext.auth_user := sample_employee |}
              fresh_world eq_refl eq_refl eq_refl) as (_ & w' & Hm & Hu & _).
  exists w'. split; [exact Hm | exact Hu].
Defined.

(** ** The sign-up form *)

Section Signup.
Import SignupPage.

Lemma splits_spec s a b : In (a, b) (splits s) <-> s = a ++ b.
Proof.
  revert a. induction s as [|c r IH]; intros a; simpl.
  - split.
    + intros [[= <- <-] | []]. reflexivity.
    + destruct a as [|c' a'].
      * change ("" ++ b) with b. intros <-. left. reflexivity.
      * change (String c' a' ++ b) with (String c' (a' ++ b)). discriminate.
  - split.
    + intros [[= <- <-] | Hin]; [reflexivity |].
      apply in_map_iff in Hin as ([a' b'] & [= <- <-] & Hin). simpl.
      apply IH in Hin. rewrite Hin. reflexivity.
    + destruct a as [|c' a'].
      * change ("" ++ b) with b. intros <-. left. reflexivity.
      * change (String c' a' ++ b) with (String c' (a' ++ b)). intros [= <- Hr].
        right. apply in_map_iff. exists (a', b). split; [reflexivity |].
        apply IH, Hr.
Qed.

Lemma plain_word_chars w :
  plain_word w = true ->
  w <> ""
  /\ forallb (fun c => negb (Js.isSpace c)) (list_ascii_of_string w) = true
  /\ List.filter (Ascii.eqb "@") (list_ascii_of_string w) = [].
Proof.
  unfold plain_word. intros Hw. apply andb_true_iff in Hw as [Ht Hall].
  split; [apply truthy_nonempty, Ht |].
  rewrite forallb_forall in Hall. split.
  - apply forallb_forall. intros c Hc. specialize (Hall c Hc).
    unfold plain in Hall. apply andb_true_iff in Hall. tauto.
  - apply filter_none. intros c Hc. specialize (Hall c Hc).
    unfold plain in Hall. apply andb_true_iff in Hall as [_ Hat].
    apply negb_true_iff in Hat. rewrite Ascii.eqb_sym. exact Hat.
Qed.

(** The strings that pass the e-mail test. *)
Lemma email_test_shape s :
  email_test s = true <->
  exists x y z,
    s = x ++ "@" ++ y ++ "." ++ z
    /\ plain_word x = true /\ plain_word y = true /\ plain_word z = true.
Proof.
  unfold email_test. rewrite existsb_exists. split.
  - intros ([x r] & Hin & Hm). simpl in Hm. apply splits_spec in Hin.
    apply andb_true_iff in Hm as [Hx Hr].
    destruct r as [|c d]; [discriminate |].
    destruct (Ascii.eqb_spec c "@") as [-> | Hne].
    2: { exfalso. destruct c as [[] [] [] [] [] [] [] []]; try discriminate Hr.
         apply Hne. reflexivity. }
    apply existsb_exists in Hr as ([y r2] & Hin2 & Hm2). simpl in Hm2.
    apply splits_spec in Hin2. apply andb_true_iff in Hm2 as [Hy Hz].
    destruct r2 as [|c2 z]; [discriminate |].
    destruct (Ascii.eqb_spec c2 ".") as [-> | Hne].
    2: { exfalso. destruct c2 as [[] [] [] [] [] [] [] []]; try discriminate Hz.
         apply Hne. reflexivity. }
    exists x, y, z. rewrite Hin, Hin2. repeat split; assumption.
  - intros (x & y & z & -> & Hx & Hy & Hz).
    exists (x, String "@" (y ++ String "." z)).
    split; [apply splits_spec; reflexivity |].
    simpl. rewrite Hx. simpl. apply existsb_exists.
    exists (y, String "." z). split; [apply splits_spec; reflexivity |].
    simpl. rewrite Hy, Hz. reflexivity.
Qed.

Lemma valid_email_trim s : email_test s = true -> Js.trim s <> "".
Proof.
  intros Ht. apply email_test_shape in Ht as (x & y & z & -> & Hx & _).
  destruct (plain_word_chars x Hx) as (Hx0 & Hx1 & _).
  intros Hb. apply trim_empty_iff in Hb.
  rewrite chars_append, forallb_app in Hb. apply andb_true_iff in Hb as [Hb _].
  destruct x as [|c x]; [congruence |]. simpl in Hb, Hx1.
  apply andb_true_iff in Hb as [Hb _]. apply andb_true_iff in Hx1 as [Hx1 _].
  rewrite Hb in Hx1. discriminate.
Qed.

(** An address that passes the e-mail test holds no white space and
    exactly one at sign, with a word before it and, after it, two words
    with a dot between them; in particular it has at least five
    characters and is left as it is by trimming. *)
Theorem valid_email_shape (s : string) :
  email_test s = true ->
  forallb (fun c => negb (Js.isSpace c)) (list_ascii_of_string s) = true
  /\ length (List.filter (Ascii.eqb "@") (list_ascii_of_string s)) = 1
  /\ 5 <= String.length s
  /\ Js.trim s <> ""
  /\ exists x y z, s = x ++ "@" ++ y ++ "." ++ z /\ x <> "" /\ y <> "" /\ z <> "".
Proof.
  intros Ht. apply email_test_shape in Ht as (x & y & z & -> & Hx & Hy & Hz).
  destruct (plain_word_chars x Hx) as (Hx0 & Hx1 & Hx2).
  destruct (plain_word_chars y Hy) as (Hy0 & Hy1 & Hy2).
  destruct (plain_word_chars z Hz) as (Hz0 & Hz1 & Hz2).
  assert (Hns : forallb (fun c => negb (Js.isSpace c))
                  (list_ascii_of_string (x ++ "@" ++ y ++ "." ++ z)) = true).
  { rewrite !chars_append, !forallb_app, Hx1, Hy1, Hz1. reflexivity. }
  split; [exact Hns |]. split.
  { rewrite !chars_append, !List.filter_app, Hx2, Hy2, Hz2. reflexivity. }
  split.
  { rewrite !length_append. simpl.
    destruct x; [congruence |]. destruct y; [congruence |]. destruct z; [congruence |].
    simpl. lia. }
  split.
  { apply valid_email_trim, email_test_shape. exists x, y, z. tauto. }
  exists x, y, z. repeat split; assumption.
Qed.

Lemma guarded_insert_empty (b : bool) (k v : string) (m : gmap string string) :
  (if b then <[k := v]> m else m) = ∅ <-> b = false /\ m = ∅.
Proof.
  destruct b; split.
  - intros He. exfalso. exact (insert_non_empty _ _ _ He).
  - intros [Hb _]. discriminate.
  - tauto.
  - tauto.
Qed.

(** The form passes the validation, with no error on any field, exactly
    when the name is not blank, the e-mail passes the e-mail test, the
    password has at least six characters and equals its confirmation,
    and a role is chosen. *)
Theorem signup_form_checked (fd : FormData) :
  validateForm fd = ∅ <->
  Js.trim (name fd) <> ""
  /\ email_test (email fd) = true
  /\ 6 <= String.length (password fd)
  /\ password fd = confirmPassword fd
  /\ persona fd <> "".
Proof.
  unfold validateForm.
  rewrite guarded_insert_empty, guarded_insert_empty.
  rewrite !negb_false_iff, String.eqb_eq, !truthy_nonempty.
  assert (H3 : forall m : gmap string string,
    (if negb (Js.truthy (password fd)) then <["password" := "Password is required"]> m
     else if (String.length (password fd) <? 6)%nat
          then <["password" := "Password must be at least 6 characters"]> m else m) = ∅
    <-> 6 <= String.length (password fd) /\ m = ∅).
  { intros m. destruct (Js.truthy (password fd)) eqn:Hp; simpl.
    - rewrite guarded_insert_empty, Nat.ltb_ge. tauto.
    - split; [intros He; exfalso; exact (insert_non_empty _ _ _ He) |].
      intros [Hl _]. destruct (password fd); [simpl in Hl; lia | discriminate]. }
  assert (H2 : forall m : gmap string string,
    (if negb (Js.truthy (Js.trim (email fd))) then <["email" := "Email is required"]> m
     else if negb (email_test (email fd))
          then <["email" := "Please enter a valid email"]> m else m) = ∅
    <-> email_test (email fd) = true /\ m = ∅).
  { intros m. destruct (Js.truthy (Js.trim (email fd))) eqn:Hp; simpl.
    - rewrite guarded_insert_empty, negb_false_iff. tauto.
    - split; [intros He; exfalso; exact (insert_non_empty _ _ _ He) |].
      intros [Ht _]. exfalso. apply valid_email_trim in Ht.
      apply truthy_nonempty in Ht. congruence. }
  rewrite H3, H2, guarded_insert_empty, negb_false_iff, truthy_nonempty.
  tauto.
Qed.

End Signup.

Lemma or_else_nonempty (o : option string) (d : string) :
  d <> "" -> Js.or_else o d <> "".
Proof.
  intros Hd. unfold Js.or_else. destruct o as [t|]; [| exact Hd].
  destruct (Js.truthy t) eqn:Ht; [apply truthy_nonempty, Ht | exact Hd].
Qed.

(** The closing steps for a sign-up that failed. *)
Ltac failed_signup :=
  split; [reflexivity |]; split; [reflexivity |]; split; [reflexivity |];
  eexists; split; [reflexivity |];
  match goal with
  | |- (if Js.truthy ?m then _ else ?d) <> _ =>
      apply (or_else_nonempty (Some m) d); discriminate
  end.

Section SignupSubmit.
Import SignupPage.
Variable JSON_stringify : User -> string.

(** A form with an error on any field is never sent: the errors are
    shown, the session and the storage stay as they are and the page
    does not navigate.  A form without errors is sent once; when the
    sign-up succeeds the session holds the returned user and the page
    leaves for the dashboard; when it fails the session is untouched, the
    reason is shown as the form error and the form is enabled again. *)
Theorem signup_submit_outcome (response : FetchOutcome AuthContext.AuthBody)
    (s : State) (w : AuthContext.World) :
  let r := handleSubmit JSON_stringify response s w in
  formData (run_state r) = formData s
  /\ (validateForm (formData s) <> ∅ ->
      run_sent r = false /\ run_navigates r = false /\ run_world r = w
      /\ errors (run_state r) = validateForm (formData s)
      /\ loading (run_state r) = loading s)
  /\ (validateForm (formData s) = ∅ ->
      run_sent r = true
      /\ (forall st stt data,
            response = Responded true st stt (inr data) ->
            run_navigates r = true
            /\ errors (run_state r) = ∅
            /\ AuthContext.user (AuthContext.state (run_world r))
               = Some (AuthContext.auth_user data)
            /\ AuthContext.localStorage (run_world r) !! "auraai_token"
               = Some (AuthContext.access_token data))
      /\ (succeeded response = false ->
          run_navigates r = false /\ run_world r = w
          /\ loading (run_state r) = false
          /\ exists reason, errors (run_state r) = <["form" := reason]> ∅
                            /\ reason <> "")).
Proof.
  intros r. subst r. unfold handleSubmit.
  destruct (bool_decide (validateForm (formData s) = ∅)) eqn:Hv; simpl.
  - apply bool_decide_eq_true in Hv.
    destruct response as [m | [|] st stt [m | data]]; simpl;
      (split; [reflexivity |]); (split; [congruence |]); intros _;
      (split; [reflexivity |]).
    + split; [intros st0 stt0 data0 Heq; discriminate Heq | intros _; failed_signup].
    + split; [intros st0 stt0 data0 Heq; discriminate Heq | intros _; failed_signup].
    + split; [| discriminate].
      intros st0 stt0 data0 [= _ _ <-]. repeat split.
      rewrite lookup_insert_ne by discriminate. apply lookup_insert_eq.
    + split; [intros st0 stt0 data0 Heq; discriminate Heq | intros _; failed_signup].
    + split; [intros st0 stt0 data0 Heq; discriminate Heq | intros _; failed_signup].
  - apply bool_decide_eq_false in Hv.
    split; [reflexivity |]. split; [intros _; repeat split; reflexivity |].
    intros He. contradiction.
Qed.

End SignupSubmit.

Lemma valid_email_shape_witness :
  length (List.filter (Ascii.eqb "@") (list_ascii_of_string "eve@example.com")) = 1
  /\ 5 <= String.length "eve@example.com".
Proof.
  destruct (valid_email_shape "eve@example.com" eq_refl) as (_ & Hat & Hlen & _).
  split; [exact Hat | exact Hlen].
Defined.

Example sample_form_is_valid :
  SignupPage.validateForm sample_form = ∅
  /\ SignupPage.email_test "eve@example" = false
  /\ SignupPage.email_test "eve @example.com" = false
  /\ SignupPage.email_test "eve@@example.com" = false.
Proof. repeat split; vm_compute; reflexivity. Qed.
